(** * Verification of the prism analytical core

    Shallow embedding of the scoring, budget optimization, degradation
    forecasting, corridor bundling and winter vulnerability services of
    [src/backend].  Python floats are modelled as exact rationals [Q];
    Python's [round(x, 1)] is modelled as round-half-even to one decimal. *)

From Stdlib Require Import QArith Qround Qabs Qminmax Lqa Lia ZArith List String Bool.
From Stdlib Require Import Sorted Permutation.
Import ListNotations.
Open Scope Q_scope.

(** ** Shared helpers: Python numeric builtins over [Q] *)

Module Py.

(** [a < b] as a boolean. *)
Definition Qltb (a b : Q) : bool := negb (Qle_bool b a).

(** Python's [max(a, b)]: keeps [a] unless [b] is strictly greater. *)
Definition max (a b : Q) : Q := if Qltb a b then b else a.

(** Python's [min(a, b)]: keeps [a] unless [b] is strictly smaller. *)
Definition min (a b : Q) : Q := if Qltb b a then b else a.

(** Python's [round(x, n)] on a float, with [s = 10^n]: nearest multiple of
    [1/s], ties to even. *)
Definition round_scaled (s : Q) (x : Q) : Q :=
  let y := x * s in
  let f := Qfloor y in
  let d := y - inject_Z f in
  let r :=
    if Qltb d (1 # 2) then f
    else if Qltb (1 # 2) d then (f + 1)%Z
    else if Z.even f then f else (f + 1)%Z in
  inject_Z r / s.

(** [round(x, 1)], [round(x, 2)] and [round(x, 0)] *)
Definition round1 (x : Q) : Q := round_scaled 10 x.
Definition round2 (x : Q) : Q := round_scaled 100 x.
Definition round0 (x : Q) : Q := round_scaled 1 x.

(** Truthiness of an optional number: [x or d] in Python, where both
    [None] and [0] are falsy. *)
Definition or_default (o : option Q) (d : Q) : Q :=
  match o with
  | Some x => if Qeq_bool x 0 then d else x
  | None => d
  end.

(** [x or d] on an optional integer. *)
Definition or_default_Z (o : option Z) (d : Z) : Z :=
  match o with
  | Some x => if Z.eqb x 0 then d else x
  | None => d
  end.

(** [x or d] on an optional string: [None] and [""] are falsy. *)
Definition or_default_str (o : option string) (d : string) : string :=
  match o with
  | Some s => if String.eqb s EmptyString then d else s
  | None => d
  end.

(** [sorted(l, key=key, reverse=True)]: stable sort by descending key, where
    elements with equal keys keep their input order. *)
Fixpoint insert_desc {A} (key : A -> Q) (x : A) (l : list A) : list A :=
  match l with
  | [] => [x]
  | y :: l' => if Qltb (key x) (key y) then y :: insert_desc key x l'
               else x :: y :: l'
  end.

Fixpoint sort_desc {A} (key : A -> Q) (l : list A) : list A :=
  match l with
  | [] => []
  | x :: l' => insert_desc key x (sort_desc key l')
  end.

(** [sum(f(x) for x in l)] *)
Definition sumQ {A} (f : A -> Q) (l : list A) : Q :=
  fold_right (fun x acc => f x + acc) 0 l.

End Py.

(** ** funding_optimizer_service.py *)

Module FundingOptimizer.
Import Py.

(** A scored bridge or road section, as produced by
    [get_bridges_for_optimization] / [get_roads_for_optimization]:
    [is_critical = risk_score > 85], [is_high_risk = risk_score > 70]. *)
Record Item := mkItem {
  item_id : nat;
  risk_score : Q;
  estimated_repair_cost : Q;
  risk_cost_ratio : Q
}.

Definition is_critical (x : Item) : bool := Qltb 85 (risk_score x).
Definition is_high_risk (x : Item) : bool := Qltb 70 (risk_score x).

Inductive Kind := KBridge | KRoad.

Inductive Warning :=
| NoInfrastructure
| CriticalBridgesUnfunded (n : nat) (cost : Q)
| CriticalRoadsUnfunded (n : nat) (cost : Q).

(** The mutable locals of the selection loops of [optimize_budget]. *)
Record OptState := mkState {
  selected_bridges : list Item;
  selected_roads : list Item;
  remaining_budget : Q;
  unfunded_critical_bridges : list Item;
  unfunded_critical_roads : list Item
}.

(** Append [x] to the selected list of its kind and pay for it. *)
Definition fund (k : Kind) (x : Item) (s : OptState) : OptState :=
  let rem := remaining_budget s - estimated_repair_cost x in
  match k with
  | KBridge => mkState (selected_bridges s ++ [x]) (selected_roads s) rem
                 (unfunded_critical_bridges s) (unfunded_critical_roads s)
  | KRoad => mkState (selected_bridges s) (selected_roads s ++ [x]) rem
                 (unfunded_critical_bridges s) (unfunded_critical_roads s)
  end.

(** Body of the loops [for bridge in critical_bridges] and
    [for road in critical_roads]. *)
Definition critical_step (k : Kind) (s : OptState) (x : Item) : OptState :=
  if Qle_bool (estimated_repair_cost x) (remaining_budget s) then fund k x s
  else match k with
       | KBridge => mkState (selected_bridges s) (selected_roads s)
                      (remaining_budget s)
                      (unfunded_critical_bridges s ++ [x]) (unfunded_critical_roads s)
       | KRoad => mkState (selected_bridges s) (selected_roads s)
                      (remaining_budget s)
                      (unfunded_critical_bridges s) (unfunded_critical_roads s ++ [x])
       end.

(** Body of the loops over [high_risk_items] and [other_items]. *)
Definition pool_step (s : OptState) (kx : Kind * Item) : OptState :=
  let (k, x) := kx in
  if Qle_bool (estimated_repair_cost x) (remaining_budget s) then fund k x s
  else s.

Definition rcr_of (kx : Kind * Item) : Q := risk_cost_ratio (snd kx).

(** Merge two tiers into one tagged pool sorted by RCR descending. *)
Definition merged_pool (bs rs : list Item) : list (Kind * Item) :=
  sort_desc rcr_of (map (pair KBridge) bs ++ map (pair KRoad) rs).

Record OptimizationResult := mkResult {
  res_selected_bridges : list Item;
  res_selected_roads : list Item;
  total_bridges_selected : nat;
  total_roads_selected : nat;
  total_cost : Q;
  budget_remaining : Q;
  budget_utilization_percent : Q;
  total_risk_reduction : Q;
  risk_reduction_percent : Q;
  avg_risk_score : Q;
  critical_bridges_funded : nat;
  critical_bridges_unfunded : nat;
  res_unfunded_critical_bridges : list Item;
  critical_roads_funded : nat;
  critical_roads_unfunded : nat;
  res_unfunded_critical_roads : list Item;
  warnings : list Warning
}.

Definition pct (num den : Q) : Q :=
  round1 (if Qltb 0 den then num / den * 100 else 0).

(** Step 1 of the selection: the loops over [critical_bridges] and then
    [critical_roads], each sorted by RCR descending. *)
Definition critical_phase (bridges roads : list Item) (budget : Q) : OptState :=
  let critical_bridges := sort_desc risk_cost_ratio (filter is_critical bridges) in
  let critical_roads := sort_desc risk_cost_ratio (filter is_critical roads) in
  let s0 := mkState [] [] budget [] [] in
  let s1 := fold_left (critical_step KBridge) critical_bridges s0 in
  fold_left (critical_step KRoad) critical_roads s1.

(** Step 1 as read from the claim C2: critical bridges and roads in a
    single pool sorted by RCR descending. *)
Definition critical_phase_single_pool (bridges roads : list Item) (budget : Q)
    : OptState :=
  let pool := sort_desc rcr_of (map (pair KBridge) (filter is_critical bridges)
                                ++ map (pair KRoad) (filter is_critical roads)) in
  fold_left (fun s kx => critical_step (fst kx) s (snd kx)) pool
    (mkState [] [] budget [] []).

(** The selection algorithm of [optimize_budget] (steps 1 to 3) on the
    filtered [bridges] and [roads]. *)
Definition select_items (bridges roads : list Item) (budget : Q)
    (include_medium_risk : bool) : OptState :=
  let high_risk_bridges :=
    filter (fun b => is_high_risk b && negb (is_critical b)) bridges in
  let other_bridges := filter (fun b => negb (is_high_risk b)) bridges in
  let high_risk_roads :=
    filter (fun r => is_high_risk r && negb (is_critical r)) roads in
  let other_roads := filter (fun r => negb (is_high_risk r)) roads in
  let high_risk_bridges := sort_desc risk_cost_ratio high_risk_bridges in
  let other_bridges := sort_desc risk_cost_ratio other_bridges in
  let high_risk_roads := sort_desc risk_cost_ratio high_risk_roads in
  let other_roads := sort_desc risk_cost_ratio other_roads in
  (* 1. critical bridges, then critical roads *)
  let s2 := critical_phase bridges roads budget in
  (* 2. high-risk pool *)
  let s3 := fold_left pool_step (merged_pool high_risk_bridges high_risk_roads) s2 in
  (* 3. medium-risk pool *)
  if include_medium_risk
  then fold_left pool_step (merged_pool other_bridges other_roads) s3
  else s3.

(** [optimize_budget region budget include_medium_risk include_roads], where
    [all_bridges] / [all_roads] are the scored items of the region before the
    [min_risk_score] filter of the [get_*_for_optimization] helpers. *)
Definition optimize_budget (all_bridges all_roads : list Item) (budget : Q)
    (include_medium_risk include_roads : bool) : OptimizationResult :=
  let min_risk := if include_medium_risk then 55 else 70 in
  let bridges := filter (fun b => Qle_bool min_risk (risk_score b)) all_bridges in
  let roads := if include_roads
               then filter (fun r => Qle_bool min_risk (risk_score r)) all_roads
               else [] in
  match bridges, roads with
  | [], [] =>
      mkResult [] [] 0 0 0 budget 0 0 0 0 0 0 [] 0 0 [] [NoInfrastructure]
  | _, _ =>
      let s4 := select_items bridges roads budget include_medium_risk in
      let sb := selected_bridges s4 in
      let sr := selected_roads s4 in
      let remaining := remaining_budget s4 in
      let total := budget - remaining in
      let reduction := sumQ risk_score sb + sumQ risk_score sr in
      let max_reduction := sumQ risk_score bridges + sumQ risk_score roads in
      let all_selected := sb ++ sr in
      let ub := unfunded_critical_bridges s4 in
      let ur := unfunded_critical_roads s4 in
      let w1 := match ub with
                | [] => []
                | _ => [CriticalBridgesUnfunded (List.length ub)
                          (sumQ estimated_repair_cost ub)]
                end in
      let w2 := match ur with
                | [] => []
                | _ => [CriticalRoadsUnfunded (List.length ur)
                          (sumQ estimated_repair_cost ur)]
                end in
      mkResult sb sr (List.length sb) (List.length sr) total remaining
        (pct total budget) reduction (pct reduction max_reduction)
        (round1 (match all_selected with
                 | [] => 0
                 | _ => sumQ risk_score all_selected
                        / inject_Z (Z.of_nat (List.length all_selected))
                 end))
        (List.length (filter is_critical sb)) (List.length ub) ub
        (List.length (filter is_critical sr)) (List.length ur) ur
        (w1 ++ w2)
  end.

End FundingOptimizer.

(** ** Risk scores of funding_optimizer_service.py *)

Module RiskScore.
Import Py.

(** [CONDITION_RISK_SCORES.get(condition, 50)] *)
Definition condition_risk_score (c : option string) : Q :=
  match c with
  | Some "Critical"%string => 90
  | Some "Poor"%string => 72
  | Some "Fair"%string => 45
  | Some "Good"%string => 20
  | Some "Unknown"%string => 50
  | _ => 50
  end.

(** A raw Python value as the bridge code observes it: its truth value
    [bool(v)], the result of [int(str(v)[:4])] ([None] when that raises
    [ValueError] or [TypeError]) and the result of [float(v)] ([None] when
    that raises).  The cached columns [condition_index] and [year_built]
    are strings, so a stored ["0"] is truthy. *)
Record PyValue := mkPyValue {
  pv_truthy : bool;
  pv_int4 : option Z;
  pv_float : option Q
}.

(** [None], or a missing key read with [.get]. *)
Definition py_none : PyValue := mkPyValue false None None.

(** A string column value holding a decimal integer literal of at most four
    digits, e.g. ["1950"] or ["0"]: non-empty, hence truthy. *)
Definition py_digits (n : Z) : PyValue := mkPyValue true (Some n) (Some (inject_Z n)).

(** The fields of a bridge dict read by [_calculate_risk_score]; [None] for
    [condition] is a missing key or a [None] value. *)
Record Bridge := mkBridge {
  b_condition : option string;
  b_condition_index : PyValue;
  b_year_built : PyValue
}.

(** [_calculate_risk_score]; [now_year] is [datetime.now().year]. *)
Definition calculate_risk_score (now_year : Z) (b : Bridge) : Q :=
  let base_score := condition_risk_score
                      (match b_condition b with
                       | Some c => Some c
                       | None => Some "Unknown"%string
                       end) in
  (* Age adjustment: [if year_built:], then [int(str(year_built)[:4])]
     under [except (ValueError, TypeError): pass] *)
  let base_score :=
    if pv_truthy (b_year_built b) then
      match pv_int4 (b_year_built b) with
      | Some year =>
          let age := inject_Z (now_year - year) in
          if Qltb 30 age then base_score + min 20 ((age - 30) * 0.3)
          else base_score
      | None => base_score
      end
    else base_score in
  (* Condition index adjustment: [if condition_index:], then
     [float(condition_index)] under the same [except] *)
  let base_score :=
    if pv_truthy (b_condition_index b) then
      match pv_float (b_condition_index b) with
      | Some idx => max base_score (100 - idx)
      | None => base_score
      end
    else base_score in
  min 100 (max 0 base_score).

(** The columns of a [CachedRoadCondition] row read by
    [_calculate_road_risk_score]. *)
Record Road := mkRoad {
  r_condition : option string;
  r_pci : option Q;
  r_iri : option Q;
  r_dmi : option Q;
  r_aadt : option Z
}.

(** [_calculate_road_risk_score] *)
Definition calculate_road_risk_score (r : Road) : Q :=
  let condition := or_default_str (r_condition r) "Unknown" in
  let base_score := condition_risk_score (Some condition) in
  let base_score :=
    match r_pci r with
    | Some pci => max base_score (100 - pci)
    | None => base_score
    end in
  let base_score :=
    match r_iri r with
    | Some iri => if Qltb 4.0 iri then base_score + 15
                  else if Qltb 2.5 iri then base_score + 8
                  else base_score
    | None => base_score
    end in
  let base_score :=
    match r_dmi r with
    | Some dmi => if Qltb 70 dmi then base_score + 10
                  else if Qltb 50 dmi then base_score + 5
                  else base_score
    | None => base_score
    end in
  let base_score :=
    match r_aadt r with
    | Some aadt => if Z.ltb 50000 aadt then base_score + 10
                   else if Z.ltb 20000 aadt then base_score + 5
                   else base_score
    | None => base_score
    end in
  min 100 (max 0 base_score).

(** The ordered condition labels, worst last. *)
Inductive Label := Good | Fair | Poor | Critical.

Definition label_name (l : Label) : string :=
  match l with
  | Good => "Good" | Fair => "Fair" | Poor => "Poor" | Critical => "Critical"
  end%string.

Definition label_rank (l : Label) : nat :=
  match l with Good => 0 | Fair => 1 | Poor => 2 | Critical => 3 end.

Definition road_with_pci (r : Road) (p : option Q) : Road :=
  mkRoad (r_condition r) p (r_iri r) (r_dmi r) (r_aadt r).

Definition road_with_condition (r : Road) (c : option string) : Road :=
  mkRoad c (r_pci r) (r_iri r) (r_dmi r) (r_aadt r).

(** [worse r1 r2]: the two records are identical except that [r1] has a
    strictly lower PCI or a strictly worse condition label. *)
Inductive worse : Road -> Road -> Prop :=
| worse_pci r p1 p2 :
    p1 < p2 -> worse (road_with_pci r (Some p1)) (road_with_pci r (Some p2))
| worse_label r l1 l2 :
    (label_rank l2 < label_rank l1)%nat ->
    worse (road_with_condition r (Some (label_name l1)))
          (road_with_condition r (Some (label_name l2))).

(** The bridge score in the order stated by claim C3: the larger of the label
    score and [100 - condition_index] first, then the age penalty. *)
Definition risk_score_max_then_age (now_year : Z) (b : Bridge) : Q :=
  let base_score := condition_risk_score
                      (match b_condition b with
                       | Some c => Some c
                       | None => Some "Unknown"%string
                       end) in
  let base_score :=
    if pv_truthy (b_condition_index b) then
      match pv_float (b_condition_index b) with
      | Some idx => max base_score (100 - idx)
      | None => base_score
      end
    else base_score in
  let base_score :=
    if pv_truthy (b_year_built b) then
      match pv_int4 (b_year_built b) with
      | Some year =>
          let age := inject_Z (now_year - year) in
          if Qltb 30 age then base_score + min 20 ((age - 30) * 0.3)
          else base_score
      | None => base_score
      end
    else base_score in
  min 100 (max 0 base_score).

End RiskScore.

(** ** Road records returned by [RoadDegradationService.get_road_conditions] *)

Module RoadData.

(** A road dict; [None] is a missing key or a [None] value.  The string
    fields read with [road.get(key, '')] default to [""]. *)
Record RoadDict := mkRoadDict {
  d_highway : option string;
  d_direction : string;
  d_section_from : string;
  d_section_to : string;
  d_km_start : option Q;
  d_km_end : option Q;
  d_pci : option Q;
  d_dmi : option Q;
  d_iri : option Q;
  d_pavement_type : option string;
  d_aadt : option Z;
  d_pavement_age : option Z
}.

Definition with_pci (r : RoadDict) (p : option Q) : RoadDict :=
  mkRoadDict (d_highway r) (d_direction r) (d_section_from r) (d_section_to r)
    (d_km_start r) (d_km_end r) p (d_dmi r) (d_iri r) (d_pavement_type r)
    (d_aadt r) (d_pavement_age r).

End RoadData.

(** ** road_degradation_service.py *)

Module RoadDegradation.
Import Py RoadData.

Inductive ClimateZone := ARCTIC | COLD | MODERATE | MILD | MOUNTAIN.

(** [CLIMATE_DEGRADATION_FACTORS] *)
Definition climate_degradation_factor (z : ClimateZone) : Q :=
  match z with
  | ARCTIC => 1.5 | COLD => 1.3 | MODERATE => 1.0 | MILD => 0.8 | MOUNTAIN => 1.4
  end.

(** [PROVINCE_CLIMATE_ZONES.get(province, ClimateZone.MODERATE)] *)
Definition province_climate_zone (p : string) : ClimateZone :=
  match p with
  | "British Columbia" => MILD
  | "Alberta" | "Saskatchewan" | "Manitoba" => COLD
  | "Newfoundland and Labrador" => COLD
  | "Yukon" | "Northwest Territories" | "Nunavut" => ARCTIC
  | _ => MODERATE
  end%string.

(** [PAVEMENT_BASE_DEGRADATION.get(pavement_type, -5.0)] *)
Definition pavement_base_degradation (t : string) : Q :=
  match t with
  | "AC" => -4.5 | "PCC" => -2.5 | "COMP" => -3.5 | "ST" => -6.0
  | "GRAVEL" => -8.0 | "UNKNOWN" => -5.0 | _ => -5.0
  end%string.

(** [TRAFFIC_DEGRADATION_FACTORS]; the last threshold is [float('inf')]. *)
Definition traffic_degradation_factors : list (option Z * Q) :=
  [(Some 5000%Z, 0.8); (Some 15000%Z, 1.0); (Some 30000%Z, 1.3);
   (Some 50000%Z, 1.6); (Some 100000%Z, 2.0); (None, 2.5)].

(** [get_traffic_factor] *)
Definition get_traffic_factor (aadt : option Z) : Q :=
  let aadt := match aadt with Some a => a | None => 15000%Z end in
  let fix go (l : list (option Z * Q)) : Q :=
    match l with
    | [] => 2.5
    | (Some t, f) :: l' => if Z.ltb aadt t then f else go l'
    | (None, f) :: _ => f
    end in
  go traffic_degradation_factors.

(** [get_pci_acceleration_factor] *)
Definition get_pci_acceleration_factor (pci : Q) : Q :=
  if Qle_bool 70 pci then 1.0
  else if Qle_bool 60 pci then 1.2
  else if Qle_bool 50 pci then 1.5
  else if Qle_bool 40 pci then 1.8
  else 2.2.

(** [calculate_degradation_rate] with its default [maintenance_score]. *)
Definition calculate_degradation_rate_ms (current_pci : Q) (pavement_type : string)
    (climate_zone : ClimateZone) (aadt : option Z) (pavement_age : option Z)
    (maintenance_score : Q) : Q :=
  let base_rate := pavement_base_degradation pavement_type in
  let climate_factor := climate_degradation_factor climate_zone in
  let traffic_factor := get_traffic_factor aadt in
  let pci_factor := get_pci_acceleration_factor current_pci in
  let age_factor :=
    match pavement_age with
    | None => 1.0
    | Some a => if Z.ltb 20 a then 1.3
                else if Z.ltb 15 a then 1.15
                else if Z.ltb 10 a then 1.0
                else 0.9
    end in
  let final_rate := base_rate * climate_factor * traffic_factor * pci_factor
                    * age_factor * maintenance_score in
  max (-12.0) (min (-2.0) final_rate).

Definition calculate_degradation_rate (current_pci : Q) (pavement_type : string)
    (climate_zone : ClimateZone) (aadt : option Z) (pavement_age : option Z) : Q :=
  calculate_degradation_rate_ms current_pci pavement_type climate_zone aadt
    pavement_age 1.0.

(** The dict [{year: predicted_pci}] in insertion order. *)
Definition Trajectory := list (nat * Q).

(** The loop [for year in range(year, ...)] of [forecast_pci], run [k] more
    times on the unrounded running [pci]. *)
Fixpoint forecast_loop (k : nat) (year : nat) (pci : Q) (pavement_type : string)
    (climate_zone : ClimateZone) (aadt : option Z) (pavement_age : option Z)
    : Trajectory :=
  match k with
  | O => []
  | S k' =>
      let age := match pavement_age with
                 | Some a => if Z.eqb a 0 then None
                             else Some (a + Z.of_nat year)%Z
                 | None => None
                 end in
      let rate := calculate_degradation_rate pci pavement_type climate_zone
                    aadt age in
      let pci' := max 0 (pci + rate) in
      (year, round1 pci') ::
        forecast_loop k' (S year) pci' pavement_type climate_zone aadt pavement_age
  end.

(** [forecast_pci] *)
Definition forecast_pci (current_pci : Q) (years : nat) (pavement_type : string)
    (climate_zone : ClimateZone) (aadt : option Z) (pavement_age : option Z)
    : Trajectory :=
  (0%nat, current_pci) ::
    forecast_loop years 1 current_pci pavement_type climate_zone aadt pavement_age.

(** [INTERVENTION_COSTS] through [get_cost_per_m2] *)
Definition get_cost_per_m2 (pci : Q) : Q :=
  if Qle_bool 70 pci then 8.0
  else if Qle_bool 50 pci then 25.0
  else if Qle_bool 30 pci then 45.0
  else 65.0.

Definition area_per_km : Q := 3700.

(** The search loop of [find_optimal_intervention], with
    [min_lifecycle_cost = float('inf')] as [None]; it stops at the first
    [pci <= 25] ([break]). *)
Fixpoint optimal_scan (fc : Trajectory) (optimal_year : nat) (optimal_pci : Q)
    (min_cost : option Q) : nat * Q :=
  match fc with
  | [] => (optimal_year, optimal_pci)
  | (year, pci) :: fc' =>
      if Qle_bool pci 25 then (optimal_year, optimal_pci)
      else
        let cost := get_cost_per_m2 pci * area_per_km in
        let discounted_cost := cost / Qpower 1.03 (Z.of_nat year) in
        let better := match min_cost with
                      | None => true
                      | Some m => Qltb discounted_cost m
                      end in
        if Qle_bool 65 pci && Qle_bool pci 75 && better
        then optimal_scan fc' year pci (Some discounted_cost)
        else optimal_scan fc' optimal_year optimal_pci min_cost
  end.

(** First item of the trajectory whose PCI satisfies [p] ([for ... break]). *)
Fixpoint first_where (p : Q -> bool) (fc : Trajectory) : option (nat * Q) :=
  match fc with
  | [] => None
  | (y, v) :: fc' => if p v then Some (y, v) else first_where p fc'
  end.

Record Intervention := mkIntervention {
  optimal_year : nat;
  optimal_pci : Q;
  cost_now : Q;
  cost_optimal : Q;
  cost_delayed : Q
}.

(** [find_optimal_intervention] *)
Definition find_optimal_intervention (fc : Trajectory) (current_pci : Q)
    : Intervention :=
  let cost_now := get_cost_per_m2 current_pci * area_per_km in
  let (oy, op) := optimal_scan fc 0 current_pci None in
  (* If no optimal found, use year when PCI hits 65 *)
  let (oy, op) :=
    if Nat.eqb oy 0 then
      match first_where (fun v => Qle_bool v 70) fc with
      | Some (y, v) => (y, v)
      | None => (oy, op)
      end
    else (oy, op) in
  let cost_optimal := get_cost_per_m2 op * area_per_km in
  let delayed_pci := match first_where (fun v => Qle_bool v 30) fc with
                     | Some (_, v) => v
                     | None => 30
                     end in
  mkIntervention oy op cost_now cost_optimal (get_cost_per_m2 delayed_pci * area_per_km).

(** The [years_to_critical] loop of [forecast_degradation]. *)
Definition years_to_critical (fc : Trajectory) (years : nat) : nat :=
  match first_where (fun v => Qltb v 40) fc with
  | Some (y, _) => y
  | None => S years
  end.

Record DegradationForecast := mkForecast {
  f_highway : string;
  f_section : string;
  f_current_pci : Q;
  f_predicted_pci : Trajectory;
  f_years_to_critical : nat;
  f_optimal_intervention_year : nat;
  f_optimal_intervention_pci : Q;
  f_estimated_cost_now : Q;
  f_estimated_cost_optimal : Q;
  f_estimated_cost_delayed : Q;
  f_cost_savings_optimal : Q;
  f_degradation_rate : Q
}.

(** The body of [for road in roads] in [forecast_degradation]. *)
Definition forecast_road (highway : string) (climate_zone : ClimateZone)
    (years : nat) (road : RoadDict) : DegradationForecast :=
  let current_pci := or_default (d_pci road) 70 in
  let pavement_type := or_default_str (d_pavement_type road) "AC" in
  let aadt := or_default_Z (d_aadt road) 15000 in
  let pavement_age := or_default_Z (d_pavement_age road) 10 in
  let section := (d_section_from road ++ " - " ++ d_section_to road)%string in
  let pci_forecast := forecast_pci current_pci years pavement_type climate_zone
                        (Some aadt) (Some pavement_age) in
  let ytc := years_to_critical pci_forecast years in
  let iv := find_optimal_intervention pci_forecast current_pci in
  let rate := calculate_degradation_rate current_pci pavement_type climate_zone
                (Some aadt) (Some pavement_age) in
  mkForecast
    (match d_highway road with Some h => h | None => highway end)
    section current_pci pci_forecast ytc
    (optimal_year iv) (round1 (optimal_pci iv))
    (round0 (cost_now iv)) (round0 (cost_optimal iv)) (round0 (cost_delayed iv))
    (round0 (cost_delayed iv - cost_optimal iv)) (round2 rate).

(** [forecast_degradation highway province years] on the [roads] returned by
    [get_road_conditions]. *)
Definition forecast_degradation (roads : list RoadDict) (highway province : string)
    (years : nat) : list DegradationForecast :=
  let climate_zone := province_climate_zone province in
  map (forecast_road highway climate_zone years) roads.

End RoadDegradation.

(** ** corridor_optimization_service.py *)

Module CorridorOptimization.
Import Py.

Definition MOBILIZATION_COST : Q := 250000.
Definition COST_PER_KM_INDIVIDUAL : Q := 550000.
Definition COST_PER_KM_BUNDLED : Q := 470000.
Definition FEDERAL_FUNDING_THRESHOLD : Q := 20000000.

(** The [RoadSection] dataclass, as built by [_get_road_sections]. *)
Record RoadSection := mkSection {
  highway : string;
  direction : string;
  section_from : string;
  section_to : string;
  km_start : Q;
  km_end : Q;
  pci : Q;
  condition : string;
  dmi : Q;
  iri : Q;
  pavement_type : string;
  aadt : Z
}.

Definition length_km (s : RoadSection) : Q := Qabs (km_end s - km_start s).
Definition needs_repair (s : RoadSection) : bool := Qltb (pci s) 70.

(** [list.sort(key=key)]: stable ascending sort, i.e. the stable descending
    sort on the negated key. *)
Definition sort_asc {A} (key : A -> Q) (l : list A) : list A :=
  sort_desc (fun x => - key x) l.

(** Python's [min(xs)] / [max(xs)] on a list, starting from its head. *)
Definition list_min (l : list Q) : Q :=
  match l with [] => 0 | x :: l' => fold_left min l' x end.
Definition list_max (l : list Q) : Q :=
  match l with [] => 0 | x :: l' => fold_left max l' x end.

(** [grouped[k].append(x)] on a [defaultdict(list)], keys in first
    insertion order. *)
Fixpoint group_add {A} (k : string) (x : A) (g : list (string * list A))
    : list (string * list A) :=
  match g with
  | [] => [(k, [x])]
  | (k', xs) :: g' => if String.eqb k k' then (k', xs ++ [x]) :: g'
                      else (k', xs) :: group_add k x g'
  end.

Definition group_by {A} (key : A -> string) (l : list A) : list (string * list A) :=
  fold_left (fun g x => group_add (key x) x g) l [].

Record BundleOpportunity := mkBundle {
  bo_highway : string;
  bo_direction : string;
  bo_sections : list RoadSection;
  bo_bundle_id : nat;  (* rendered as [f"B{n:03d}"] *)
  bo_start_km : Q;
  bo_end_km : Q;
  bo_total_length_km : Q;
  bo_average_pci : Q;
  bo_min_pci : Q;
  bo_max_pci : Q;
  bo_sections_needing_repair : nat;
  bo_individual_cost : Q;
  bo_bundled_cost : Q;
  bo_savings : Q;
  bo_savings_percent : Q;
  bo_traffic_disruptions_avoided : nat;
  bo_mobilization_savings : Q;
  bo_continuous_smooth_km : Q;
  bo_qualifies_for_federal_funding : bool
}.

Definition natQ (n : nat) : Q := inject_Z (Z.of_nat n).

(** [_create_bundle] *)
Definition create_bundle (sections : list RoadSection) (hwy dir : string)
    (bundle_id : nat) : BundleOpportunity :=
  let start_km := list_min (map km_start sections) in
  let end_km := list_max (map km_end sections) in
  let total_length := sumQ length_km sections in
  let pcis := map pci sections in
  let n := List.length sections in
  let avg_pci := sumQ (fun x => x) pcis / natQ n in
  let individual_cost := natQ n * MOBILIZATION_COST
                         + total_length * COST_PER_KM_INDIVIDUAL in
  let bundled_cost := MOBILIZATION_COST + total_length * COST_PER_KM_BUNDLED in
  let savings := individual_cost - bundled_cost in
  let savings_percent :=
    if Qltb 0 individual_cost then savings / individual_cost * 100 else 0 in
  mkBundle hwy dir sections bundle_id start_km end_km (round1 total_length)
    (round1 avg_pci) (list_min pcis) (list_max pcis) n
    individual_cost bundled_cost savings (round1 savings_percent)
    (n - 1) (natQ (n - 1) * MOBILIZATION_COST) (round1 (end_km - start_km))
    (Qle_bool FEDERAL_FUNDING_THRESHOLD bundled_cost).

(** Close [current_bundle]: emit it if it has two sections and is long
    enough; returns the emitted bundles and the next counter. *)
Definition close_bundle (min_len : Q) (hwy : string) (current : list RoadSection)
    (acc : list BundleOpportunity * nat) : list BundleOpportunity * nat :=
  let (bundles, counter) := acc in
  match current with
  | first :: _ :: _ =>
      let b := create_bundle current hwy (direction first) counter in
      if Qle_bool min_len (bo_total_length_km b)
      then (bundles ++ [b], S counter)
      else (bundles, counter)
  | _ => (bundles, counter)
  end.

(** The loop [for section in repair_sections] with its [current_bundle]. *)
Fixpoint bundle_loop (min_len max_gap : Q) (hwy : string)
    (current : list RoadSection) (acc : list BundleOpportunity * nat)
    (l : list RoadSection) : list BundleOpportunity * nat :=
  match l with
  | [] => close_bundle min_len hwy current acc
  | s :: l' =>
      match rev current with
      | [] => bundle_loop min_len max_gap hwy [s] acc l'
      | last :: _ =>
          let gap := km_start s - km_end last in
          if Qle_bool gap max_gap
          then bundle_loop min_len max_gap hwy (current ++ [s]) acc l'
          else bundle_loop min_len max_gap hwy [s]
                 (close_bundle min_len hwy current acc) l'
      end
  end.

(** One iteration of [for hwy, section_list in grouped.items()]. *)
Definition bundle_highway (min_len max_gap : Q) (acc : list BundleOpportunity * nat)
    (g : string * list RoadSection) : list BundleOpportunity * nat :=
  let (hwy, section_list) := g in
  let section_list := sort_asc km_start section_list in
  let repair_sections := filter needs_repair section_list in
  let repair_sections :=
    if Nat.ltb (List.length repair_sections) 2
    then filter (fun s => Qltb (pci s) 80) section_list
    else repair_sections in
  if Nat.ltb (List.length repair_sections) 2 then acc
  else bundle_loop min_len max_gap hwy [] acc repair_sections.

(** [find_bundle_opportunities] on the sections returned by
    [_get_road_sections]. *)
Definition find_bundle_opportunities (sections : list RoadSection)
    (min_bundle_length_km max_gap_km : Q) : list BundleOpportunity :=
  match sections with
  | [] => []
  | _ =>
      let grouped := group_by highway sections in
      let (bundles, _) :=
        fold_left (bundle_highway min_bundle_length_km max_gap_km) grouped ([], 1%nat) in
      sort_desc bo_savings bundles
  end.

(** [str.upper()] on ASCII. *)
Definition upper_ascii (c : Ascii.ascii) : Ascii.ascii :=
  let n := Ascii.nat_of_ascii c in
  if (Nat.leb 97 n && Nat.leb n 122)%bool then Ascii.ascii_of_nat (n - 32) else c.

Fixpoint upper (s : string) : string :=
  match s with
  | EmptyString => EmptyString
  | String c s' => String (upper_ascii c) (upper s')
  end.

(** [estimate_truck_percent] *)
Definition estimate_truck_percent (aadt : Z) (dir : string) : Q :=
  let base_percent : Q :=
    if Z.leb 50000 aadt then 30
    else if Z.leb 30000 aadt then 35
    else if Z.leb 15000 aadt then 40
    else 25 in
  let u := upper dir in
  if existsb (String.eqb u) ["W"; "WB"; "WEST"; "S"; "SB"; "SOUTH"]%string
  then base_percent + 8
  else base_percent.

Inductive Reason :=
| SimilarConditions
| HigherTruckTraffic (dir : string)
| DifferentPatterns.

Inductive Recommendation :=
| PrioritizeLane (dir : string) (savings : Q)
| DegradingFaster (dir : string)
| BothSimilar.

Record DirectionalAnalysis := mkDirectional {
  direction_1 : string;
  direction_1_sections : nat;
  direction_1_avg_pci : Q;
  direction_2 : string;
  direction_2_sections : nat;
  direction_2_avg_pci : Q;
  pci_difference : Q;
  worse_direction : string;
  degradation_reason : Reason;
  recommendation : Recommendation;
  single_direction_repair_cost : Q;
  both_directions_repair_cost : Q;
  potential_savings : Q
}.

(** [calc_averages]: (avg PCI, avg IRI, avg DMI, avg truck %). *)
Definition calc_averages (secs : list RoadSection) : Q * Q * Q * Q :=
  match secs with
  | [] => (0, 0, 0, 0)
  | _ => let n := natQ (List.length secs) in
         (sumQ pci secs / n, sumQ iri secs / n, sumQ dmi secs / n,
          sumQ (fun s => estimate_truck_percent (aadt s) (direction s)) secs / n)
  end.

(** [analyze_directional_conditions] on the sections returned by
    [_get_road_sections]. *)
Definition analyze_directional_conditions (sections : list RoadSection)
    : list DirectionalAnalysis :=
  let by_direction := group_by direction sections in
  let by_count := sort_desc (fun g => natQ (List.length (snd g))) by_direction in
  match by_count with
  | (dir_1, sections_1) :: (dir_2, sections_2) :: _ =>
      let '(pci_1, _, _, truck_1) := calc_averages sections_1 in
      let '(pci_2, _, _, truck_2) := calc_averages sections_2 in
      let pci_diff := Qabs (pci_1 - pci_2) in
      let worse_dir := if Qltb pci_1 pci_2 then dir_1 else dir_2 in
      let worse_pci := min pci_1 pci_2 in
      let reason :=
        if Qltb pci_diff 3 then SimilarConditions
        else if Qltb (truck_2 + 5) truck_1 && Qltb pci_1 pci_2 then HigherTruckTraffic dir_1
        else if Qltb (truck_1 + 5) truck_2 && Qltb pci_2 pci_1 then HigherTruckTraffic dir_2
        else DifferentPatterns in
      let worse_sections := if Qltb pci_1 pci_2 then sections_1 else sections_2 in
      let worse_length := sumQ length_km (filter needs_repair worse_sections) in
      let single_dir_cost := worse_length * COST_PER_KM_BUNDLED + MOBILIZATION_COST in
      let both_dir_cost := single_dir_cost * 1.9 in
      let potential_savings := both_dir_cost - single_dir_cost in
      let recommendation :=
        if Qle_bool 6 pci_diff && Qltb worse_pci 65
        then PrioritizeLane worse_dir potential_savings
        else if Qle_bool 3 pci_diff then DegradingFaster worse_dir
        else BothSimilar in
      [mkDirectional dir_1 (List.length sections_1) (round1 pci_1)
         dir_2 (List.length sections_2) (round1 pci_2) (round1 pci_diff)
         worse_dir reason recommendation single_dir_cost both_dir_cost
         potential_savings]
  | _ => []
  end.

(** The unrounded [pci_1], [pci_2] of [analyze_directional_conditions]: the
    average PCIs [calc_averages] returns for the two directions it
    compares, [None] when there are fewer than two directions. *)
Definition directional_pci_averages (sections : list RoadSection) : option (Q * Q) :=
  let by_direction := group_by direction sections in
  let by_count := sort_desc (fun g => natQ (List.length (snd g))) by_direction in
  match by_count with
  | (_, sections_1) :: (_, sections_2) :: _ =>
      let '(pci_1, _, _, _) := calc_averages sections_1 in
      let '(pci_2, _, _, _) := calc_averages sections_2 in
      Some (pci_1, pci_2)
  | _ => None
  end.

End CorridorOptimization.

(** ** winter_resilience_service.py *)

Module WinterResilience.
Import Py RoadData.

Inductive WinterRiskLevel := SEVERE | HIGH | MODERATE | LOW.

(** [FREEZE_THAW_CYCLES.get(province, 45)] *)
Definition freeze_thaw_cycles (p : string) : Q :=
  match p with
  | "Northern Ontario" => 52 | "Eastern Ontario" => 48 | "Southern Ontario" => 45
  | "Central Ontario" => 47 | "Ontario" => 46 | "Northern Quebec" => 55
  | "Quebec" => 50 | "Alberta" => 42 | "Saskatchewan" => 44 | "Manitoba" => 48
  | "British Columbia" => 28 | "Northern BC" => 45 | "New Brunswick" => 52
  | "Nova Scotia" => 48 | "Prince Edward Island" => 50
  | "Newfoundland and Labrador" => 55 | "Yukon" => 35
  | "Northwest Territories" => 32 | "Nunavut" => 28
  | _ => 45
  end%string.

(** [CLIMATE_ZONES.get(province, province)] *)
Definition climate_zone_name (p : string) : string :=
  match p with
  | "Ontario" => "Southern Ontario" | "Quebec" => "Quebec"
  | "British Columbia" => "BC Coast"
  | "Alberta" | "Saskatchewan" | "Manitoba" => "Prairie"
  | "New Brunswick" | "Nova Scotia" | "Prince Edward Island"
  | "Newfoundland and Labrador" => "Atlantic"
  | _ => p
  end%string.

(** [PAVEMENT_VULNERABILITY.get(pavement_type, 1.0)] *)
Definition pavement_vulnerability (t : string) : Q :=
  match t with
  | "AC" => 1.3 | "PCC" => 0.7 | "COMP" => 1.0 | "ST" => 1.5 | "GRAVEL" => 0.5
  | _ => 1.0
  end%string.

(** [get_pci_vulnerability_factor] *)
Definition get_pci_vulnerability_factor (pci : Q) : Q :=
  if Qle_bool 80 pci then 0.6
  else if Qle_bool 70 pci then 0.9
  else if Qle_bool 60 pci then 1.4
  else if Qle_bool 50 pci then 1.2
  else if Qle_bool 40 pci then 1.0
  else 0.8.

(** [get_traffic_load_factor] *)
Definition get_traffic_load_factor (aadt : option Z) : Q :=
  match aadt with
  | None => 1.0
  | Some a => if Z.leb 50000 a then 1.4
              else if Z.leb 30000 a then 1.2
              else if Z.leb 15000 a then 1.0
              else if Z.leb 5000 a then 0.9
              else 0.8
  end.

(** [get_drainage_factor] *)
Definition get_drainage_factor (dmi iri : option Q) : Q :=
  let dmi := match dmi with Some d => d | None => 10.0 end in
  let iri := match iri with Some i => i | None => 2.0 end in
  let distress_score := dmi / 50 + iri / 5 in
  if Qltb 1.5 distress_score then 1.5
  else if Qltb 1.0 distress_score then 1.2
  else if Qltb 0.5 distress_score then 1.0
  else 0.8.

(** [calculate_winter_damage_risk]: (risk score, expected PCI loss). *)
Definition calculate_winter_damage_risk (current_pci freeze_thaw pavement_vuln
    traffic_load_factor drainage_factor : Q) : Q * Q :=
  let condition_vulnerability := (100 - current_pci) / 100 in
  let freeze_thaw_factor := freeze_thaw / 50 in
  let raw_risk := condition_vulnerability * freeze_thaw_factor * pavement_vuln
                  * traffic_load_factor * drainage_factor * 100 in
  let risk_score := min 100 (max 0 (raw_risk * 2)) in
  let base_loss := 3 + risk_score / 100 * 12 in
  (risk_score, round1 (base_loss * pavement_vuln)).

(** [get_risk_level] *)
Definition get_risk_level (risk_score expected_pci_loss : Q) : WinterRiskLevel :=
  if Qltb 10 expected_pci_loss || Qltb 75 risk_score then SEVERE
  else if Qltb 7 expected_pci_loss || Qltb 55 risk_score then HIGH
  else if Qltb 4 expected_pci_loss || Qltb 35 risk_score then MODERATE
  else LOW.

(** [get_pci_condition] *)
Definition get_pci_condition (pci : Q) : string :=
  if Qle_bool 80 pci then "Good"
  else if Qle_bool 60 pci then "Fair"
  else if Qle_bool 40 pci then "Poor"
  else "Critical".

(** [get_recommendation] *)
Definition get_recommendation (risk_level : WinterRiskLevel)
    (current_pci post_winter_pci : Q) (crosses_threshold : bool) : string * string :=
  match risk_level with
  | SEVERE =>
      if crosses_threshold
      then ("URGENT: Pre-winter crack sealing prevents crossing to "
              ++ get_pci_condition post_winter_pci ++ " condition",
            "Immediate crack sealing and waterproofing")
      else ("High priority pre-winter treatment recommended",
            "Crack sealing and joint repair")
  | HIGH => ("Pre-winter maintenance strongly recommended",
             "Crack sealing in high-traffic areas")
  | MODERATE => ("Monitor condition, schedule spring assessment",
                 "Targeted crack sealing if budget allows")
  | LOW => ("Low winter risk - standard monitoring",
            "No immediate action required")
  end%string.

Record WinterVulnerability := mkWinter {
  w_highway : string;
  w_direction : string;
  w_section_from : string;
  w_section_to : string;
  w_km_start : Q;
  w_km_end : Q;
  w_current_pci : Q;
  w_current_condition : string;
  w_pavement_type : string;
  w_climate_zone : string;
  w_freeze_thaw_cycles : Q;
  w_pci_vulnerability_factor : Q;
  w_pavement_vulnerability_factor : Q;
  w_traffic_load_factor : Q;
  w_drainage_factor : Q;
  w_winter_damage_risk_score : Q;
  w_risk_level : WinterRiskLevel;
  w_expected_pci_loss : Q;
  w_post_winter_pci : Q;
  w_post_winter_condition : string;
  w_crosses_threshold : bool;
  w_threshold_crossed : option (string * string);  (* [f"{a}→{b}"] or [""] *)
  w_recommendation : string;
  w_recommended_action : string;
  w_pre_winter_cost : Q;
  w_spring_repair_cost : Q;
  w_cost_savings : Q;
  w_roi : Q
}.

(** The body of [for road in roads] in [analyze_winter_vulnerability]. *)
Definition winter_road (freeze_thaw : Q) (climate_zone : string) (road : RoadDict)
    : WinterVulnerability :=
  let current_pci := or_default (d_pci road) 70 in
  let pavement_type := or_default_str (d_pavement_type road) "AC" in
  let pci_vuln := get_pci_vulnerability_factor current_pci in
  let pavement_vuln := pavement_vulnerability pavement_type in
  let traffic_factor := get_traffic_load_factor (d_aadt road) in
  let drainage_factor := get_drainage_factor (d_dmi road) (d_iri road) in
  let (risk_score, expected_loss) :=
    calculate_winter_damage_risk current_pci freeze_thaw pavement_vuln
      traffic_factor drainage_factor in
  let risk_level := get_risk_level risk_score expected_loss in
  let post_winter_pci := max 0 (current_pci - expected_loss) in
  let current_condition := get_pci_condition current_pci in
  let post_winter_condition := get_pci_condition post_winter_pci in
  let crosses_threshold := negb (String.eqb current_condition post_winter_condition) in
  let threshold_crossed :=
    if crosses_threshold then Some (current_condition, post_winter_condition)
    else None in
  let (recommendation, action) :=
    get_recommendation risk_level current_pci post_winter_pci crosses_threshold in
  let km_length := or_default (d_km_end road) 10 - or_default (d_km_start road) 0 in
  let km_length := max 1 (Qabs km_length) in
  let (pre_winter_cost, spring_repair_cost) :=
    match risk_level with
    | SEVERE => (45000 * km_length, 320000 * km_length)
    | HIGH => (35000 * km_length, 180000 * km_length)
    | MODERATE => (20000 * km_length, 80000 * km_length)
    | LOW => (10000 * km_length, 30000 * km_length)
    end in
  let cost_savings := spring_repair_cost - pre_winter_cost in
  let roi := if Qltb 0 pre_winter_cost then cost_savings / pre_winter_cost else 0 in
  mkWinter
    (match d_highway road with Some h => h | None => "Unknown"%string end)
    (d_direction road) (d_section_from road) (d_section_to road)
    (or_default (d_km_start road) 0) (or_default (d_km_end road) 0)
    current_pci current_condition pavement_type climate_zone freeze_thaw
    (round2 pci_vuln) (round2 pavement_vuln) (round2 traffic_factor)
    (round2 drainage_factor) (round1 risk_score) risk_level expected_loss
    (round1 post_winter_pci) post_winter_condition crosses_threshold
    threshold_crossed recommendation action pre_winter_cost spring_repair_cost
    cost_savings (round1 roi).

(** [analyze_winter_vulnerability province] on the [roads] returned by
    [get_road_conditions]. *)
Definition analyze_winter_vulnerability (roads : list RoadDict) (province : string)
    : list WinterVulnerability :=
  map (winter_road (freeze_thaw_cycles province) (climate_zone_name province)) roads.

End WinterResilience.

(** ** Scoring pipeline of funding_optimizer_service.py *)

Module FundingPipeline.
Import Py FundingOptimizer RiskScore.

(** [d.get(key, default)] on a constant dict with string keys. *)
Definition dict_get {A} (d : list (string * A)) (k : string) (default : A) : A :=
  match find (fun p => String.eqb (fst p) k) d with
  | Some (_, v) => v
  | None => default
  end.

(** [BASE_BRIDGE_REPAIR_COSTS] *)
Definition BASE_BRIDGE_REPAIR_COSTS : list (string * Q) :=
  [("Ontario", 4200000); ("Quebec", 3800000); ("British Columbia", 4500000);
   ("Alberta", 4000000); ("Manitoba", 3500000); ("Saskatchewan", 3200000);
   ("Nova Scotia", 3000000); ("New Brunswick", 2900000);
   ("Newfoundland and Labrador", 3300000); ("Prince Edward Island", 2700000);
   ("Northwest Territories", 5500000); ("Yukon", 5200000); ("Nunavut", 6000000)]%string.

(** [BASE_ROAD_REPAIR_COST_PER_KM] *)
Definition BASE_ROAD_REPAIR_COST_PER_KM : list (string * Q) :=
  [("Ontario", 850000); ("Quebec", 780000); ("British Columbia", 920000);
   ("Alberta", 800000); ("Manitoba", 720000); ("Saskatchewan", 680000);
   ("Nova Scotia", 650000); ("New Brunswick", 620000);
   ("Newfoundland and Labrador", 700000); ("Prince Edward Island", 580000);
   ("Northwest Territories", 1100000); ("Yukon", 1050000); ("Nunavut", 1200000)]%string.

(** [round(x, -3)]: nearest multiple of 1000, ties to even. *)
Definition round_thousand (x : Q) : Q := round_scaled (1 # 1000) x.

(** [str.lower()] on ASCII. *)
Definition lower_ascii (c : Ascii.ascii) : Ascii.ascii :=
  let n := Ascii.nat_of_ascii c in
  if (Nat.leb 65 n && Nat.leb n 90)%bool then Ascii.ascii_of_nat (n + 32) else c.

Fixpoint lower (s : string) : string :=
  match s with
  | EmptyString => EmptyString
  | String c s' => String (lower_ascii c) (lower s')
  end.

(** Python's substring test [needle in hay]. *)
Fixpoint contains (needle hay : string) : bool :=
  String.prefix needle hay ||
  match hay with
  | EmptyString => false
  | String _ hay' => contains needle hay'
  end.

(** A cached bridge dict: the fields read by [_calculate_risk_score] and
    [_estimate_bridge_repair_cost]. *)
Record CachedBridge := mkCachedBridge {
  cb_id : nat;
  cb_bridge : Bridge;
  cb_highway : option string
}.

(** [_estimate_bridge_repair_cost]; [now_year] is [datetime.now().year]. *)
Definition estimate_bridge_repair_cost (now_year : Z) (region : string)
    (b : CachedBridge) : Q :=
  let base_cost := dict_get BASE_BRIDGE_REPAIR_COSTS region 4000000 in
  let base_cost :=
    match b_condition (cb_bridge b) with
    | Some c =>
        if String.eqb c "Critical" then base_cost * 1.30
        else if String.eqb c "Poor" then base_cost * 1.15
        else if String.eqb c "Good" then base_cost * 0.70
        else base_cost
    | None => base_cost
    end in
  let base_cost :=
    match cb_highway b with
    | Some h =>
        if String.eqb h "" then base_cost
        else let highway_str := lower h in
             if existsb (fun n => contains n highway_str)
                  ["401"; "400"; "qew"; "trans-canada"; "1"]%string
             then base_cost * 1.5
             else if existsb (fun n => contains n highway_str)
                       ["highway"; "hwy"]%string
             then base_cost * 1.2
             else base_cost
    | None => base_cost
    end in
  let base_cost :=
    if pv_truthy (b_year_built (cb_bridge b)) then
      match pv_int4 (b_year_built (cb_bridge b)) with
      | Some year =>
          let age := (now_year - year)%Z in
          if Z.ltb 50 age then base_cost * 1.2
          else if Z.ltb 40 age then base_cost * 1.1
          else base_cost
      | None => base_cost
      end
    else base_cost in
  round_thousand base_cost.

(** [risk_score / (repair_cost / 1_000_000) if repair_cost > 0 else 0] *)
Definition risk_cost_ratio_of (risk cost : Q) : Q :=
  if Qltb 0 cost then risk / (cost / 1000000) else 0.

(** One iteration of the loop of [get_bridges_for_optimization]. *)
Definition bridge_entry (now_year : Z) (region : string) (min_risk_score : Q)
    (b : CachedBridge) : list (CachedBridge * Item) :=
  let risk_score := calculate_risk_score now_year (cb_bridge b) in
  if Qle_bool min_risk_score risk_score then
    let repair_cost := estimate_bridge_repair_cost now_year region b in
    [(b, mkItem (cb_id b) risk_score repair_cost
                (risk_cost_ratio_of risk_score repair_cost))]
  else [].

Definition bridge_entries (now_year : Z) (region : string) (min_risk_score : Q)
    (rows : list CachedBridge) : list (CachedBridge * Item) :=
  flat_map (bridge_entry now_year region min_risk_score) rows.

(** [get_bridges_for_optimization] on the rows of [_get_cached_bridges]. *)
Definition get_bridges_for_optimization (now_year : Z) (region : string)
    (min_risk_score : Q) (rows : list CachedBridge) : list Item :=
  map snd (bridge_entries now_year region min_risk_score rows).

(** A [CachedRoadCondition] row. *)
Record CachedRoad := mkCachedRoad {
  cr_id : nat;
  cr_km_start : option Q;
  cr_km_end : option Q;
  cr_condition : option string;
  cr_pci : option Q;
  cr_dmi : option Q;
  cr_iri : option Q;
  cr_pavement_type : option string;
  cr_aadt : option Z
}.

Definition cached_road_scored (r : CachedRoad) : Road :=
  mkRoad (cr_condition r) (cr_pci r) (cr_iri r) (cr_dmi r) (cr_aadt r).

(** [_estimate_road_repair_cost] *)
Definition estimate_road_repair_cost (r : CachedRoad) (region : string)
    (length_km : Q) : Q :=
  let base_cost_per_km := dict_get BASE_ROAD_REPAIR_COST_PER_KM region 850000 in
  let condition := or_default_str (cr_condition r) "Unknown" in
  let base_cost_per_km :=
    if String.eqb condition "Critical" then base_cost_per_km * 1.5
    else if String.eqb condition "Poor" then base_cost_per_km * 1.25
    else if String.eqb condition "Good" then base_cost_per_km * 0.6
    else base_cost_per_km in
  let base_cost_per_km :=
    match cr_pavement_type r with
    | Some p =>
        if String.eqb p "" then base_cost_per_km
        else let ptype := CorridorOptimization.upper p in
             if existsb (String.eqb ptype) ["PCC"; "CONCRETE"]%string
             then base_cost_per_km * 1.4
             else if existsb (String.eqb ptype) ["COMP"; "COMPOSITE"]%string
             then base_cost_per_km * 1.2
             else base_cost_per_km
    | None => base_cost_per_km
    end in
  let base_cost_per_km :=
    match cr_aadt r with
    | Some a => if Z.ltb 30000 a then base_cost_per_km * 1.15 else base_cost_per_km
    | None => base_cost_per_km
    end in
  round_thousand (base_cost_per_km * length_km).

(** The section length of [get_roads_for_optimization]. *)
Definition road_length_km (r : CachedRoad) : Q :=
  match cr_km_start r, cr_km_end r with
  | Some s, Some e =>
      let l := Qabs (e - s) in
      if Qeq_bool l 0 then 1.0 else l
  | _, _ => 1.0
  end.

(** One iteration of the loop of [get_roads_for_optimization]. *)
Definition road_item (region : string) (min_risk_score : Q) (r : CachedRoad)
    : list Item :=
  let risk_score := calculate_road_risk_score (cached_road_scored r) in
  if Qle_bool min_risk_score risk_score then
    let repair_cost := estimate_road_repair_cost r region (road_length_km r) in
    [mkItem (cr_id r) risk_score repair_cost
            (risk_cost_ratio_of risk_score repair_cost)]
  else [].

(** [get_roads_for_optimization] on the cached rows of the region. *)
Definition get_roads_for_optimization (region : string) (min_risk_score : Q)
    (rows : list CachedRoad) : list Item :=
  flat_map (road_item region min_risk_score) rows.

(** [optimize_budget] as the service runs it: the helpers are called with
    [min_risk_score = min_risk]; [optimize_budget] above takes the scored
    items and applies the same filter itself, so it is given the unfiltered
    items (see [get_bridges_min_risk] and [get_roads_min_risk]). *)
Definition optimize_region (now_year : Z) (region : string) (budget : Q)
    (include_medium_risk include_roads : bool)
    (bridge_rows : list CachedBridge) (road_rows : list CachedRoad)
    : OptimizationResult :=
  optimize_budget (get_bridges_for_optimization now_year region 0 bridge_rows)
    (get_roads_for_optimization region 0 road_rows) budget
    include_medium_risk include_roads.

(** [get_year] of [traditional_optimization]:
    [int(str(b.year_built)[:4]) if b.year_built else 2000], and 2000 when
    the parse raises. *)
Definition get_year (b : CachedBridge) : Z :=
  if pv_truthy (b_year_built (cb_bridge b)) then
    match pv_int4 (b_year_built (cb_bridge b)) with
    | Some year => year
    | None => 2000
    end
  else 2000.

Record TraditionalResult := mkTraditional {
  t_bridges_repaired : nat;
  t_total_spent : Q;
  t_risk_reduction : Q;
  t_risk_reduction_percent : option Q;  (* key absent when no bridge *)
  t_avg_risk_score : Q;
  t_bridges : list (CachedBridge * Item)
}.

(** Body of [for bridge in bridges] of [traditional_optimization]. *)
Definition trad_step (acc : list (CachedBridge * Item) * Q) (e : CachedBridge * Item)
    : list (CachedBridge * Item) * Q :=
  let (selected, remaining_budget) := acc in
  if Qle_bool (estimated_repair_cost (snd e)) remaining_budget
  then (selected ++ [e], remaining_budget - estimated_repair_cost (snd e))
  else (selected, remaining_budget).

(** [traditional_optimization] *)
Definition traditional_optimization (now_year : Z) (region : string) (budget : Q)
    (rows : list CachedBridge) : TraditionalResult :=
  let bridges := bridge_entries now_year region 70 rows in
  match bridges with
  | [] => mkTraditional 0 0 0 None 0 []
  | _ =>
      let bridges := sort_desc (fun e => - inject_Z (get_year (fst e))) bridges in
      let (selected, remaining_budget) := fold_left trad_step bridges ([], budget) in
      let total_risk_reduction := sumQ (fun e => risk_score (snd e)) selected in
      mkTraditional (List.length selected) (budget - remaining_budget)
        total_risk_reduction
        (Some (round1 (total_risk_reduction
                       / sumQ (fun e => risk_score (snd e)) bridges * 100)))
        (round1 (match selected with
                 | [] => 0
                 | _ => sumQ (fun e => risk_score (snd e)) selected
                        / inject_Z (Z.of_nat (List.length selected))
                 end))
        selected
  end.

End FundingPipeline.

(** ** Economic impact of road_degradation_service.py *)

Module RoadEconomics.
Import Py RoadData.

(** [get_repair_cost] *)
Definition get_repair_cost (pci area_m2 : Q) : Q :=
  if Qle_bool 70 pci then area_m2 * 8.0
  else if Qle_bool 50 pci then area_m2 * 25.0
  else if Qle_bool 30 pci then area_m2 * 45.0
  else area_m2 * 65.0.

(** [get_condition_label] *)
Definition get_condition_label (pci : Q) : string :=
  if Qle_bool 80 pci then "good"
  else if Qle_bool 60 pci then "fair"
  else if Qle_bool 40 pci then "poor"
  else "critical".

Record EconomicImpactData := mkImpactData {
  vehicle_damage_cost : Q;
  fuel_waste_cost : Q;
  freight_delay_cost : Q;
  total_annual_cost : Q;
  roi_if_repaired : Q
}.

(** [calculate_economic_impact]; [highway_class] is not read by the code. *)
Definition calculate_economic_impact (pci : Q) (aadt : Z) (section_length_km : Q)
    (highway_class : string) : EconomicImpactData :=
  let base_damage_per_km := 0.01 in
  let damage_factor :=
    if Qltb pci 40 then 8.0 else if Qltb pci 60 then 4.0
    else if Qltb pci 80 then 2.0 else 1.0 in
  let annual_vehicles := inject_Z (aadt * 365) in
  let vehicle_damage := annual_vehicles * section_length_km * base_damage_per_km
                        * damage_factor in
  let base_fuel_per_km := 0.1 in
  let fuel_price := 1.60 in
  let fuel_increase :=
    if Qltb pci 40 then 0.10 else if Qltb pci 60 then 0.05
    else if Qltb pci 80 then 0.02 else 0.0 in
  let fuel_waste := annual_vehicles * section_length_km * base_fuel_per_km
                    * fuel_increase * fuel_price in
  let freight_share := 0.20 in
  let freight_value_per_hour := 80.0 in
  let delay_minutes_per_km :=
    if Qltb pci 40 then 2.0 else if Qltb pci 60 then 0.5
    else if Qltb pci 80 then 0.1 else 0.0 in
  let freight_vehicles := annual_vehicles * freight_share in
  let freight_delay := freight_vehicles * section_length_km
                       * (delay_minutes_per_km / 60) * freight_value_per_hour in
  let total := vehicle_damage + fuel_waste + freight_delay in
  let repair_cost := get_repair_cost pci (section_length_km * 3700) in
  let roi := if Qltb 0 repair_cost then total * 10 / repair_cost else 0 in
  mkImpactData (round2 vehicle_damage) (round2 fuel_waste) (round2 freight_delay)
    (round2 total) (round2 roi).

(** A road dict as read by [get_economic_impact]: the fields of [RoadDict]
    and the [condition] and [functional_class] keys. *)
Record EconRoad := mkEconRoad {
  er_road : RoadDict;
  er_condition : option string;
  er_functional_class : option string
}.

Record EconomicImpact := mkEconomicImpact {
  ei_highway : string;
  ei_section : string;
  ei_pci : Q;
  ei_condition : string;
  ei_daily_traffic : Z;
  ei_annual_vehicle_damage_cost : Q;
  ei_annual_fuel_waste_cost : Q;
  ei_annual_freight_delay_cost : Q;
  ei_total_annual_cost : Q;
  ei_roi_if_repaired : Q
}.

(** The section length of [get_economic_impact]:
    [abs(km_end - km_start) if km_end and km_start else 5.0], then 5.0 for
    a zero length. *)
Definition econ_section_length (road : RoadDict) : Q :=
  let km_start := or_default (d_km_start road) 0 in
  let km_end := or_default (d_km_end road) 10 in
  let section_length :=
    if negb (Qeq_bool km_end 0) && negb (Qeq_bool km_start 0)
    then Qabs (km_end - km_start) else 5.0 in
  if Qeq_bool section_length 0 then 5.0 else section_length.

(** The body of [for road in roads] in [get_economic_impact]. *)
Definition economic_road (er : EconRoad) : EconomicImpact :=
  let road := er_road er in
  let pci := or_default (d_pci road) 70 in
  let aadt := or_default_Z (d_aadt road) 15000 in
  let impact_data :=
    calculate_economic_impact pci aadt (econ_section_length road)
      (or_default_str (er_functional_class er) "arterial") in
  mkEconomicImpact
    (match d_highway road with Some h => h | None => "Unknown"%string end)
    (d_section_from road ++ " - " ++ d_section_to road)%string
    pci (or_default_str (er_condition er) (get_condition_label pci)) aadt
    (vehicle_damage_cost impact_data) (fuel_waste_cost impact_data)
    (freight_delay_cost impact_data) (total_annual_cost impact_data)
    (roi_if_repaired impact_data).

(** [get_economic_impact] on the [roads] of [get_road_conditions]. *)
Definition get_economic_impact (roads : list EconRoad) : list EconomicImpact :=
  map economic_road roads.

(** The impact figures of an [EconomicImpact] record. *)
Definition impact_figures (e : EconomicImpact) : EconomicImpactData :=
  mkImpactData (ei_annual_vehicle_damage_cost e) (ei_annual_fuel_waste_cost e)
    (ei_annual_freight_delay_cost e) (ei_total_annual_cost e) (ei_roi_if_repaired e).

End RoadEconomics.

(** ** Corridor summary of corridor_optimization_service.py *)

Module CorridorSummary.
Import Py CorridorOptimization.



End CorridorSummary.

(** ** Winter forecast summary and pre-winter interventions *)

Module WinterPlanning.
Import Py RoadData WinterResilience.

(** [analyze_winter_vulnerability] with its final
    [vulnerabilities.sort(key=lambda v: v.winter_damage_risk_score, reverse=True)]. *)
Definition winter_vulnerabilities (roads : list RoadDict) (province : string)
    : list WinterVulnerability :=
  sort_desc w_winter_damage_risk_score (analyze_winter_vulnerability roads province).

(** [WinterRiskLevel.value], stored in [risk_level]. *)
Definition risk_level_value (l : WinterRiskLevel) : string :=
  match l with
  | SEVERE => "severe" | HIGH => "high" | MODERATE => "moderate" | LOW => "low"
  end%string.

Definition has_level (s : string) (v : WinterVulnerability) : bool :=
  String.eqb (risk_level_value (w_risk_level v)) s.

Record WinterForecastSummary := mkWinterSummary {
  ws_province : string;
  ws_highway : string;
  ws_total_sections : nat;
  severe_risk_count : nat;
  high_risk_count : nat;
  moderate_risk_count : nat;
  low_risk_count : nat;
  total_km_at_risk : Q;
  average_expected_pci_loss : Q;
  sections_crossing_threshold : nat;
  total_pre_winter_investment : Q;
  total_spring_repair_avoided : Q;
  total_potential_savings : Q;
  overall_roi : Q
}.

(** [get_winter_forecast_summary] on the roads of [get_road_conditions]. *)
Definition get_winter_forecast_summary (roads : list RoadDict) (province : string)
    (highway : option string) : option WinterForecastSummary :=
  let vulnerabilities := winter_vulnerabilities roads province in
  match vulnerabilities with
  | [] => None
  | _ =>
      let count p := List.length (filter p vulnerabilities) in
      let at_risk := filter (fun v => has_level "severe" v || has_level "high" v)
                       vulnerabilities in
      let total_km_at_risk := sumQ (fun v => Qabs (w_km_end v - w_km_start v)) at_risk in
      let avg_pci_loss := sumQ w_expected_pci_loss vulnerabilities
                          / inject_Z (Z.of_nat (List.length vulnerabilities)) in
      let total_pre_winter := sumQ w_pre_winter_cost at_risk in
      let total_spring_avoided := sumQ w_spring_repair_cost at_risk in
      let total_savings := sumQ w_cost_savings at_risk in
      let roi := if Qltb 0 total_pre_winter then total_savings / total_pre_winter else 0 in
      Some (mkWinterSummary province (or_default_str highway "All Highways")
              (List.length vulnerabilities)
              (count (has_level "severe")) (count (has_level "high"))
              (count (has_level "moderate")) (count (has_level "low"))
              (round1 total_km_at_risk) (round1 avg_pci_loss)
              (count w_crosses_threshold) total_pre_winter total_spring_avoided
              total_savings (round1 roi))
  end.

(** The recommendation strings of [calculate_pre_winter_intervention]. *)
Inductive PreWinterRecommendation :=
| StronglyRecommended (roi : Q)
| Recommended (roi : Q)
| Consider (roi : Q)
| MonitorOnly.

Record PreWinterIntervention := mkPreWinter {
  pw_highway : string;
  pw_section : string;
  pw_current_pci : Q;
  pw_pre_winter_action : string;
  pw_pre_winter_cost : Q;
  pw_pci_loss_with_action : Q;
  pw_spring_pci_with_action : Q;
  pw_pci_loss_without_action : Q;
  pw_spring_pci_without_action : Q;
  pw_emergency_repair_cost : Q;
  pw_traffic_disruption_weeks : nat;
  pw_cost_savings : Q;
  pw_roi_multiplier : Q;
  pw_recommendation : PreWinterRecommendation
}.

(** The body of [for vuln in vulnerabilities] of
    [calculate_pre_winter_intervention]. *)
Definition pre_winter_intervention (v : WinterVulnerability) : PreWinterIntervention :=
  let '(pre_winter_action, pci_loss_with_action, traffic_disruption) :=
    if has_level "severe" v then
      ("Comprehensive crack sealing + waterproofing membrane"%string,
       w_expected_pci_loss v * 0.35, 6%nat)
    else if has_level "high" v then
      ("Crack sealing and joint repair"%string, w_expected_pci_loss v * 0.5, 4%nat)
    else if has_level "moderate" v then
      ("Targeted crack sealing"%string, w_expected_pci_loss v * 0.65, 3%nat)
    else
      ("Routine maintenance"%string, w_expected_pci_loss v * 0.8, 2%nat) in
  let spring_pci_with_action := w_current_pci v - pci_loss_with_action in
  let spring_pci_without_action := w_post_winter_pci v in
  let roi_multiplier := w_roi v in
  let recommendation :=
    if Qle_bool 5 roi_multiplier then StronglyRecommended roi_multiplier
    else if Qle_bool 3 roi_multiplier then Recommended roi_multiplier
    else if Qle_bool 1.5 roi_multiplier then Consider roi_multiplier
    else MonitorOnly in
  mkPreWinter (w_highway v) (w_section_from v ++ " to " ++ w_section_to v)%string
    (w_current_pci v) pre_winter_action (w_pre_winter_cost v)
    (round1 pci_loss_with_action) (round1 spring_pci_with_action)
    (w_expected_pci_loss v) (round1 spring_pci_without_action)
    (w_spring_repair_cost v) traffic_disruption (w_cost_savings v)
    roi_multiplier recommendation.

(** [calculate_pre_winter_intervention] on the roads of
    [get_road_conditions]; [section_from] is the optional filter. *)
Definition calculate_pre_winter_intervention (roads : list RoadDict)
    (province : string) (section_from : option string) : list PreWinterIntervention :=
  let vulnerabilities := winter_vulnerabilities roads province in
  let keep v := match section_from with
                | Some sf => if String.eqb sf "" then true
                             else String.eqb (w_section_from v) sf
                | None => true
                end in
  map pre_winter_intervention (filter keep vulnerabilities).

End WinterPlanning.

(** * Proofs *)

(** ** Generic facts on the Python helpers *)

Section PyFacts.
Import Py.

Lemma Qltb_true (a b : Q) : Qltb a b = true <-> a < b.
Proof.
  unfold Qltb. rewrite negb_true_iff. split; intro H.
  - apply Qnot_le_lt. intro H'. apply Qle_bool_iff in H'. congruence.
  - destruct (Qle_bool b a) eqn:E; [|reflexivity].
    apply Qle_bool_iff in E. exfalso. apply (Qlt_not_le _ _ H E).
Qed.

Lemma Qltb_false (a b : Q) : Qltb a b = false <-> b <= a.
Proof.
  unfold Qltb. rewrite negb_false_iff. apply Qle_bool_iff.
Qed.

Lemma Qle_bool_false (a b : Q) : Qle_bool a b = false -> b < a.
Proof.
  intro H. apply Qnot_le_lt. intro H'. apply Qle_bool_iff in H'. congruence.
Qed.

Lemma insert_desc_perm {A} (key : A -> Q) (x : A) (l : list A) :
  Permutation (insert_desc key x l) (x :: l).
Proof.
  induction l as [|y l IH]; simpl; [auto|].
  destruct (Qltb (key x) (key y)); [|auto].
  rewrite IH. apply perm_swap.
Qed.

Lemma sort_desc_perm {A} (key : A -> Q) (l : list A) :
  Permutation (sort_desc key l) l.
Proof.
  induction l as [|x l IH]; simpl; [auto|].
  rewrite insert_desc_perm. auto.
Qed.

(** The order [sorted(..., reverse=True)] produces: keys non-increasing. *)
Definition key_ge {A} (key : A -> Q) (a b : A) : Prop := key b <= key a.

Lemma insert_desc_sorted {A} (key : A -> Q) (x : A) (l : list A) :
  Sorted (key_ge key) l -> Sorted (key_ge key) (insert_desc key x l).
Proof.
  induction 1 as [|y l Hs IH Hhd]; simpl.
  - repeat constructor.
  - destruct (Qltb (key x) (key y)) eqn:E.
    + apply Qltb_true in E. constructor; [exact IH|].
      destruct l as [|z l]; simpl; [constructor; unfold key_ge; lra|].
      inversion Hhd; subst.
      destruct (Qltb (key x) (key z)); constructor; unfold key_ge in *; lra.
    + apply Qltb_false in E. constructor; [constructor; assumption|].
      constructor. exact E.
Qed.

Lemma sort_desc_sorted {A} (key : A -> Q) (l : list A) :
  Sorted (key_ge key) (sort_desc key l).
Proof.
  induction l; simpl; [constructor|]. apply insert_desc_sorted; assumption.
Qed.

End PyFacts.

Ltac qbools :=
  repeat match goal with
  | H : Qle_bool _ _ = true |- _ => apply Qle_bool_iff in H
  | H : Qle_bool _ _ = false |- _ => apply Qle_bool_false in H
  | H : Py.Qltb _ _ = true |- _ => apply Qltb_true in H
  | H : Py.Qltb _ _ = false |- _ => apply Qltb_false in H
  end.

(** ** Budget optimizer *)

Section Budget.
Import Py FundingOptimizer.

Definition budget_inv (budget : Q) (s : OptState) : Prop :=
  0 <= remaining_budget s /\ remaining_budget s <= budget /\
  (forall x, In x (selected_bridges s ++ selected_roads s) ->
             estimated_repair_cost x <= budget).

Lemma fund_inv budget k x s :
  budget_inv budget s -> 0 <= estimated_repair_cost x ->
  estimated_repair_cost x <= remaining_budget s ->
  budget_inv budget (fund k x s).
Proof.
  intros (H0 & H1 & H2) Hc Hle. unfold budget_inv.
  destruct k; simpl; (split; [lra|split; [lra|]]); intros y Hy;
    repeat rewrite in_app_iff in Hy; simpl in Hy;
    intuition (subst; try lra; apply H2; rewrite in_app_iff; auto).
Qed.

Lemma critical_step_inv budget k s x :
  budget_inv budget s -> 0 <= estimated_repair_cost x ->
  budget_inv budget (critical_step k s x).
Proof.
  intros Hs Hc. unfold critical_step.
  destruct (Qle_bool _ _) eqn:E; qbools.
  - apply fund_inv; assumption.
  - destruct k; exact Hs.
Qed.

Lemma pool_step_inv budget s kx :
  budget_inv budget s -> 0 <= estimated_repair_cost (snd kx) ->
  budget_inv budget (pool_step s kx).
Proof.
  destruct kx as [k x]. intros Hs Hc. unfold pool_step.
  destruct (Qle_bool _ _) eqn:E; qbools; [apply fund_inv|]; assumption.
Qed.

Lemma fold_critical_inv budget k l s :
  (forall x, In x l -> 0 <= estimated_repair_cost x) ->
  budget_inv budget s -> budget_inv budget (fold_left (critical_step k) l s).
Proof.
  revert s. induction l as [|x l IH]; intros s Hl Hs; simpl; [exact Hs|].
  apply IH; [intros; apply Hl; simpl; auto|].
  apply critical_step_inv; [exact Hs|apply Hl; simpl; auto].
Qed.

Lemma fold_pool_inv budget l s :
  (forall kx, In kx l -> 0 <= estimated_repair_cost (snd kx)) ->
  budget_inv budget s -> budget_inv budget (fold_left pool_step l s).
Proof.
  revert s. induction l as [|x l IH]; intros s Hl Hs; simpl; [exact Hs|].
  apply IH; [intros; apply Hl; simpl; auto|].
  apply pool_step_inv; [exact Hs|apply Hl; simpl; auto].
Qed.

Lemma in_sort_desc {A} (key : A -> Q) x l : In x (sort_desc key l) -> In x l.
Proof. intro H. eapply Permutation_in; [apply sort_desc_perm|exact H]. Qed.

Lemma in_merged_pool bs rs kx :
  In kx (merged_pool bs rs) -> In (snd kx) bs \/ In (snd kx) rs.
Proof.
  unfold merged_pool. intro H. apply in_sort_desc, in_app_iff in H.
  destruct H as [H|H]; apply in_map_iff in H as [x [<- Hx]]; simpl; auto.
Qed.

Lemma in_sorted_filter (key : Item -> Q) f x l :
  In x (sort_desc key (filter f l)) -> In x l.
Proof. intro H. apply in_sort_desc, filter_In in H. tauto. Qed.

Lemma select_items_inv bridges roads budget imr :
  0 <= budget ->
  (forall x, In x (bridges ++ roads) -> 0 <= estimated_repair_cost x) ->
  budget_inv budget (select_items bridges roads budget imr).
Proof.
  intros Hb Hc.
  assert (HB : forall x, In x bridges -> 0 <= estimated_repair_cost x)
    by (intros; apply Hc, in_app_iff; auto).
  assert (HR : forall x, In x roads -> 0 <= estimated_repair_cost x)
    by (intros; apply Hc, in_app_iff; auto).
  assert (Hpool : forall fb fr kx,
            In kx (merged_pool (sort_desc risk_cost_ratio (filter fb bridges))
                               (sort_desc risk_cost_ratio (filter fr roads))) ->
            0 <= estimated_repair_cost (snd kx)).
  { intros fb fr kx H. apply in_merged_pool in H as [H|H];
      apply in_sorted_filter in H; auto. }
  unfold select_items, critical_phase.
  assert (H2 : budget_inv budget
    (fold_left (critical_step KRoad)
       (sort_desc risk_cost_ratio (filter is_critical roads))
       (fold_left (critical_step KBridge)
          (sort_desc risk_cost_ratio (filter is_critical bridges))
          (mkState [] [] budget [] [])))).
  { apply fold_critical_inv; [intros x Hx; apply in_sorted_filter in Hx; auto|].
    apply fold_critical_inv; [intros x Hx; apply in_sorted_filter in Hx; auto|].
    unfold budget_inv; simpl; repeat split; try lra. contradiction. }
  destruct imr; repeat (apply fold_pool_inv; [apply Hpool|]); exact H2.
Qed.

End Budget.

Section BudgetClaims.
Import Py FundingOptimizer.

(** C1: for a non-negative budget and items with non-negative repair costs,
    [optimize_budget] reports [total_cost = budget - budget_remaining] and
    [total_cost <= budget], and every selected bridge or road costs at most
    [budget]. *)
Theorem optimize_budget_conservation (all_bridges all_roads : list Item)
    (budget : Q) (include_medium_risk include_roads : bool)
    (Hbudget : 0 <= budget)
    (Hcost : forall x, In x (all_bridges ++ all_roads) ->
                       0 <= estimated_repair_cost x) :
  let r := optimize_budget all_bridges all_roads budget include_medium_risk
             include_roads in
  (total_cost r == budget - budget_remaining r) /\
  total_cost r <= budget /\
  (forall x, In x (res_selected_bridges r ++ res_selected_roads r) ->
             estimated_repair_cost x <= budget).
Proof.
  intros r. subst r. unfold optimize_budget. cbv zeta.
  set (bridges := filter _ all_bridges).
  set (roads := if include_roads then _ else []).
  assert (Hc : forall x, In x (bridges ++ roads) -> 0 <= estimated_repair_cost x).
  { intros x Hx. apply Hcost. apply in_app_iff in Hx as [Hx|Hx]; apply in_app_iff.
    - left. subst bridges. apply filter_In in Hx. tauto.
    - right. subst roads. destruct include_roads; [|contradiction].
      apply filter_In in Hx. tauto. }
  pose proof (select_items_inv bridges roads budget include_medium_risk Hbudget Hc)
    as (H0 & H1 & H2).
  destruct bridges as [|b bs], roads as [|rd rs]; simpl;
    (split; [lra|split; [lra|]]); try (intros x []); exact H2.
Qed.

End BudgetClaims.

Section CriticalOrder.
Import Py FundingOptimizer.

Lemma fold_critical_tagged k l s :
  fold_left (critical_step k) l s =
  fold_left (fun s kx => critical_step (fst kx) s (snd kx)) (map (pair k) l) s.
Proof.
  revert s. induction l as [|x l IH]; intro s; simpl; [reflexivity|apply IH].
Qed.

(** C2 (as amended): the critical tier is funded in two passes: every
    critical bridge is considered first, in descending [risk_cost_ratio]
    order, and only then every critical road, in descending
    [risk_cost_ratio] order. *)
Theorem critical_phase_bridges_then_roads (bridges roads : list Item) (budget : Q) :
  exists cb cr,
    Permutation cb (filter is_critical bridges) /\
    Sorted (key_ge risk_cost_ratio) cb /\
    Permutation cr (filter is_critical roads) /\
    Sorted (key_ge risk_cost_ratio) cr /\
    critical_phase bridges roads budget =
      fold_left (fun s kx => critical_step (fst kx) s (snd kx))
        (map (pair KBridge) cb ++ map (pair KRoad) cr)
        (mkState [] [] budget [] []).
Proof.
  exists (sort_desc risk_cost_ratio (filter is_critical bridges)),
         (sort_desc risk_cost_ratio (filter is_critical roads)).
  split; [apply sort_desc_perm|]. split; [apply sort_desc_sorted|].
  split; [apply sort_desc_perm|]. split; [apply sort_desc_sorted|].
  unfold critical_phase. rewrite fold_left_app, !fold_critical_tagged.
  reflexivity.
Qed.

Definition c2_bridge : Item := mkItem 1 90 10 1.
Definition c2_road : Item := mkItem 2 90 10 100.

(** C2 is false: a critical road with the higher ratio (100) is left
    unfunded while a critical bridge with ratio 1 takes the whole budget of
    10; the single RCR-sorted pool of the C2 sentence funds the road. *)
Lemma critical_pool_counterexample :
  let r := optimize_budget [c2_bridge] [c2_road] 10 false true in
  risk_cost_ratio c2_bridge < risk_cost_ratio c2_road /\
  res_selected_bridges r = [c2_bridge] /\
  res_unfunded_critical_roads r = [c2_road] /\
  selected_roads (critical_phase_single_pool [c2_bridge] [c2_road] 10) = [c2_road] /\
  unfunded_critical_bridges (critical_phase_single_pool [c2_bridge] [c2_road] 10)
    = [c2_bridge].
Proof.
  split; [unfold Qlt; simpl; lia|].
  vm_compute. repeat split; reflexivity.
Qed.

End CriticalOrder.

(** ** Risk scores *)

Section RiskScores.
Import Py RiskScore.

Lemma pymax_Qmax a b : max a b == Qmax a b.
Proof.
  unfold max. destruct (Qltb a b) eqn:E; qbools.
  - rewrite Q.max_r; [reflexivity|lra].
  - rewrite Q.max_l; [reflexivity|lra].
Qed.

Lemma pymin_Qmin a b : min a b == Qmin a b.
Proof.
  unfold min. destruct (Qltb b a) eqn:E; qbools.
  - rewrite Q.min_r; [reflexivity|lra].
  - rewrite Q.min_l; [reflexivity|lra].
Qed.

Lemma pymax_mono a b c d : a <= c -> b <= d -> max a b <= max c d.
Proof.
  intros H1 H2. unfold max.
  destruct (Qltb a b) eqn:E1, (Qltb c d) eqn:E2; qbools; lra.
Qed.

Lemma pymin_mono a b c d : a <= c -> b <= d -> min a b <= min c d.
Proof.
  intros H1 H2. unfold min.
  destruct (Qltb b a) eqn:E1, (Qltb d c) eqn:E2; qbools; lra.
Qed.

Definition c3_bridge : Bridge :=
  mkBridge (Some "Good"%string) (py_digits 10) (py_digits 1900).

(** C3 is false: a "Good" bridge (label score 20) with condition index 10,
    built 126 years before 2026, scores 90: the age penalty (+20) is added
    to the label score before the maximum with [100 - 10 = 90] is taken,
    where adding it after the maximum, as C3 states, gives 100. *)
Lemma bridge_risk_order_counterexample :
  calculate_risk_score 2026 c3_bridge == 90 /\
  risk_score_max_then_age 2026 c3_bridge == 100.
Proof. split; reflexivity. Qed.

(** C3 (as amended): for every bridge record the risk score is the label
    score (Critical=90, Poor=72, Fair=45, Good=20, otherwise 50) plus the
    age penalty of 0.3 points per year of age beyond 30, capped at +20,
    then the larger of that and [100 - condition_index], clamped to
    [0, 100].  The age penalty applies when [year_built] is truthy and its
    first four characters parse as an integer; the index applies when it is
    truthy and parses as a float.  In particular a stored index ["0"] is
    truthy and gives the score 100. *)
Theorem bridge_risk_score_age_then_index (now_year : Z) (c : option string)
    (ci yb : PyValue) :
  let base := condition_risk_score
                (Some (match c with Some s => s | None => "Unknown"%string end)) in
  let penalty := if pv_truthy yb then
                   match pv_int4 yb with
                   | Some y => let age := inject_Z (now_year - y) in
                               if Qltb 30 age then Qmin 20 ((age - 30) * 0.3) else 0
                   | None => 0
                   end
                 else 0 in
  let with_age := base + penalty in
  let before_clamp := if pv_truthy ci then
                        match pv_float ci with
                        | Some i => Qmax with_age (100 - i)
                        | None => with_age
                        end
                      else with_age in
  (calculate_risk_score now_year (mkBridge c ci yb) == Qmin 100 (Qmax 0 before_clamp)) /\
  (calculate_risk_score now_year (mkBridge c (py_digits 0) yb) == 100).
Proof.
  intros base penalty with_age before_clamp.
  subst before_clamp with_age penalty base.
  assert (Hbase : condition_risk_score
                    (match c with Some c0 => Some c0 | None => Some "Unknown"%string end)
                  = condition_risk_score
                    (Some (match c with Some s => s | None => "Unknown"%string end)))
    by (destruct c; reflexivity).
  unfold calculate_risk_score; simpl. rewrite Hbase.
  set (b0 := condition_risk_score _).
  destruct yb as [ty iy fy], ci as [tc ic fc]; simpl.
  split.
  - destruct ty; [destruct iy as [y|]; [destruct (Qltb 30 _)|]|];
      destruct tc; try destruct fc as [i|];
      repeat (rewrite pymax_Qmax || rewrite pymin_Qmin);
      rewrite ?Qplus_0_r; reflexivity.
  - set (w := if ty then _ else b0).
    change (inject_Z 0) with 0. unfold min, max.
    destruct (Qltb w (100 - 0)) eqn:E1; qbools;
      [destruct (Qltb 0 (100 - 0)) eqn:E2 | destruct (Qltb 0 w) eqn:E2];
      qbools; [| lra | |];
      match goal with |- context [Qltb ?x 100] =>
        destruct (Qltb x 100) eqn:E3 end; qbools; lra.
Qed.

End RiskScores.

Section RoadMonotone.
Import Py RiskScore.

Ltac split_road_adjustments :=
  repeat match goal with
  | |- context [match ?x with Some _ => _ | None => _ end] => destruct x
  | |- context [if Qltb ?a ?b then _ else _] =>
      match a with 0 => fail | 100 => fail | _ => destruct (Qltb a b) end
  | |- context [if Z.ltb ?a ?b then _ else _] => destruct (Z.ltb a b)
  end.

(** C4: for two road records identical except that the first has a strictly
    lower PCI or a strictly worse condition label (Good < Fair < Poor <
    Critical), the first one's risk score is at least the second one's. *)
Theorem road_risk_score_monotone (r1 r2 : Road) (Hworse : worse r1 r2) :
  calculate_road_risk_score r2 <= calculate_road_risk_score r1.
Proof.
  destruct Hworse as [[c p i d a] p1 p2 Hlt|[c p i d a] l1 l2 Hrank].
  - unfold calculate_road_risk_score, road_with_pci; cbn [r_condition r_pci r_iri r_dmi r_aadt].
    set (b0 := condition_risk_score _).
    assert (Hcore : max b0 (100 - p2) <= max b0 (100 - p1))
      by (apply pymax_mono; lra).
    revert Hcore. generalize (max b0 (100 - p2)) (max b0 (100 - p1)).
    intros x y Hxy.
    split_road_adjustments;
      apply pymin_mono; try lra; apply pymax_mono; lra.
  - unfold calculate_road_risk_score, road_with_condition; cbn [r_condition r_pci r_iri r_dmi r_aadt].
    assert (Hb : condition_risk_score
                   (Some (or_default_str (Some (label_name l2)) "Unknown"))
                 <= condition_risk_score
                   (Some (or_default_str (Some (label_name l1)) "Unknown"))).
    { destruct l1, l2; simpl in Hrank; try lia; vm_compute; discriminate. }
    revert Hb.
    generalize (condition_risk_score (Some (or_default_str (Some (label_name l2)) "Unknown")))
               (condition_risk_score (Some (or_default_str (Some (label_name l1)) "Unknown"))).
    intros x y Hxy.
    assert (Hcore : match p with Some q => max x (100 - q) | None => x end
                    <= match p with Some q => max y (100 - q) | None => y end)
      by (destruct p; [apply pymax_mono; lra|exact Hxy]).
    revert Hcore.
    generalize (match p with Some q => max x (100 - q) | None => x end)
               (match p with Some q => max y (100 - q) | None => y end).
    intros u v Huv.
    split_road_adjustments;
      apply pymin_mono; try lra; apply pymax_mono; lra.
Qed.

Definition c4_road : Road := mkRoad (Some "Fair"%string) (Some 60) None None None.

Lemma road_risk_score_monotone_witness :
  (50 < 60) /\
  calculate_road_risk_score (road_with_pci c4_road (Some 60))
  <= calculate_road_risk_score (road_with_pci c4_road (Some 50)).
Proof.
  assert (H : 50 < 60) by (unfold Qlt; simpl; lia).
  split; [exact H|].
  apply road_risk_score_monotone. apply worse_pci. exact H.
Defined.

End RoadMonotone.

(** ** Rounding *)

Section Rounding.
Import Py.

Ltac split_ifs :=
  repeat match goal with
  | |- context [if ?c then _ else _] => let E := fresh "E" in destruct c eqn:E
  end.

Lemma round_int_mono (a b : Q) : a <= b ->
  ((if Qltb (a - inject_Z (Qfloor a)) (1 # 2) then Qfloor a
    else if Qltb (1 # 2) (a - inject_Z (Qfloor a)) then (Qfloor a + 1)%Z
    else if Z.even (Qfloor a) then Qfloor a else (Qfloor a + 1)%Z)
   <=
   (if Qltb (b - inject_Z (Qfloor b)) (1 # 2) then Qfloor b
    else if Qltb (1 # 2) (b - inject_Z (Qfloor b)) then (Qfloor b + 1)%Z
    else if Z.even (Qfloor b) then Qfloor b else (Qfloor b + 1)%Z))%Z.
Proof.
  intro Hab.
  assert (Hf : (Qfloor a <= Qfloor b)%Z) by (apply Qfloor_resp_le; exact Hab).
  destruct (Z.eq_dec (Qfloor a) (Qfloor b)) as [Heq|Hne].
  - rewrite <- Heq. set (f := Qfloor a).
    split_ifs; qbools; first [lia | exfalso; lra].
  - split_ifs; lia.
Qed.

Lemma round_int_upper (a : Q) :
  inject_Z (if Qltb (a - inject_Z (Qfloor a)) (1 # 2) then Qfloor a
            else if Qltb (1 # 2) (a - inject_Z (Qfloor a)) then (Qfloor a + 1)%Z
            else if Z.even (Qfloor a) then Qfloor a else (Qfloor a + 1)%Z)
  <= a + (1 # 2).
Proof.
  pose proof (Qfloor_le a) as H1.
  split_ifs; qbools; rewrite ?inject_Z_plus; change (inject_Z 1) with 1; lra.
Qed.

Lemma round_scaled_mono (s x y : Q) : 0 < s -> x <= y ->
  round_scaled s x <= round_scaled s y.
Proof.
  intros Hs Hxy. unfold round_scaled, Qdiv.
  apply Qmult_le_compat_r; [|apply Qinv_le_0_compat; lra].
  rewrite <- Zle_Qle. apply round_int_mono.
  apply Qmult_le_compat_r; lra.
Qed.

Lemma round1_mono (x y : Q) : x <= y -> round1 x <= round1 y.
Proof. intro H. apply round_scaled_mono; [reflexivity|exact H]. Qed.

Lemma round1_zero : round1 0 == 0.
Proof. reflexivity. Qed.

Lemma round1_nonneg (x : Q) : 0 <= x -> 0 <= round1 x.
Proof.
  intro H. rewrite <- round1_zero at 1. apply round1_mono. exact H.
Qed.

Lemma round1_upper (x : Q) : round1 x <= x + (1 # 20).
Proof.
  unfold round1, round_scaled, Qdiv. cbv zeta.
  pose proof (round_int_upper (x * 10)) as H.
  change (/ 10) with (1 # 10). lra.
Qed.

End Rounding.

(** ** Degradation forecast *)

Section Forecast.
Import Py RoadDegradation.

Lemma pymax_le a b c : a <= c -> b <= c -> max a b <= c.
Proof. intros. unfold max. destruct (Qltb a b); assumption. Qed.

Lemma pymax_ge_l a b : a <= max a b.
Proof. unfold max. destruct (Qltb a b) eqn:E; qbools; lra. Qed.

Lemma pymax_ge_r a b : b <= max a b.
Proof. unfold max. destruct (Qltb a b) eqn:E; qbools; lra. Qed.

Lemma pymin_le_l a b : min a b <= a.
Proof. unfold min. destruct (Qltb b a) eqn:E; qbools; lra. Qed.

(** The clamped degradation rate always lies in [-12, -2]. *)
Lemma degradation_rate_bounds pci t z aadt age :
  -12 <= calculate_degradation_rate pci t z aadt age <= -2.
Proof.
  unfold calculate_degradation_rate, calculate_degradation_rate_ms. cbv zeta.
  match goal with |- context [min _ ?x] => generalize x end. intro x.
  split.
  - eapply Qle_trans; [|apply pymax_ge_l]. lra.
  - apply pymax_le; [lra|]. eapply Qle_trans; [apply pymin_le_l|]. lra.
Qed.

(** Order of a trajectory: strictly later years, no higher PCI. *)
Definition later_lower (a b : nat * Q) : Prop :=
  (fst a < fst b)%nat /\ snd b <= snd a.

Lemma forecast_loop_keys k year pci t z aadt age :
  map fst (forecast_loop k year pci t z aadt age) = seq year k.
Proof.
  revert year pci. induction k as [|k IH]; intros year pci; simpl; [reflexivity|].
  f_equal. apply IH.
Qed.

Lemma forecast_pci_keys cur years t z aadt age :
  map fst (forecast_pci cur years t z aadt age) = seq 0 (S years).
Proof.
  unfold forecast_pci. simpl. f_equal. apply forecast_loop_keys.
Qed.

(** One simulated year from a non-negative PCI: the new PCI is non-negative
    and at most [max 0 (pci - 2)]. *)
Lemma forecast_step_bounds pci t z aadt age :
  0 <= pci ->
  let pci' := max 0 (pci + calculate_degradation_rate pci t z aadt age) in
  0 <= pci' /\ pci' <= max 0 (pci - 2).
Proof.
  intros H pci'. pose proof (degradation_rate_bounds pci t z aadt age) as [H1 H2].
  split; [apply pymax_ge_l|].
  apply pymax_mono; lra.
Qed.

Lemma forecast_loop_elems k year pci t z aadt age :
  0 <= pci ->
  forall y v, In (y, v) (forecast_loop k year pci t z aadt age) ->
  (year <= y)%nat /\ 0 <= v /\ v <= round1 (max 0 (pci - 2)).
Proof.
  revert year pci. induction k as [|k IH]; intros year pci Hp y v Hin;
    simpl in Hin; [contradiction|].
  match type of Hin with
  | context [forecast_loop k (S year) ?p' _ _ _ _] => set (q := p') in Hin
  end.
  assert (Hq : 0 <= q /\ q <= max 0 (pci - 2)) by (apply forecast_step_bounds; exact Hp).
  destruct Hin as [Heq|Hin].
  - injection Heq as <- <-. split; [lia|]. split.
    + apply round1_nonneg. lra.
    + apply round1_mono. lra.
  - destruct (IH (S year) q (proj1 Hq) y v Hin) as (Hy & Hv0 & Hv1).
    split; [lia|]. split; [exact Hv0|].
    eapply Qle_trans; [exact Hv1|]. apply round1_mono.
    apply pymax_le; [apply pymax_ge_l|].
    eapply Qle_trans; [|apply (proj2 Hq)]. lra.
Qed.

Lemma forecast_loop_sorted k year pci t z aadt age :
  0 <= pci -> StronglySorted later_lower (forecast_loop k year pci t z aadt age).
Proof.
  revert year pci. induction k as [|k IH]; intros year pci Hp; simpl; [constructor|].
  match goal with
  | |- context [forecast_loop k (S year) ?p' _ _ _ _] => set (q := p')
  end.
  assert (Hq : 0 <= q /\ q <= max 0 (pci - 2)) by (apply forecast_step_bounds; exact Hp).
  constructor; [apply IH; apply Hq|].
  apply Forall_forall. intros [y v] Hin.
  destruct (forecast_loop_elems k (S year) q t z aadt age (proj1 Hq) y v Hin)
    as (Hy & _ & Hv).
  unfold later_lower; simpl. split; [lia|].
  eapply Qle_trans; [exact Hv|]. apply round1_mono.
  apply pymax_le; [|lra]. unfold max. destruct (Qltb 0 q); lra.
Qed.

Lemma forecast_pci_sorted cur years t z aadt age :
  0 <= cur -> StronglySorted later_lower (forecast_pci cur years t z aadt age).
Proof.
  intro Hc. unfold forecast_pci. constructor; [apply forecast_loop_sorted; exact Hc|].
  apply Forall_forall. intros [y v] Hin.
  destruct (forecast_loop_elems years 1 cur t z aadt age Hc y v Hin) as (Hy & _ & Hv).
  unfold later_lower; simpl. split; [lia|].
  eapply Qle_trans; [exact Hv|].
  unfold max at 1. destruct (Qltb 0 (cur - 2)) eqn:E; qbools.
  - pose proof (round1_upper (cur - 2)). lra.
  - rewrite round1_zero. exact Hc.
Qed.

Lemma forecast_pci_nonneg cur years t z aadt age :
  0 <= cur -> forall y v, In (y, v) (forecast_pci cur years t z aadt age) -> 0 <= v.
Proof.
  intros Hc y v [Heq|Hin].
  - injection Heq as _ <-. exact Hc.
  - eapply forecast_loop_elems; eassumption.
Qed.

(** In a list ordered by [later_lower], an item of an earlier year has a PCI
    no lower than an item of a later year. *)
Lemma later_lower_in (l : list (nat * Q)) a b :
  StronglySorted later_lower l -> In a l -> In b l -> (fst a < fst b)%nat ->
  snd b <= snd a.
Proof.
  induction 1 as [|x l Hs IH Hall]; intros Ha Hb Hlt; [contradiction|].
  rewrite Forall_forall in Hall.
  destruct Ha as [<-|Ha], Hb as [<-|Hb].
  - lia.
  - apply (Hall b Hb).
  - destruct (Hall a Ha) as [H _]. lia.
  - apply IH; assumption.
Qed.

Definition key_lt (a b : nat * Q) : Prop := (fst a < fst b)%nat.

Lemma keys_seq_sorted (l : Trajectory) :
  forall s n, map fst l = seq s n -> StronglySorted key_lt l.
Proof.
  induction l as [|[y v] l IH]; intros s n H; [constructor|].
  destruct n as [|n]; simpl in H; [discriminate|].
  injection H as Hs H. subst s. constructor; [apply (IH (S y) n H)|].
  apply Forall_forall. intros [y' v'] Hin. unfold key_lt; simpl.
  assert (Hk : In y' (seq (S y) n)).
  { rewrite <- H. apply (in_map fst _ _ Hin). }
  apply in_seq in Hk. lia.
Qed.

Lemma first_where_spec (p : Q -> bool) (fc : Trajectory) :
  StronglySorted key_lt fc ->
  match first_where p fc with
  | Some (y, v) => In (y, v) fc /\ p v = true /\
                   forall y' v', In (y', v') fc -> (y' < y)%nat -> p v' = false
  | None => forall y v, In (y, v) fc -> p v = false
  end.
Proof.
  induction 1 as [|[y0 v0] l Hs IH Hall]; simpl; [intros; contradiction|].
  rewrite Forall_forall in Hall.
  destruct (p v0) eqn:E.
  - split; [auto|]. split; [exact E|].
    intros y' v' [Heq|Hin] Hlt.
    + injection Heq as -> ->. lia.
    + pose proof (Hall _ Hin) as H. unfold key_lt in H. simpl in H. lia.
  - destruct (first_where p l) as [[y v]|].
    + destruct IH as (Hin & Hp & Hmin). split; [auto|]. split; [exact Hp|].
      intros y' v' [Heq|Hin'] Hlt.
      * injection Heq as <- <-. exact E.
      * apply (Hmin y' v' Hin' Hlt).
    + intros y v [Heq|Hin].
      * injection Heq as <- <-. exact E.
      * apply (IH y v Hin).
Qed.

End Forecast.

Section ForecastClaims.
Import Py RoadDegradation.

(** C5: for a starting PCI in the index's range (PCI >= 0) and any pavement
    type, climate zone, AADT, pavement age and horizon, [forecast_pci] has
    one entry for every year 0..years, every predicted PCI is >= 0, and the
    prediction of year y+1 is at most the prediction of year y. *)
Theorem forecast_pci_floor_nonincreasing (current_pci : Q) (years : nat)
    (pavement_type : string) (climate_zone : ClimateZone)
    (aadt pavement_age : option Z) (Hpci : 0 <= current_pci) :
  let fc := forecast_pci current_pci years pavement_type climate_zone aadt
              pavement_age in
  map fst fc = seq 0 (S years) /\
  (forall y v, In (y, v) fc -> 0 <= v) /\
  (forall y v v', In (y, v) fc -> In (S y, v') fc -> v' <= v).
Proof.
  intro fc. split; [apply forecast_pci_keys|]. split.
  - apply forecast_pci_nonneg. exact Hpci.
  - intros y v v' H1 H2.
    apply (later_lower_in fc (y, v) (S y, v')); [|exact H1|exact H2|simpl; lia].
    apply forecast_pci_sorted. exact Hpci.
Qed.

Lemma forecast_pci_floor_nonincreasing_witness :
  let fc := forecast_pci 55 5 "AC" MODERATE (Some 15000%Z) None in
  map fst fc = seq 0 6 /\
  (forall y v, In (y, v) fc -> 0 <= v) /\
  (forall y v v', In (y, v) fc -> In (S y, v') fc -> v' <= v).
Proof.
  apply forecast_pci_floor_nonincreasing. unfold Qle; simpl; lia.
Defined.

(** C7: [years_to_critical] of a forecast over [years] simulated years is
    the smallest year y <= years whose predicted PCI is < 40, or [years + 1]
    when no predicted PCI of the horizon is below 40. *)
Theorem years_to_critical_first_below_40 (current_pci : Q) (years : nat)
    (pavement_type : string) (climate_zone : ClimateZone)
    (aadt pavement_age : option Z) :
  let fc := forecast_pci current_pci years pavement_type climate_zone aadt
              pavement_age in
  let ytc := years_to_critical fc years in
  ((ytc <= years)%nat /\
   exists v, In (ytc, v) fc /\ v < 40 /\
     forall y v', In (y, v') fc -> (y < ytc)%nat -> 40 <= v')
  \/ (ytc = S years /\ forall y v, In (y, v) fc -> 40 <= v).
Proof.
  intros fc ytc. subst ytc. unfold years_to_critical.
  assert (Hk := forecast_pci_keys current_pci years pavement_type climate_zone
                  aadt pavement_age).
  fold fc in Hk.
  pose proof (first_where_spec (fun v => Qltb v 40) fc
                (keys_seq_sorted fc 0 (S years) Hk)) as Hs.
  destruct (first_where (fun v => Qltb v 40) fc) as [[y v]|].
  - destruct Hs as (Hin & Hlt & Hmin). left. split.
    + assert (Hy : In y (seq 0 (S years))).
      { rewrite <- Hk. apply (in_map fst _ _ Hin). }
      apply in_seq in Hy. lia.
    + exists v. split; [exact Hin|]. split; [apply Qltb_true; exact Hlt|].
      intros y' v' Hin' Hy'. apply Qltb_false. exact (Hmin y' v' Hin' Hy').
  - right. split; [reflexivity|].
    intros y v Hin. apply Qltb_false. exact (Hs y v Hin).
Qed.

(** The road of the C6 failing input: PCI 72, asphalt, AADT 15000, pavement
    age 10, in Ontario (moderate climate), forecast over 5 years. *)
Definition c6_road : RoadData.RoadDict :=
  RoadData.mkRoadDict (Some "401"%string) "EB" "km 0.0" "km 5.0" (Some 0) (Some 5)
    (Some 72) (Some 10) (Some 2) (Some "AC"%string) (Some 15000%Z) (Some 10%Z).

(** C6 divergence: on this trajectory year 0 (PCI 72) lies in [65, 75] and
    has the lowest discounted cost of the window (29600 against 92500/1.03
    for year 1, PCI 66.2); the search loop selects year 0, but the
    [optimal_year == 0] test then treats it as "no optimum found" and the
    fallback returns year 1, the first year with PCI <= 70. *)
Lemma optimal_intervention_year_zero_overridden :
  let fc := forecast_pci 72 5 "AC" MODERATE (Some 15000%Z) (Some 10%Z) in
  fc = [(0%nat, 72); (1%nat, 66.2); (2%nat, 59.1); (3%nat, 50.4);
        (4%nat, 41.6); (5%nat, 31.0)] /\
  get_cost_per_m2 72 * area_per_km / Qpower 1.03 0
    < get_cost_per_m2 66.2 * area_per_km / Qpower 1.03 1 /\
  optimal_scan fc 0 72 None = (0%nat, 72) /\
  optimal_year (find_optimal_intervention fc 72) = 1%nat /\
  f_optimal_intervention_year
    (forecast_road "401" (province_climate_zone "Ontario") 5 c6_road) = 1%nat.
Proof. vm_compute. repeat split; reflexivity. Qed.

End ForecastClaims.

(** ** Corridor bundling and directional analysis *)

Section Corridor.
Import Py CorridorOptimization.

Definition bundle_ok (min_len : Q) (b : BundleOpportunity) : Prop :=
  (2 <= List.length (bo_sections b))%nat /\ min_len <= bo_total_length_km b.

Lemma close_bundle_ok min_len hwy current acc :
  (forall b, In b (fst acc) -> bundle_ok min_len b) ->
  forall b, In b (fst (close_bundle min_len hwy current acc)) -> bundle_ok min_len b.
Proof.
  destruct acc as [bundles counter]. simpl. intros H b Hb.
  unfold close_bundle in Hb.
  destruct current as [|s1 [|s2 rest]]; simpl in Hb; try exact (H b Hb).
  match type of Hb with
  | context [if Qle_bool ?m ?t then _ else _] => destruct (Qle_bool m t) eqn:E
  end; simpl in Hb; [|exact (H b Hb)].
  apply in_app_iff in Hb as [Hb|[<-|[]]]; [exact (H b Hb)|].
  apply Qle_bool_iff in E. split; [simpl; lia|exact E].
Qed.

Lemma bundle_loop_ok min_len max_gap hwy l :
  forall current acc,
  (forall b, In b (fst acc) -> bundle_ok min_len b) ->
  forall b, In b (fst (bundle_loop min_len max_gap hwy current acc l)) ->
  bundle_ok min_len b.
Proof.
  induction l as [|s l IH]; intros current acc H; simpl.
  - apply close_bundle_ok. exact H.
  - destruct (rev current) as [|last ?].
    + apply IH. exact H.
    + destruct (Qle_bool _ _).
      * apply IH. exact H.
      * apply IH. apply close_bundle_ok. exact H.
Qed.

Lemma bundle_highway_ok min_len max_gap g acc :
  (forall b, In b (fst acc) -> bundle_ok min_len b) ->
  forall b, In b (fst (bundle_highway min_len max_gap acc g)) -> bundle_ok min_len b.
Proof.
  destruct g as [hwy secs]. intros H. unfold bundle_highway.
  match goal with
  | |- context [if Nat.ltb (List.length ?l) 2 then acc else _] =>
      destruct (Nat.ltb (List.length l) 2)
  end; [exact H|].
  apply bundle_loop_ok. exact H.
Qed.

Lemma fold_bundle_highway_ok min_len max_gap groups :
  forall acc,
  (forall b, In b (fst acc) -> bundle_ok min_len b) ->
  forall b, In b (fst (fold_left (bundle_highway min_len max_gap) groups acc)) ->
  bundle_ok min_len b.
Proof.
  induction groups as [|g groups IH]; intros acc H; simpl; [exact H|].
  apply IH. apply bundle_highway_ok. exact H.
Qed.

(** C8: every bundle returned by [find_bundle_opportunities] has at least
    two sections and a [total_length_km] of at least
    [min_bundle_length_km]. *)
Theorem find_bundle_opportunities_minimum (sections : list RoadSection)
    (min_bundle_length_km max_gap_km : Q) (b : BundleOpportunity)
    (Hin : In b (find_bundle_opportunities sections min_bundle_length_km max_gap_km)) :
  (2 <= List.length (bo_sections b))%nat /\ min_bundle_length_km <= bo_total_length_km b.
Proof.
  unfold find_bundle_opportunities in Hin.
  destruct sections as [|s0 rest]; [contradiction|].
  match type of Hin with
  | context [fold_left ?f ?g ?a] =>
      pose proof (fold_bundle_highway_ok min_bundle_length_km max_gap_km g a) as Hok;
      destruct (fold_left f g a) as [bundles counter]
  end.
  apply in_sort_desc in Hin.
  apply (Hok (fun b H => match H with end) b Hin).
Qed.

Definition c8_section (from to : Q) : RoadSection :=
  mkSection "401" "EB" "" "" from to 55 "Poor" 10 2 "AC" 15000.

Definition c8_sections : list RoadSection := [c8_section 0 12; c8_section 17 29].

Lemma find_bundle_opportunities_minimum_witness :
  match find_bundle_opportunities c8_sections 10 25 with
  | b :: _ => (2 <= List.length (bo_sections b))%nat /\ 10 <= bo_total_length_km b
  | [] => False
  end.
Proof.
  generalize (find_bundle_opportunities_minimum c8_sections 10 25).
  destruct (find_bundle_opportunities c8_sections 10 25) as [|b l] eqn:E;
    [vm_compute in E; discriminate|].
  intro H. apply H. left. reflexivity.
Defined.

Definition c9_section (dir : string) (p : Q) : RoadSection :=
  mkSection "401" dir "" "" 0 5 p "Good" 10 2 "AC" 15000.

(** C9 is false: eastbound averages PCI 90 and westbound 80, a gap of 10
    points, yet the recommendation is to monitor the westbound direction
    and schedule it first, not a prioritized single-direction repair. *)
Lemma directional_gap_counterexample :
  match analyze_directional_conditions
          [c9_section "EB" 90; c9_section "WB" 80] with
  | [a] => 6 <= pci_difference a /\ worse_direction a = "WB"%string /\
           recommendation a = DegradingFaster "WB"
  | _ => False
  end.
Proof. vm_compute. split; [discriminate|]. split; reflexivity. Qed.

(** C9 (as amended): in the directional analysis, with [pci_1], [pci_2]
    the actual (unrounded) average PCIs of the two compared directions,
    whenever their gap is >= 6 points the recommendation is a prioritized
    single-direction repair of the worse direction if that direction's
    average PCI is below 65, and otherwise the "degrading faster, schedule
    it first" recommendation for the worse direction.  The reported
    averages and gap are these values rounded to one decimal. *)
Theorem directional_gap_recommendation (sections : list RoadSection) :
  match analyze_directional_conditions sections,
        directional_pci_averages sections with
  | [a], Some (pci_1, pci_2) =>
      direction_1_avg_pci a = round1 pci_1 /\
      direction_2_avg_pci a = round1 pci_2 /\
      pci_difference a = round1 (Qabs (pci_1 - pci_2)) /\
      worse_direction a = (if Qltb pci_1 pci_2 then direction_1 a else direction_2 a) /\
      (6 <= Qabs (pci_1 - pci_2) ->
       recommendation a =
         if Qltb (min pci_1 pci_2) 65
         then PrioritizeLane (worse_direction a) (potential_savings a)
         else DegradingFaster (worse_direction a))
  | [], None => True
  | _, _ => False
  end.
Proof.
  unfold analyze_directional_conditions, directional_pci_averages.
  destruct (sort_desc _ (group_by direction sections))
    as [|[d1 s1] [|[d2 s2] rest]]; try exact I.
  destruct (calc_averages s1) as [[[p1 i1] m1] t1].
  destruct (calc_averages s2) as [[[p2 i2] m2] t2].
  simpl.
  split; [reflexivity|]. split; [reflexivity|]. split; [reflexivity|].
  split; [reflexivity|].
  intro H6.
  assert (H3 := Qle_trans 3 6 _ ltac:(unfold Qle; simpl; lia) H6).
  apply Qle_bool_iff in H6. apply Qle_bool_iff in H3.
  rewrite H6. simpl. destruct (Qltb (min p1 p2) 65); [reflexivity|].
  rewrite H3. reflexivity.
Qed.

Definition c9_sections : list RoadSection := [c9_section "EB" 90; c9_section "WB" 80].

Lemma directional_gap_recommendation_witness :
  match analyze_directional_conditions c9_sections with
  | [a] => recommendation a = DegradingFaster (worse_direction a)
  | _ => False
  end.
Proof.
  pose proof (directional_gap_recommendation c9_sections) as H.
  destruct (analyze_directional_conditions c9_sections) as [|a [|a' l]] eqn:E;
    try (vm_compute in E; discriminate).
  destruct (directional_pci_averages c9_sections) as [[p1 p2]|] eqn:E2;
    [|vm_compute in E2; discriminate].
  vm_compute in E2. injection E2 as <- <-.
  destruct H as (_ & _ & _ & _ & H).
  rewrite H; [vm_compute; reflexivity | vm_compute; discriminate].
Defined.

End Corridor.

(** ** Concrete run of the budget optimizer *)

Section BudgetWitness.
Import Py FundingOptimizer.

Lemma optimize_budget_conservation_witness :
  let r := optimize_budget [mkItem 1 90 400 (9/40)] [mkItem 2 80 500 (4/25)]
             1000 false true in
  (total_cost r == 1000 - budget_remaining r) /\
  total_cost r <= 1000 /\
  (forall x, In x (res_selected_bridges r ++ res_selected_roads r) ->
             estimated_repair_cost x <= 1000).
Proof.
  apply (optimize_budget_conservation [mkItem 1 90 400 (9/40)]
           [mkItem 2 80 500 (4/25)] 1000 false true).
  - unfold Qle. simpl. lia.
  - intros x Hx. simpl in Hx.
    destruct Hx as [<-|[<-|[]]]; unfold Qle; simpl; lia.
Defined.

End BudgetWitness.

(** ** A PCI of 0 is read as missing *)

Section PciZero.
Import Py RoadData.

Lemma or_default_pci_zero : or_default (Some 0) 70 = or_default None 70.
Proof. reflexivity. Qed.

Ltac unfold_with_pci :=
  unfold with_pci;
  cbn [d_highway d_direction d_section_from d_section_to d_km_start d_km_end
       d_pci d_dmi d_iri d_pavement_type d_aadt d_pavement_age].

Lemma forecast_road_pci_zero highway zone years (r : RoadDict) :
  RoadDegradation.forecast_road highway zone years (with_pci r (Some 0)) =
  RoadDegradation.forecast_road highway zone years (with_pci r None).
Proof.
  unfold RoadDegradation.forecast_road. unfold_with_pci.
  rewrite or_default_pci_zero. reflexivity.
Qed.

Lemma forecast_road_pci_missing highway zone years (r : RoadDict) :
  RoadDegradation.f_current_pci
    (RoadDegradation.forecast_road highway zone years (with_pci r None)) = 70.
Proof. unfold RoadDegradation.forecast_road. cbn [RoadDegradation.f_current_pci]. reflexivity. Qed.

Lemma winter_road_pci_zero ft cz (r : RoadDict) :
  WinterResilience.winter_road ft cz (with_pci r (Some 0)) =
  WinterResilience.winter_road ft cz (with_pci r None).
Proof.
  unfold WinterResilience.winter_road. unfold_with_pci.
  rewrite or_default_pci_zero. reflexivity.
Qed.

Lemma winter_road_pci_missing ft cz (r : RoadDict) :
  WinterResilience.w_current_pci
    (WinterResilience.winter_road ft cz (with_pci r None)) = 70.
Proof.
  unfold WinterResilience.winter_road. cbv zeta.
  destruct (WinterResilience.calculate_winter_damage_risk _ _ _ _ _).
  destruct (WinterResilience.get_recommendation _ _ _ _).
  destruct (WinterResilience.get_risk_level _ _); reflexivity.
Qed.

(** C10: in [forecast_degradation] and in [analyze_winter_vulnerability] a
    road whose PCI is 0 is processed exactly like a road with no PCI: both
    are given the default PCI of 70, so a true PCI of 0 never shows up as
    the current PCI of the forecast or of the winter analysis. *)
Theorem pci_zero_treated_as_missing (roads : list RoadDict)
    (highway province : string) (years : nat) :
  let zero := map (fun r => with_pci r (Some 0)) roads in
  let missing := map (fun r => with_pci r None) roads in
  RoadDegradation.forecast_degradation zero highway province years =
  RoadDegradation.forecast_degradation missing highway province years /\
  WinterResilience.analyze_winter_vulnerability zero province =
  WinterResilience.analyze_winter_vulnerability missing province /\
  Forall (fun f => RoadDegradation.f_current_pci f = 70)
    (RoadDegradation.forecast_degradation zero highway province years) /\
  Forall (fun w => WinterResilience.w_current_pci w = 70)
    (WinterResilience.analyze_winter_vulnerability zero province).
Proof.
  intros zero missing. subst zero missing.
  unfold RoadDegradation.forecast_degradation,
    WinterResilience.analyze_winter_vulnerability.
  rewrite !map_map. split; [|split; [|split]].
  - apply map_ext. intro r. apply forecast_road_pci_zero.
  - apply map_ext. intro r. apply winter_road_pci_zero.
  - apply Forall_forall. intros f Hf. apply in_map_iff in Hf as (r & <- & _).
    rewrite forecast_road_pci_zero. apply forecast_road_pci_missing.
  - apply Forall_forall. intros w Hw. apply in_map_iff in Hw as (r & <- & _).
    rewrite winter_road_pci_zero. apply winter_road_pci_missing.
Qed.

End PciZero.

(** * Further properties of the modelled code *)

(** ** Budget optimizer: who is funded *)

Section OptimizerExtras.
Import Py FundingOptimizer.

Local Hint Resolve in_eq in_cons : core.

Definition sel (s : OptState) : list Item := selected_bridges s ++ selected_roads s.

Lemma in_sort_desc_r {A} (key : A -> Q) x l : In x l -> In x (sort_desc key l).
Proof.
  intro H. eapply Permutation_in; [symmetry; apply sort_desc_perm|exact H].
Qed.

Lemma in_merged_pool_l bs rs x : In x bs -> In (KBridge, x) (merged_pool bs rs).
Proof.
  intro H. unfold merged_pool. apply in_sort_desc_r, in_app_iff. left.
  apply in_map. exact H.
Qed.

Lemma in_merged_pool_r bs rs x : In x rs -> In (KRoad, x) (merged_pool bs rs).
Proof.
  intro H. unfold merged_pool. apply in_sort_desc_r, in_app_iff. right.
  apply in_map. exact H.
Qed.

Lemma critical_high x : is_critical x = true -> is_high_risk x = true.
Proof.
  unfold is_critical, is_high_risk. intro H. qbools.
  apply Qltb_true. lra.
Qed.

(** Items selected so far all satisfy [P]. *)
Definition sel_all (P : Item -> Prop) (s : OptState) : Prop :=
  forall x, In x (sel s) -> P x.

Lemma fund_sel P k x s : sel_all P s -> P x -> sel_all P (fund k x s).
Proof.
  unfold sel_all, sel, fund. intros H Hx y Hy.
  destruct k; simpl in Hy; rewrite !in_app_iff in Hy; simpl in Hy;
    (destruct Hy as [[Hy|[<-|[]]]|Hy] || destruct Hy as [Hy|[Hy|[<-|[]]]]);
    auto; apply H; apply in_app_iff; auto.
Qed.

Lemma critical_step_sel P k s x :
  sel_all P s -> P x -> sel_all P (critical_step k s x).
Proof.
  intros H Hx. unfold critical_step.
  destruct (Qle_bool _ _); [apply fund_sel; auto|].
  destruct k; exact H.
Qed.

Lemma pool_step_sel P s kx :
  sel_all P s -> P (snd kx) -> sel_all P (pool_step s kx).
Proof.
  destruct kx as [k x]. intros H Hx. unfold pool_step.
  destruct (Qle_bool _ _); [apply fund_sel; auto|exact H].
Qed.

Lemma fold_critical_sel P k l s :
  sel_all P s -> (forall x, In x l -> P x) ->
  sel_all P (fold_left (critical_step k) l s).
Proof.
  revert s. induction l as [|x l IH]; intros s H Hl; simpl; [exact H|].
  apply IH; [apply critical_step_sel; auto|intros; auto].
Qed.

Lemma fold_pool_sel P l s :
  sel_all P s -> (forall kx, In kx l -> P (snd kx)) ->
  sel_all P (fold_left pool_step l s).
Proof.
  revert s. induction l as [|x l IH]; intros s H Hl; simpl; [exact H|].
  apply IH; [apply pool_step_sel; auto|intros; auto].
Qed.

(** Every selected item comes from the input lists. *)
Lemma select_items_from bridges roads budget imr :
  sel_all (fun x => In x (bridges ++ roads)) (select_items bridges roads budget imr).
Proof.
  assert (Hpool : forall fb fr kx,
            In kx (merged_pool (sort_desc risk_cost_ratio (filter fb bridges))
                               (sort_desc risk_cost_ratio (filter fr roads))) ->
            In (snd kx) (bridges ++ roads)).
  { intros fb fr kx H. apply in_merged_pool in H as [H|H];
      apply in_sorted_filter in H; apply in_app_iff; auto. }
  unfold select_items, critical_phase.
  assert (H2 : sel_all (fun x => In x (bridges ++ roads))
    (fold_left (critical_step KRoad)
       (sort_desc risk_cost_ratio (filter is_critical roads))
       (fold_left (critical_step KBridge)
          (sort_desc risk_cost_ratio (filter is_critical bridges))
          (mkState [] [] budget [] [])))).
  { apply fold_critical_sel;
      [|intros x Hx; apply in_sorted_filter in Hx; apply in_app_iff; auto].
    apply fold_critical_sel;
      [|intros x Hx; apply in_sorted_filter in Hx; apply in_app_iff; auto].
    intros x []. }
  destruct imr; repeat (apply fold_pool_sel; [|apply Hpool]); exact H2.
Qed.

(** Without the medium-risk step every selected item is high risk. *)
Lemma select_items_high bridges roads budget :
  sel_all (fun x => is_high_risk x = true) (select_items bridges roads budget false).
Proof.
  unfold select_items, critical_phase. cbv beta iota zeta.
  apply fold_pool_sel.
  - apply fold_critical_sel; [apply fold_critical_sel; [intros x []|]|];
      intros x Hx; apply in_sort_desc in Hx; apply filter_In in Hx as [_ Hx];
      apply critical_high; exact Hx.
  - intros kx Hk. apply in_merged_pool in Hk as [Hk|Hk];
      apply in_sort_desc in Hk; apply filter_In in Hk as [_ Hk];
      apply andb_true_iff in Hk as [Hk _]; exact Hk.
Qed.

(** The selection only ever grows and the remaining budget only shrinks. *)
Definition grows (s s' : OptState) : Prop :=
  remaining_budget s' <= remaining_budget s /\ incl (sel s) (sel s').

(** Every item of [l] is selected in [s] or costs more than what is left. *)
Definition covers (l : list Item) (s : OptState) : Prop :=
  forall y, In y l -> In y (sel s) \/ remaining_budget s < estimated_repair_cost y.

Lemma grows_refl s : grows s s.
Proof. split; [lra|apply incl_refl]. Qed.

Lemma grows_trans s1 s2 s3 : grows s1 s2 -> grows s2 s3 -> grows s1 s3.
Proof.
  intros [H1 I1] [H2 I2]. split; [lra|]. eapply incl_tran; eauto.
Qed.

Lemma covers_grows l s s' : covers l s -> grows s s' -> covers l s'.
Proof.
  intros Hc [Hr Hi] y Hy. destruct (Hc y Hy) as [H|H]; [left; auto|right; lra].
Qed.

Lemma fund_grows k x s :
  0 <= estimated_repair_cost x -> grows s (fund k x s) /\ In x (sel (fund k x s)).
Proof.
  intro Hx. unfold grows, sel, fund.
  destruct k; simpl; (split; [split; [lra|]|]);
    try (intros y Hy; rewrite !in_app_iff in *; tauto);
    rewrite !in_app_iff; simpl; tauto.
Qed.

Lemma critical_step_greedy k s x :
  0 <= estimated_repair_cost x ->
  grows s (critical_step k s x) /\ covers [x] (critical_step k s x).
Proof.
  intro Hx. unfold critical_step.
  destruct (Qle_bool _ _) eqn:E.
  - destruct (fund_grows k x s Hx) as [G I]. split; [exact G|].
    intros y [<-|[]]. left. exact I.
  - qbools. destruct k; (split; [split; [simpl; lra|apply incl_refl]|]);
      intros y [<-|[]]; right; exact E.
Qed.

Lemma pool_step_greedy s kx :
  0 <= estimated_repair_cost (snd kx) ->
  grows s (pool_step s kx) /\ covers [snd kx] (pool_step s kx).
Proof.
  destruct kx as [k x]. simpl. intro Hx. unfold pool_step.
  destruct (Qle_bool _ _) eqn:E.
  - destruct (fund_grows k x s Hx) as [G I]. split; [exact G|].
    intros y [<-|[]]. left. exact I.
  - qbools. split; [apply grows_refl|]. intros y [<-|[]]. right. exact E.
Qed.

Lemma fold_critical_greedy k l s :
  (forall x, In x l -> 0 <= estimated_repair_cost x) ->
  grows s (fold_left (critical_step k) l s) /\
  covers l (fold_left (critical_step k) l s).
Proof.
  revert s. induction l as [|x l IH]; intros s Hl; simpl.
  - split; [apply grows_refl|intros y []].
  - destruct (critical_step_greedy k s x) as [G1 C1]; [auto|].
    destruct (IH (critical_step k s x)) as [G2 C2]; [auto|].
    split; [eapply grows_trans; eauto|].
    intros y [<-|Hy]; [|auto]. apply (covers_grows [x] _ _ C1 G2 x); auto.
Qed.

Lemma fold_pool_greedy l s :
  (forall kx, In kx l -> 0 <= estimated_repair_cost (snd kx)) ->
  grows s (fold_left pool_step l s) /\
  covers (map snd l) (fold_left pool_step l s).
Proof.
  revert s. induction l as [|x l IH]; intros s Hl; simpl.
  - split; [apply grows_refl|intros y []].
  - destruct (pool_step_greedy s x) as [G1 C1]; [auto|].
    destruct (IH (pool_step s x)) as [G2 C2]; [auto|].
    split; [eapply grows_trans; eauto|].
    intros y [<-|Hy]; [|auto]. apply (covers_grows [snd x] _ _ C1 G2 (snd x)); auto.
Qed.

(** Greedy maximality of the selection: an item that one of the three steps
    considers ends up selected, or is unaffordable with the final remaining
    budget. *)
Lemma select_items_greedy bridges roads budget imr :
  (forall x, In x (bridges ++ roads) -> 0 <= estimated_repair_cost x) ->
  forall x, In x (bridges ++ roads) -> imr = true \/ is_high_risk x = true ->
  In x (sel (select_items bridges roads budget imr)) \/
  remaining_budget (select_items bridges roads budget imr) < estimated_repair_cost x.
Proof.
  intros Hc x Hx Himr.
  assert (HB : forall x, In x bridges -> 0 <= estimated_repair_cost x)
    by (intros; apply Hc, in_app_iff; auto).
  assert (HR : forall x, In x roads -> 0 <= estimated_repair_cost x)
    by (intros; apply Hc, in_app_iff; auto).
  assert (Hpool : forall fb fr kx,
            In kx (merged_pool (sort_desc risk_cost_ratio (filter fb bridges))
                               (sort_desc risk_cost_ratio (filter fr roads))) ->
            0 <= estimated_repair_cost (snd kx)).
  { intros fb fr kx H. apply in_merged_pool in H as [H|H];
      apply in_sorted_filter in H; auto. }
  assert (Hmem : forall fb fr, fb x = true -> fr x = true ->
            In x (map snd (merged_pool (sort_desc risk_cost_ratio (filter fb bridges))
                                       (sort_desc risk_cost_ratio (filter fr roads))))).
  { intros fb fr Hb Hr. apply in_app_iff in Hx as [Hx|Hx].
    - apply (in_map snd _ (KBridge, x)), in_merged_pool_l, in_sort_desc_r,
        filter_In. auto.
    - apply (in_map snd _ (KRoad, x)), in_merged_pool_r, in_sort_desc_r,
        filter_In. auto. }
  unfold select_items, critical_phase. cbv zeta.
  destruct (fold_critical_greedy KBridge
              (sort_desc risk_cost_ratio (filter is_critical bridges))
              (mkState [] [] budget [] [])) as [G1 C1].
  { intros y Hy. apply in_sorted_filter in Hy. auto. }
  set (s1 := fold_left (critical_step KBridge) _ _) in *.
  destruct (fold_critical_greedy KRoad
              (sort_desc risk_cost_ratio (filter is_critical roads)) s1) as [G2 C2].
  { intros y Hy. apply in_sorted_filter in Hy. auto. }
  set (s2 := fold_left (critical_step KRoad) _ s1) in *.
  destruct (fold_pool_greedy
              (merged_pool
                 (sort_desc risk_cost_ratio
                    (filter (fun b => is_high_risk b && negb (is_critical b)) bridges))
                 (sort_desc risk_cost_ratio
                    (filter (fun r => is_high_risk r && negb (is_critical r)) roads)))
              s2) as [G3 C3].
  { apply Hpool. }
  set (s3 := fold_left pool_step _ s2) in *.
  assert (G4 : grows s3 (if imr then fold_left pool_step
       (merged_pool
          (sort_desc risk_cost_ratio (filter (fun b => negb (is_high_risk b)) bridges))
          (sort_desc risk_cost_ratio (filter (fun r => negb (is_high_risk r)) roads)))
       s3 else s3)).
  { destruct imr; [apply fold_pool_greedy, Hpool|apply grows_refl]. }
  set (s4 := if imr then _ else _) in *.
  destruct (is_critical x) eqn:Ec.
  - apply in_app_iff in Hx as [Hx|Hx].
    + apply (covers_grows _ _ _ C1 (grows_trans _ _ _ G2 (grows_trans _ _ _ G3 G4))).
      apply in_sort_desc_r, filter_In. auto.
    + apply (covers_grows _ _ _ C2 (grows_trans _ _ _ G3 G4)).
      apply in_sort_desc_r, filter_In. auto.
  - destruct (is_high_risk x) eqn:Eh.
    + apply (covers_grows _ _ _ C3 G4). apply Hmem; rewrite Eh, Ec; reflexivity.
    + destruct Himr as [->|]; [|discriminate].
      subst s4. apply fold_pool_greedy; [apply Hpool|].
      apply Hmem; rewrite Eh; reflexivity.
Qed.

(** Counting critical items: those of kind [k] selected plus those of
    kind [k] left unfunded. *)
Definition sel_k (k : Kind) (s : OptState) : list Item :=
  match k with KBridge => selected_bridges s | KRoad => selected_roads s end.

Definition unf_k (k : Kind) (s : OptState) : list Item :=
  match k with
  | KBridge => unfunded_critical_bridges s
  | KRoad => unfunded_critical_roads s
  end.

Definition crit_count (k : Kind) (s : OptState) : nat :=
  List.length (filter is_critical (sel_k k s)) + List.length (unf_k k s).

Definition kind_eqb (k k' : Kind) : bool :=
  match k, k' with KBridge, KBridge | KRoad, KRoad => true | _, _ => false end.

Lemma critical_step_count k k' s x :
  is_critical x = true ->
  crit_count k (critical_step k' s x) =
  if kind_eqb k k' then S (crit_count k s) else crit_count k s.
Proof.
  intro Hx. unfold crit_count, critical_step, fund.
  destruct (Qle_bool _ _), k, k'; simpl;
    rewrite ?filter_app, ?length_app; simpl; rewrite ?Hx; simpl; lia.
Qed.

Lemma pool_step_count k s kx :
  is_critical (snd kx) = false -> crit_count k (pool_step s kx) = crit_count k s.
Proof.
  destruct kx as [k' x]. simpl. intro Hx. unfold crit_count, pool_step, fund.
  destruct (Qle_bool _ _); [|reflexivity].
  destruct k, k'; simpl; rewrite ?filter_app, ?length_app; simpl; rewrite ?Hx;
    simpl; lia.
Qed.

Lemma fold_critical_count k k' l s :
  (forall x, In x l -> is_critical x = true) ->
  crit_count k (fold_left (critical_step k') l s) =
  ((if kind_eqb k k' then List.length l else 0) + crit_count k s)%nat.
Proof.
  revert s. induction l as [|x l IH]; intros s Hl; simpl.
  - destruct (kind_eqb k k'); reflexivity.
  - rewrite IH by auto. rewrite critical_step_count by auto.
    destruct (kind_eqb k k'); simpl; lia.
Qed.

Lemma fold_pool_count k l s :
  (forall kx, In kx l -> is_critical (snd kx) = false) ->
  crit_count k (fold_left pool_step l s) = crit_count k s.
Proof.
  revert s. induction l as [|x l IH]; intros s Hl; simpl; [reflexivity|].
  rewrite IH by auto. apply pool_step_count. auto.
Qed.

(** Only step 1 touches critical items: each one is funded or reported. *)
Lemma select_items_count k bridges roads budget imr :
  crit_count k (select_items bridges roads budget imr) =
  List.length (filter is_critical (match k with KBridge => bridges | KRoad => roads end)).
Proof.
  assert (Hpool : forall fb fr kx,
     (forall y, fb y = true -> is_critical y = false) ->
     (forall y, fr y = true -> is_critical y = false) ->
     In kx (merged_pool (sort_desc risk_cost_ratio (filter fb bridges))
                        (sort_desc risk_cost_ratio (filter fr roads))) ->
     is_critical (snd kx) = false).
  { intros fb fr kx Hb Hr H. apply in_merged_pool in H as [H|H];
      apply in_sort_desc in H; apply filter_In in H as [_ H]; auto. }
  assert (Hcb : forall y, In y (sort_desc risk_cost_ratio (filter is_critical bridges)) ->
                  is_critical y = true).
  { intros y Hy. apply in_sort_desc, filter_In in Hy. tauto. }
  assert (Hcr : forall y, In y (sort_desc risk_cost_ratio (filter is_critical roads)) ->
                  is_critical y = true).
  { intros y Hy. apply in_sort_desc, filter_In in Hy. tauto. }
  assert (Hhigh : forall y, (is_high_risk y && negb (is_critical y)) = true ->
                    is_critical y = false).
  { intros y Hy. apply andb_true_iff in Hy as [_ Hy]. destruct (is_critical y); auto. }
  assert (Hother : forall y, negb (is_high_risk y) = true -> is_critical y = false).
  { intros y Hy. destruct (is_critical y) eqn:E; [|reflexivity].
    apply critical_high in E. rewrite E in Hy. discriminate. }
  unfold select_items, critical_phase. cbv zeta.
  assert (H2 : crit_count k (fold_left (critical_step KRoad)
       (sort_desc risk_cost_ratio (filter is_critical roads))
       (fold_left (critical_step KBridge)
          (sort_desc risk_cost_ratio (filter is_critical bridges))
          (mkState [] [] budget [] []))) =
     List.length (filter is_critical (match k with KBridge => bridges | KRoad => roads end))).
  { rewrite !fold_critical_count by auto.
    rewrite !(Permutation_length (sort_desc_perm _ _)).
    destruct k; simpl; unfold crit_count; simpl; lia. }
  destruct imr; rewrite ?fold_pool_count; auto;
    intros kx Hk; (eapply Hpool; [| |exact Hk]); auto.
Qed.

(** Critical items always pass the [min_risk_score] filter. *)
Lemma filter_critical_min (m : Q) (l : list Item) :
  m <= 85 ->
  filter is_critical (filter (fun b => Qle_bool m (risk_score b)) l) =
  filter is_critical l.
Proof.
  intro Hm. induction l as [|x l IH]; simpl; [reflexivity|].
  destruct (is_critical x) eqn:Ec.
  - assert (Qle_bool m (risk_score x) = true).
    { unfold is_critical in Ec. qbools. apply Qle_bool_iff. lra. }
    rewrite H. simpl. rewrite Ec, IH. reflexivity.
  - destruct (Qle_bool m (risk_score x)); simpl; rewrite ?Ec; exact IH.
Qed.

End OptimizerExtras.

Section OptimizerTheorems.
Import Py FundingOptimizer.

Local Hint Resolve in_eq in_cons : core.

(** The two outcomes of [optimize_budget]: no item passes the filters, or
    the result reports the state left by the selection. *)
Lemma optimize_budget_cases (all_bridges all_roads : list Item) (budget : Q)
    (imr ir : bool) :
  let min_risk := if imr then 55 else 70 in
  let bridges := filter (fun b => Qle_bool min_risk (risk_score b)) all_bridges in
  let roads := if ir
               then filter (fun r => Qle_bool min_risk (risk_score r)) all_roads
               else [] in
  let r := optimize_budget all_bridges all_roads budget imr ir in
  (bridges = [] /\ roads = [] /\
   r = mkResult [] [] 0 0 0 budget 0 0 0 0 0 0 [] 0 0 [] [NoInfrastructure]) \/
  (res_selected_bridges r = selected_bridges (select_items bridges roads budget imr) /\
   res_selected_roads r = selected_roads (select_items bridges roads budget imr) /\
   budget_remaining r = remaining_budget (select_items bridges roads budget imr) /\
   total_cost r = budget - remaining_budget (select_items bridges roads budget imr) /\
   critical_bridges_funded r =
     List.length (filter is_critical
                    (selected_bridges (select_items bridges roads budget imr))) /\
   critical_bridges_unfunded r =
     List.length (unfunded_critical_bridges (select_items bridges roads budget imr)) /\
   critical_roads_funded r =
     List.length (filter is_critical
                    (selected_roads (select_items bridges roads budget imr))) /\
   critical_roads_unfunded r =
     List.length (unfunded_critical_roads (select_items bridges roads budget imr))).
Proof.
  intros min_risk bridges roads r. subst r.
  unfold optimize_budget. fold min_risk. fold bridges. fold roads.
  destruct bridges as [|b bs], roads as [|x xs];
    [left; auto|right; repeat split; reflexivity ..].
Qed.

Lemma filtered_in {A} (f : A -> bool) x l : In x (filter f l) -> In x l /\ f x = true.
Proof. apply filter_In. Qed.

(** With [include_medium_risk=False] every funded bridge or road has a risk
    score above 70 (an item scoring exactly 70 passes the [min_risk_score]
    filter but is never funded); with [include_medium_risk=True] every
    funded item scores at least 55. *)
Theorem optimize_budget_selected_risk (all_bridges all_roads : list Item)
    (budget : Q) (imr ir : bool) (x : Item) :
  let r := optimize_budget all_bridges all_roads budget imr ir in
  In x (res_selected_bridges r ++ res_selected_roads r) ->
  if imr then 55 <= risk_score x else 70 < risk_score x.
Proof.
  intros r Hx. pose proof (optimize_budget_cases all_bridges all_roads budget imr ir)
    as H. cbv zeta in H. fold r in H.
  destruct H as [(_ & _ & E)|(E1 & E2 & _)]; [rewrite E in Hx; contradiction|].
  rewrite E1, E2 in Hx. destruct imr.
  - apply select_items_from in Hx. apply in_app_iff in Hx as [Hx|Hx].
    + apply filtered_in in Hx as [_ Hx]. apply Qle_bool_iff. exact Hx.
    + destruct ir; [|contradiction].
      apply filtered_in in Hx as [_ Hx]. apply Qle_bool_iff. exact Hx.
  - apply select_items_high in Hx. unfold is_high_risk in Hx. qbools. exact Hx.
Qed.

(** Witness: a bridge scoring 80 is funded. *)
Lemma optimize_budget_selected_risk_witness :
  let x := mkItem 1 80 1000000 80 in
  In x (res_selected_bridges (optimize_budget [x] [] 2000000 false true) ++
        res_selected_roads (optimize_budget [x] [] 2000000 false true)) /\
  70 < risk_score x.
Proof.
  intro x. assert (H : In x (res_selected_bridges (optimize_budget [x] [] 2000000 false true) ++
        res_selected_roads (optimize_budget [x] [] 2000000 false true)))
    by (vm_compute; left; reflexivity).
  split; [exact H|].
  exact (optimize_budget_selected_risk [x] [] 2000000 false true x H).
Defined.

(** Greedy maximality of [optimize_budget]: when repair costs are not
    negative, a bridge (or, with [include_roads], a road) that scores above
    70 (at least 55 with [include_medium_risk]) is either funded or costs
    more than the budget left at the end. *)
Theorem optimize_budget_greedy_maximal (all_bridges all_roads : list Item)
    (budget : Q) (imr ir : bool) (x : Item) :
  (forall y, In y (all_bridges ++ all_roads) -> 0 <= estimated_repair_cost y) ->
  In x all_bridges \/ (ir = true /\ In x all_roads) ->
  (if imr then 55 <= risk_score x else 70 < risk_score x) ->
  let r := optimize_budget all_bridges all_roads budget imr ir in
  In x (res_selected_bridges r ++ res_selected_roads r) \/
  budget_remaining r < estimated_repair_cost x.
Proof.
  intros Hc Hx Hrisk r.
  pose proof (optimize_budget_cases all_bridges all_roads budget imr ir) as H.
  cbv zeta in H. fold r in H.
  set (bridges := filter _ all_bridges) in H.
  set (roads := if ir then _ else []) in H.
  assert (Hmin : Qle_bool (if imr then 55 else 70) (risk_score x) = true).
  { apply Qle_bool_iff. destruct imr; lra. }
  assert (Hin : In x (bridges ++ roads)).
  { apply in_app_iff. destruct Hx as [Hx|[-> Hx]]; [left|right];
      apply filter_In; auto. }
  assert (Hc' : forall y, In y (bridges ++ roads) -> 0 <= estimated_repair_cost y).
  { intros y Hy. apply Hc, in_app_iff. apply in_app_iff in Hy as [Hy|Hy].
    - apply filtered_in in Hy. tauto.
    - subst roads. destruct ir; [|contradiction].
      apply filtered_in in Hy. tauto. }
  destruct H as [(Eb & Er & _)|(E1 & E2 & E3 & _)].
  - rewrite Eb, Er in Hin. contradiction.
  - rewrite E1, E2, E3. apply select_items_greedy; auto.
    destruct imr; [left; reflexivity|right].
    unfold is_high_risk. apply Qltb_true. exact Hrisk.
Qed.

(** Witness: two bridges scoring 90 and 80 costing 1.5M each, budget 2M:
    the second one is left out because only 0.5M remains. *)
Lemma optimize_budget_greedy_maximal_witness :
  let b1 := mkItem 1 90 1500000 60 in
  let b2 := mkItem 2 80 1500000 53 in
  let r := optimize_budget [b1; b2] [] 2000000 false true in
  In b2 (res_selected_bridges r ++ res_selected_roads r) \/
  budget_remaining r < estimated_repair_cost b2.
Proof.
  intros b1 b2.
  apply (optimize_budget_greedy_maximal [b1; b2] [] 2000000 false true b2).
  - intros y Hy. simpl in Hy.
    destruct Hy as [<-|[<-|[]]]; simpl; unfold Qle; simpl; lia.
  - left. right. left. reflexivity.
  - simpl. unfold Qlt; simpl; lia.
Defined.

(** Every critical bridge (risk above 85) of the region is counted once in
    [optimize_budget]'s result: funded plus unfunded critical bridges equal
    the number of critical bridges; the same holds for roads when
    [include_roads] is set, and both road counts are 0 otherwise. *)
Theorem optimize_budget_critical_accounting (all_bridges all_roads : list Item)
    (budget : Q) (imr ir : bool) :
  let r := optimize_budget all_bridges all_roads budget imr ir in
  (critical_bridges_funded r + critical_bridges_unfunded r =
     List.length (filter is_critical all_bridges))%nat /\
  (critical_roads_funded r + critical_roads_unfunded r =
     if ir then List.length (filter is_critical all_roads) else 0)%nat.
Proof.
  intro r.
  pose proof (optimize_budget_cases all_bridges all_roads budget imr ir) as H.
  cbv zeta in H. fold r in H.
  assert (Hm : (if imr then 55 else 70) <= 85) by (destruct imr; lra).
  pose proof (filter_critical_min _ all_bridges Hm) as Fb.
  pose proof (filter_critical_min _ all_roads Hm) as Fr.
  destruct H as [(Eb & Er & E)|(_ & _ & _ & _ & E1 & E2 & E3 & E4)].
  - rewrite E. simpl. rewrite <- Fb, Eb. split; [reflexivity|].
    destruct ir; [|reflexivity]. rewrite <- Fr, Er. reflexivity.
  - rewrite E1, E2, E3, E4.
    pose proof (select_items_count KBridge
      (filter (fun b => Qle_bool (if imr then 55 else 70) (risk_score b)) all_bridges)
      (if ir then filter (fun r => Qle_bool (if imr then 55 else 70) (risk_score r))
                    all_roads else [])
      budget imr) as Cb.
    pose proof (select_items_count KRoad
      (filter (fun b => Qle_bool (if imr then 55 else 70) (risk_score b)) all_bridges)
      (if ir then filter (fun r => Qle_bool (if imr then 55 else 70) (risk_score r))
                    all_roads else [])
      budget imr) as Cr.
    unfold crit_count in Cb, Cr. simpl in Cb, Cr.
    rewrite Fb in Cb. split; [exact Cb|].
    destruct ir; [rewrite Fr in Cr|]; exact Cr.
Qed.

End OptimizerTheorems.

(** ** Optimization inputs: scores, costs and ratios *)

Section PipelineFacts.
Import Py FundingOptimizer RiskScore FundingPipeline.

Local Hint Resolve in_eq in_cons : core.

Lemma clamp_bounds (x : Q) : 0 <= min 100 (max 0 x) /\ min 100 (max 0 x) <= 100.
Proof.
  unfold min, max. destruct (Qltb 0 x) eqn:E1; qbools;
    [destruct (Qltb x 100) eqn:E2|destruct (Qltb 0 100) eqn:E2]; qbools; lra.
Qed.

Lemma bridge_risk_bounds now_year b :
  0 <= calculate_risk_score now_year b /\ calculate_risk_score now_year b <= 100.
Proof. unfold calculate_risk_score. cbv zeta. apply clamp_bounds. Qed.

Lemma road_risk_bounds r :
  0 <= calculate_road_risk_score r /\ calculate_road_risk_score r <= 100.
Proof. unfold calculate_road_risk_score. cbv zeta. apply clamp_bounds. Qed.

Lemma round_thousand_mult (x : Q) : exists k : Z, round_thousand x == inject_Z k * 1000.
Proof. unfold round_thousand, round_scaled. cbv zeta. eexists. reflexivity. Qed.

Lemma round_thousand_mono (x y : Q) : x <= y -> round_thousand x <= round_thousand y.
Proof. intro H. apply round_scaled_mono; [reflexivity|exact H]. Qed.

Lemma dict_get_prop {A} (P : A -> Prop) (d : list (string * A)) k default :
  P default -> Forall (fun p => P (snd p)) d -> P (dict_get d k default).
Proof.
  intros Hd Hl. unfold dict_get. destruct (find _ d) as [[k' v]|] eqn:E; [|exact Hd].
  apply find_some in E as [E _]. rewrite Forall_forall in Hl. exact (Hl _ E).
Qed.

Lemma bridge_base_bounds region :
  2700000 <= dict_get BASE_BRIDGE_REPAIR_COSTS region 4000000 /\
  dict_get BASE_BRIDGE_REPAIR_COSTS region 4000000 <= 6000000.
Proof.
  apply (dict_get_prop (fun v => 2700000 <= v /\ v <= 6000000)).
  - split; unfold Qle; simpl; lia.
  - repeat constructor; unfold Qle; simpl; lia.
Qed.

Lemma road_base_bounds region :
  580000 <= dict_get BASE_ROAD_REPAIR_COST_PER_KM region 850000 /\
  dict_get BASE_ROAD_REPAIR_COST_PER_KM region 850000 <= 1200000.
Proof.
  apply (dict_get_prop (fun v => 580000 <= v /\ v <= 1200000)).
  - split; unfold Qle; simpl; lia.
  - repeat constructor; unfold Qle; simpl; lia.
Qed.

(** The multipliers of [_estimate_bridge_repair_cost] keep the cost between
    0.7 and 1.3 * 1.5 * 1.2 times the regional base cost. *)
Lemma bridge_cost_bounds now_year region b :
  1890000 <= estimate_bridge_repair_cost now_year region b /\
  estimate_bridge_repair_cost now_year region b <= 14040000.
Proof.
  unfold estimate_bridge_repair_cost. cbv zeta.
  destruct (bridge_base_bounds region) as [Hl Hu].
  generalize dependent (dict_get BASE_BRIDGE_REPAIR_COSTS region 4000000).
  intros base Hl Hu.
  match goal with |- _ <= round_thousand ?x /\ _ => assert (Hx : 1890000 <= x /\ x <= 14040000) end.
  { destruct (b_condition (cb_bridge b)) as [c|];
      [destruct (String.eqb c "Critical"), (String.eqb c "Poor"), (String.eqb c "Good")|];
      (destruct (cb_highway b) as [h|];
       [destruct (String.eqb h ""); [|destruct (existsb _ _); [|destruct (existsb _ _)]]|]);
      (destruct (pv_truthy (b_year_built (cb_bridge b)));
       [destruct (pv_int4 (b_year_built (cb_bridge b))) as [y|];
        [destruct (Z.ltb 50 _); [|destruct (Z.ltb 40 _)]|]|]);
      split; lra. }
  destruct Hx as [Hx1 Hx2]. split.
  - apply (Qle_trans _ (round_thousand 1890000)); [unfold Qle; simpl; lia|].
    apply round_thousand_mono. exact Hx1.
  - apply (Qle_trans _ (round_thousand 14040000)); [|unfold Qle; simpl; lia].
    apply round_thousand_mono. exact Hx2.
Qed.

Lemma road_length_pos r : 0 < road_length_km r.
Proof.
  unfold road_length_km. destruct (cr_km_start r), (cr_km_end r); try reflexivity.
  destruct (Qeq_bool _ 0) eqn:E; [reflexivity|].
  apply Qeq_bool_neq in E. pose proof (Qabs_nonneg (q0 - q)).
  apply Qle_lteq in H as [H|H]; [exact H|]. symmetry in H. contradiction.
Qed.

Lemma road_cost_nonneg r region len :
  0 <= len -> 0 <= estimate_road_repair_cost r region len.
Proof.
  intro Hlen. unfold estimate_road_repair_cost. cbv zeta.
  destruct (road_base_bounds region) as [Hl _].
  generalize dependent (dict_get BASE_ROAD_REPAIR_COST_PER_KM region 850000).
  intros base Hl.
  match goal with |- 0 <= round_thousand (?x * len) => assert (Hx : 0 <= x) end.
  { destruct (String.eqb _ "Critical"); [|destruct (String.eqb _ "Poor");
      [|destruct (String.eqb _ "Good")]];
      (destruct (cr_pavement_type r) as [p|];
       [destruct (String.eqb p ""); [|destruct (existsb _ _); [|destruct (existsb _ _)]]|]);
      (destruct (cr_aadt r) as [a|]; [destruct (Z.ltb 30000 a)|]); lra. }
  apply (Qle_trans _ (round_thousand 0)); [unfold Qle; simpl; lia|].
  apply round_thousand_mono. apply Qmult_le_0_compat; assumption.
Qed.

Lemma rcr_nonneg risk cost : 0 <= risk -> 0 <= risk_cost_ratio_of risk cost.
Proof.
  intro H. unfold risk_cost_ratio_of. destruct (Qltb 0 cost) eqn:E; qbools; [|lra].
  apply Qle_shift_div_l; [|lra].
  apply (Qlt_shift_div_l 0 cost 1000000); [reflexivity|lra].
Qed.

Lemma rcr_times_cost risk cost :
  0 < cost -> risk_cost_ratio_of risk cost * cost == risk * 1000000.
Proof.
  intro H. unfold risk_cost_ratio_of.
  destruct (Qltb 0 cost) eqn:E; qbools; [|lra].
  field. intro Hc. lra.
Qed.

End PipelineFacts.

Section PipelineTheorems.
Import Py FundingOptimizer RiskScore FundingPipeline.

Local Hint Resolve in_eq in_cons : core.

Lemma bridge_item_facts now_year region m rows x :
  In x (get_bridges_for_optimization now_year region m rows) ->
  m <= risk_score x /\ 0 <= risk_score x /\ risk_score x <= 100 /\
  1890000 <= estimated_repair_cost x /\ estimated_repair_cost x <= 14040000 /\
  (exists k : Z, estimated_repair_cost x == inject_Z k * 1000) /\
  risk_cost_ratio x * estimated_repair_cost x == risk_score x * 1000000.
Proof.
  unfold get_bridges_for_optimization, bridge_entries. intro H.
  apply in_map_iff in H as ([b' x'] & <- & H). apply in_flat_map in H as (b & _ & H).
  unfold bridge_entry in H. destruct (Qle_bool m _) eqn:E; [|contradiction].
  destruct H as [H|[]]. injection H as <- <-. simpl. qbools.
  destruct (bridge_risk_bounds now_year (cb_bridge b)) as [R1 R2].
  destruct (bridge_cost_bounds now_year region b) as [C1 C2].
  repeat split; try assumption; [apply round_thousand_mult|].
  apply rcr_times_cost. lra.
Qed.

Lemma road_item_facts region m rows x :
  In x (get_roads_for_optimization region m rows) ->
  m <= risk_score x /\ 0 <= risk_score x /\ risk_score x <= 100 /\
  0 <= estimated_repair_cost x /\
  (exists k : Z, estimated_repair_cost x == inject_Z k * 1000) /\
  0 <= risk_cost_ratio x.
Proof.
  unfold get_roads_for_optimization. intro H. apply in_flat_map in H as (r & _ & H).
  unfold road_item in H. destruct (Qle_bool m _) eqn:E; [|contradiction].
  destruct H as [H|[]]. subst x. simpl. qbools.
  destruct (road_risk_bounds (cached_road_scored r)) as [R1 R2].
  pose proof (road_length_pos r) as L.
  repeat split; try assumption.
  - apply road_cost_nonneg. lra.
  - apply round_thousand_mult.
  - apply rcr_nonneg. exact R1.
Qed.

(** [get_bridges_for_optimization(region, min_risk_score=m)] keeps exactly
    the bridges of the [min_risk_score=0] call that score at least [m]. *)
Lemma get_bridges_min_risk now_year region m rows :
  filter (fun b => Qle_bool m (risk_score b))
    (get_bridges_for_optimization now_year region 0 rows) =
  get_bridges_for_optimization now_year region m rows.
Proof.
  unfold get_bridges_for_optimization, bridge_entries.
  induction rows as [|b rows IH]; [reflexivity|]. simpl.
  rewrite !map_app, filter_app, IH. f_equal.
  unfold bridge_entry.
  assert (H0 : Qle_bool 0 (calculate_risk_score now_year (cb_bridge b)) = true)
    by (apply Qle_bool_iff; apply bridge_risk_bounds).
  rewrite H0. simpl. destruct (Qle_bool m _); reflexivity.
Qed.

Lemma get_roads_min_risk region m rows :
  filter (fun r => Qle_bool m (risk_score r)) (get_roads_for_optimization region 0 rows) =
  get_roads_for_optimization region m rows.
Proof.
  unfold get_roads_for_optimization.
  induction rows as [|r rows IH]; [reflexivity|]. simpl.
  rewrite filter_app, IH. f_equal.
  unfold road_item.
  assert (H0 : Qle_bool 0 (calculate_road_risk_score (cached_road_scored r)) = true)
    by (apply Qle_bool_iff; apply road_risk_bounds).
  rewrite H0. simpl. destruct (Qle_bool m _); reflexivity.
Qed.

Lemma sumQ_app {A} (f : A -> Q) l1 l2 : sumQ f (l1 ++ l2) == sumQ f l1 + sumQ f l2.
Proof.
  induction l1 as [|x l1 IH]; simpl; [lra|]. unfold sumQ in *. simpl. rewrite IH. lra.
Qed.

Lemma sumQ_nonneg {A} (f : A -> Q) l : (forall x, In x l -> 0 <= f x) -> 0 <= sumQ f l.
Proof.
  induction l as [|x l IH]; intro H; simpl; [lra|].
  unfold sumQ in *. simpl. pose proof (H x (in_eq _ _)).
  pose proof (IH (fun y Hy => H y (in_cons _ _ _ Hy))). lra.
Qed.

Lemma StronglySorted_remove {A} (R : A -> A -> Prop) l1 x l2 :
  StronglySorted R (l1 ++ x :: l2) -> StronglySorted R (l1 ++ l2).
Proof.
  induction l1 as [|y l1 IH]; simpl; intro H.
  - apply StronglySorted_inv in H. tauto.
  - apply StronglySorted_inv in H as [H1 H2]. constructor; [auto|].
    rewrite Forall_app in *. destruct H2 as [H2 H3]. inversion H3. tauto.
Qed.

Lemma StronglySorted_weaken {A} (R R' : A -> A -> Prop) l :
  (forall a b, R a b -> R' a b) -> StronglySorted R l -> StronglySorted R' l.
Proof.
  intros HR H. induction H; constructor; [assumption|].
  eapply Forall_impl; [|eassumption]. auto.
Qed.

Lemma trad_fold_budget l sel b :
  0 <= b -> (forall e, In e l -> 0 <= estimated_repair_cost (snd e)) ->
  0 <= snd (fold_left trad_step l (sel, b)) /\ snd (fold_left trad_step l (sel, b)) <= b.
Proof.
  revert sel b. induction l as [|e l IH]; intros sel b Hb Hl; simpl; [split; lra|].
  destruct (trad_step (sel, b) e) as [sel' b'] eqn:Et. unfold trad_step in Et.
  destruct (Qle_bool _ b) eqn:E; injection Et as <- <-; qbools.
  - pose proof (Hl e (in_eq _ _)).
    destruct (IH (sel ++ [e]) (b - estimated_repair_cost (snd e))) as [H1 H2];
      [lra|auto|]. split; lra.
  - apply IH; auto.
Qed.

Lemma trad_fold_sorted (R : CachedBridge * Item -> CachedBridge * Item -> Prop) l sel b :
  StronglySorted R (sel ++ l) -> StronglySorted R (fst (fold_left trad_step l (sel, b))).
Proof.
  revert sel b. induction l as [|e l IH]; intros sel b H; simpl; [rewrite app_nil_r in H; exact H|].
  destruct (trad_step (sel, b) e) as [sel' b'] eqn:Et. unfold trad_step in Et.
  destruct (Qle_bool _ b); injection Et as <- <-.
  - apply IH. rewrite <- app_assoc. exact H.
  - apply IH. eapply StronglySorted_remove. exact H.
Qed.

Lemma trad_fold_sum (f : CachedBridge * Item -> Q) l sel b :
  (forall e, In e l -> 0 <= f e) ->
  sumQ f sel <= sumQ f (fst (fold_left trad_step l (sel, b))) /\
  sumQ f (fst (fold_left trad_step l (sel, b))) <= sumQ f sel + sumQ f l.
Proof.
  revert sel b. induction l as [|e l IH]; intros sel b Hl; simpl; [split; lra|].
  pose proof (Hl e (in_eq _ _)) as He.
  assert (Hs : sumQ f (e :: l) == f e + sumQ f l) by reflexivity.
  destruct (trad_step (sel, b) e) as [sel' b'] eqn:Et. unfold trad_step in Et.
  destruct (Qle_bool _ b); injection Et as <- <-.
  - destruct (IH (sel ++ [e]) (b - estimated_repair_cost (snd e))) as [H1 H2]; [auto|].
    rewrite sumQ_app in H1, H2. assert (sumQ f [e] == f e) by (unfold sumQ; simpl; lra).
    split; lra.
  - destruct (IH sel b) as [H1 H2]; [auto|].
    pose proof (sumQ_nonneg f l (fun x Hx => Hl x (in_cons _ _ _ Hx))). split; lra.
Qed.

Lemma trad_fold_in l sel b e :
  In e (fst (fold_left trad_step l (sel, b))) -> In e sel \/ In e l.
Proof.
  revert sel b. induction l as [|e' l IH]; intros sel b H; simpl in *; [auto|].
  destruct (trad_step (sel, b) e') as [sel' b'] eqn:Et. unfold trad_step in Et.
  destruct (Qle_bool _ b); injection Et as <- <-.
  - apply IH in H as [H|H]; [|auto]. apply in_app_iff in H as [H|[<-|[]]]; auto.
  - apply IH in H as [H|H]; auto.
Qed.

Lemma bridge_entries_facts now_year region m rows e :
  In e (bridge_entries now_year region m rows) ->
  m <= risk_score (snd e) /\ 1890000 <= estimated_repair_cost (snd e).
Proof.
  intro H. assert (H' : In (snd e) (get_bridges_for_optimization now_year region m rows))
    by (apply in_map; exact H).
  apply bridge_item_facts in H'. tauto.
Qed.

End PipelineTheorems.

Section PipelineResults.
Import Py FundingOptimizer RiskScore FundingPipeline.

Local Hint Resolve in_eq in_cons : core.

Definition pipeline_bridge_row : CachedBridge :=
  mkCachedBridge 1 (mkBridge (Some "Poor"%string) py_none (py_digits 1950)) (Some "401"%string).

Definition pipeline_road_row : CachedRoad :=
  mkCachedRoad 2 (Some 10) (Some 12) (Some "Poor"%string) (Some 45) None None
    (Some "AC"%string) (Some 25000%Z).

(** Every bridge returned by [get_bridges_for_optimization] scores between
    [min_risk_score] (and 0) and 100, has a repair cost that is a multiple of
    1000 between 1,890,000 and 14,040,000, and its risk-to-cost ratio is its
    score per million dollars of cost, never the zero fallback. *)
Theorem get_bridges_for_optimization_items (now_year : Z) (region : string) (m : Q)
    (rows : list CachedBridge) (x : Item) :
  In x (get_bridges_for_optimization now_year region m rows) ->
  m <= risk_score x /\ 0 <= risk_score x /\ risk_score x <= 100 /\
  1890000 <= estimated_repair_cost x /\ estimated_repair_cost x <= 14040000 /\
  (exists k : Z, estimated_repair_cost x == inject_Z k * 1000) /\
  risk_cost_ratio x * estimated_repair_cost x == risk_score x * 1000000.
Proof. apply bridge_item_facts. Qed.

Lemma get_bridges_for_optimization_items_witness :
  match get_bridges_for_optimization 2026 "Ontario" 70 [pipeline_bridge_row] with
  | x :: _ =>
      70 <= risk_score x /\ 0 <= risk_score x /\ risk_score x <= 100 /\
      1890000 <= estimated_repair_cost x /\ estimated_repair_cost x <= 14040000 /\
      (exists k : Z, estimated_repair_cost x == inject_Z k * 1000) /\
      risk_cost_ratio x * estimated_repair_cost x == risk_score x * 1000000
  | [] => False
  end.
Proof.
  generalize (get_bridges_for_optimization_items 2026 "Ontario" 70 [pipeline_bridge_row]).
  destruct (get_bridges_for_optimization 2026 "Ontario" 70 [pipeline_bridge_row])
    as [|x l] eqn:E; [vm_compute in E; discriminate|].
  intro H. apply H. left. reflexivity.
Defined.

(** Every road section returned by [get_roads_for_optimization] scores
    between [min_risk_score] (and 0) and 100, and has a non-negative repair
    cost that is a multiple of 1000 and a non-negative risk-to-cost ratio. *)
Theorem get_roads_for_optimization_items (region : string) (m : Q)
    (rows : list CachedRoad) (x : Item) :
  In x (get_roads_for_optimization region m rows) ->
  m <= risk_score x /\ 0 <= risk_score x /\ risk_score x <= 100 /\
  0 <= estimated_repair_cost x /\
  (exists k : Z, estimated_repair_cost x == inject_Z k * 1000) /\
  0 <= risk_cost_ratio x.
Proof. apply road_item_facts. Qed.

Lemma get_roads_for_optimization_items_witness :
  match get_roads_for_optimization "Ontario" 70 [pipeline_road_row] with
  | x :: _ =>
      70 <= risk_score x /\ 0 <= risk_score x /\ risk_score x <= 100 /\
      0 <= estimated_repair_cost x /\
      (exists k : Z, estimated_repair_cost x == inject_Z k * 1000) /\
      0 <= risk_cost_ratio x
  | [] => False
  end.
Proof.
  generalize (get_roads_for_optimization_items "Ontario" 70 [pipeline_road_row]).
  destruct (get_roads_for_optimization "Ontario" 70 [pipeline_road_row])
    as [|x l] eqn:E; [vm_compute in E; discriminate|].
  intro H. apply H. left. reflexivity.
Defined.

(** Calling [get_bridges_for_optimization] or [get_roads_for_optimization]
    with [min_risk_score=m] gives exactly the items of the call with the
    default [min_risk_score=0] whose score is at least [m], in the same
    order: the default call drops nothing, since scores are never negative. *)
Theorem get_for_optimization_min_risk (now_year : Z) (region : string) (m : Q)
    (bridge_rows : list CachedBridge) (road_rows : list CachedRoad) :
  filter (fun b => Qle_bool m (risk_score b))
    (get_bridges_for_optimization now_year region 0 bridge_rows) =
  get_bridges_for_optimization now_year region m bridge_rows /\
  filter (fun r => Qle_bool m (risk_score r))
    (get_roads_for_optimization region 0 road_rows) =
  get_roads_for_optimization region m road_rows /\
  List.length (get_bridges_for_optimization now_year region 0 bridge_rows) =
  List.length bridge_rows /\
  List.length (get_roads_for_optimization region 0 road_rows) = List.length road_rows.
Proof.
  split; [apply get_bridges_min_risk|]. split; [apply get_roads_min_risk|]. split.
  - unfold get_bridges_for_optimization, bridge_entries. rewrite length_map.
    induction bridge_rows as [|b rows IH]; [reflexivity|]. simpl.
    rewrite length_app, IH. unfold bridge_entry.
    assert (H0 : Qle_bool 0 (calculate_risk_score now_year (cb_bridge b)) = true)
      by (apply Qle_bool_iff; apply bridge_risk_bounds).
    rewrite H0. reflexivity.
  - unfold get_roads_for_optimization.
    induction road_rows as [|r rows IH]; [reflexivity|]. simpl.
    rewrite length_app, IH. unfold road_item.
    assert (H0 : Qle_bool 0 (calculate_road_risk_score (cached_road_scored r)) = true)
      by (apply Qle_bool_iff; apply road_risk_bounds).
    rewrite H0. reflexivity.
Qed.

(** [optimize_budget] on a region, from the cached rows to the result: for
    a non-negative budget it never overspends ([total_cost = budget -
    budget_remaining], [0 <= budget_remaining <= budget]), and every bridge
    or (with [include_roads]) road scoring above 70, or at least 55 with
    [include_medium_risk], is funded or costs more than the budget left. *)
Theorem optimize_region_budget_greedy (now_year : Z) (region : string) (budget : Q)
    (imr ir : bool) (bridge_rows : list CachedBridge) (road_rows : list CachedRoad) :
  0 <= budget ->
  let r := optimize_region now_year region budget imr ir bridge_rows road_rows in
  total_cost r == budget - budget_remaining r /\
  0 <= budget_remaining r /\ budget_remaining r <= budget /\
  (forall x, In x (get_bridges_for_optimization now_year region 0 bridge_rows) \/
             (ir = true /\ In x (get_roads_for_optimization region 0 road_rows)) ->
   (if imr then 55 <= risk_score x else 70 < risk_score x) ->
   In x (res_selected_bridges r ++ res_selected_roads r) \/
   budget_remaining r < estimated_repair_cost x).
Proof.
  intros Hb r. subst r. unfold optimize_region.
  set (bs := get_bridges_for_optimization now_year region 0 bridge_rows).
  set (rs := get_roads_for_optimization region 0 road_rows).
  assert (Hc : forall y, In y (bs ++ rs) -> 0 <= estimated_repair_cost y).
  { intros y Hy. apply in_app_iff in Hy as [Hy|Hy].
    - apply bridge_item_facts in Hy. lra.
    - apply road_item_facts in Hy. tauto. }
  pose proof (optimize_budget_cases bs rs budget imr ir) as H. cbv zeta in H.
  set (bridges := filter _ bs) in H.
  set (roads := if ir then _ else []) in H.
  assert (Hin : forall x, In x bs \/ (ir = true /\ In x rs) ->
            (if imr then 55 <= risk_score x else 70 < risk_score x) ->
            In x (bridges ++ roads)).
  { intros x Hx Hrisk.
    assert (Hmin : Qle_bool (if imr then 55 else 70) (risk_score x) = true).
    { apply Qle_bool_iff. destruct imr; lra. }
    apply in_app_iff. destruct Hx as [Hx|[-> Hx]]; [left|right];
      apply filter_In; auto. }
  assert (Hc' : forall y, In y (bridges ++ roads) -> 0 <= estimated_repair_cost y).
  { intros y Hy. apply Hc, in_app_iff. apply in_app_iff in Hy as [Hy|Hy].
    - apply filter_In in Hy. tauto.
    - subst roads. destruct ir; [|contradiction].
      apply filter_In in Hy. tauto. }
  destruct H as [(Eb & Er & E)|(E1 & E2 & E3 & E4 & _)].
  - rewrite E. simpl. split; [lra|]. split; [lra|]. split; [lra|].
    intros x Hx Hrisk. specialize (Hin x Hx Hrisk). rewrite Eb, Er in Hin.
    contradiction.
  - destruct (select_items_inv bridges roads budget imr Hb Hc') as (I1 & I2 & _).
    rewrite E1, E2, E3, E4. split; [reflexivity|]. split; [exact I1|]. split; [exact I2|].
    intros x Hx Hrisk. apply select_items_greedy; auto.
    destruct imr; [left; reflexivity|right].
    unfold is_high_risk. apply Qltb_true. exact Hrisk.
Qed.

Lemma optimize_region_budget_greedy_witness :
  let r := optimize_region 2026 "Ontario" 10000000 false true
             [pipeline_bridge_row] [pipeline_road_row] in
  total_cost r == 10000000 - budget_remaining r /\
  0 <= budget_remaining r /\ budget_remaining r <= 10000000 /\
  (forall x, In x (get_bridges_for_optimization 2026 "Ontario" 0 [pipeline_bridge_row]) \/
             (true = true /\ In x (get_roads_for_optimization "Ontario" 0 [pipeline_road_row])) ->
   70 < risk_score x ->
   In x (res_selected_bridges r ++ res_selected_roads r) \/
   budget_remaining r < estimated_repair_cost x).
Proof.
  apply (optimize_region_budget_greedy 2026 "Ontario" 10000000 false true
           [pipeline_bridge_row] [pipeline_road_row]).
  unfold Qle. simpl. lia.
Defined.

(** [traditional_optimization] (repairs by age, oldest first): for a
    non-negative budget the amount spent lies between 0 and the budget, the
    repaired bridges are listed by [year_built] ascending (2000 for a missing
    year), each of them scores at least 70, and the reported
    [risk_reduction_percent] lies between 0 and 100. *)
Theorem traditional_optimization_bounds (now_year : Z) (region : string) (budget : Q)
    (rows : list CachedBridge) :
  0 <= budget ->
  let t := traditional_optimization now_year region budget rows in
  0 <= t_total_spent t /\ t_total_spent t <= budget /\
  StronglySorted (fun e1 e2 => (get_year (fst e1) <= get_year (fst e2))%Z) (t_bridges t) /\
  (forall e, In e (t_bridges t) -> 70 <= risk_score (snd e)) /\
  (forall p, t_risk_reduction_percent t = Some p -> 0 <= p /\ p <= 100).
Proof.
  intros Hb t. subst t. unfold traditional_optimization.
  set (l := bridge_entries now_year region 70 rows).
  assert (Hl : forall e, In e l -> 70 <= risk_score (snd e) /\
                                   1890000 <= estimated_repair_cost (snd e))
    by (intros e He; apply bridge_entries_facts in He; exact He).
  destruct l as [|e0 l0] eqn:El.
  - simpl. split; [lra|]. split; [lra|]. split; [constructor|].
    split; [intros e []|]. intros p Hp. discriminate.
  - rewrite <- El. rewrite <- El in Hl.
    set (key := fun e : CachedBridge * Item => - inject_Z (get_year (fst e))).
    set (sl := sort_desc key l).
    assert (Hsl : forall e, In e sl -> 70 <= risk_score (snd e) /\
                                       1890000 <= estimated_repair_cost (snd e))
      by (intros e He; apply Hl; apply in_sort_desc in He; exact He).
    assert (Hnz : 0 < sumQ (fun e => risk_score (snd e)) sl).
    { assert (Hp : Permutation sl l) by apply sort_desc_perm.
      destruct sl as [|e1 sl'] eqn:Es.
      - apply Permutation_nil in Hp. rewrite El in Hp. discriminate.
      - unfold sumQ. simpl. fold (sumQ (fun e => risk_score (snd e)) sl').
        destruct (Hsl e1 (in_eq _ _)) as [H1 _].
        assert (0 <= sumQ (fun e => risk_score (snd e)) sl').
        { apply sumQ_nonneg. intros y Hy. destruct (Hsl y (in_cons _ _ _ Hy)). lra. }
        lra. }
    destruct (fold_left trad_step sl ([], budget)) as [selected rem] eqn:Ef.
    pose proof (trad_fold_budget sl [] budget Hb) as HB. rewrite Ef in HB.
    destruct HB as [HB1 HB2]; [intros e He; destruct (Hsl e He); lra|].
    simpl in HB1, HB2.
    pose proof (trad_fold_sum (fun e => risk_score (snd e)) sl [] budget) as HS.
    rewrite Ef in HS. destruct HS as [HS1 HS2];
      [intros e He; destruct (Hsl e He); lra|].
    simpl fst in HS1, HS2.
    change (sumQ (fun e => risk_score (snd e)) []) with 0 in HS1, HS2.
    simpl. split; [lra|]. split; [lra|]. split; [|split].
    + pose proof (trad_fold_sorted (key_ge key) sl [] budget) as HO.
      rewrite Ef in HO. simpl in HO.
      apply (StronglySorted_weaken (key_ge key)).
      * intros a b Hab. unfold key_ge, key in Hab. rewrite Zle_Qle. lra.
      * apply HO. apply Sorted_StronglySorted; [|apply sort_desc_sorted].
        intros a b c H1 H2. unfold key_ge in *. lra.
    + intros e He. pose proof (trad_fold_in sl [] budget e) as HI.
      rewrite Ef in HI. destruct (HI He) as [[]|H]. apply Hsl in H. tauto.
    + intros p Hp. injection Hp as <-.
      set (S := sumQ (fun e => risk_score (snd e)) sl) in *.
      set (T := sumQ (fun e => risk_score (snd e)) selected) in *.
      assert (Q1 : 0 <= T / S) by (apply Qle_shift_div_l; lra).
      assert (Q2 : T / S <= 1) by (apply Qle_shift_div_r; lra).
      split.
      * apply round1_nonneg. lra.
      * apply (Qle_trans _ (round1 100)); [apply round1_mono; lra|].
        unfold Qle; simpl; lia.
Qed.

Lemma traditional_optimization_bounds_witness :
  let t := traditional_optimization 2026 "Ontario" 10000000 [pipeline_bridge_row] in
  0 <= t_total_spent t /\ t_total_spent t <= 10000000 /\
  StronglySorted (fun e1 e2 => (get_year (fst e1) <= get_year (fst e2))%Z) (t_bridges t) /\
  (forall e, In e (t_bridges t) -> 70 <= risk_score (snd e)) /\
  (forall p, t_risk_reduction_percent t = Some p -> 0 <= p /\ p <= 100).
Proof.
  apply (traditional_optimization_bounds 2026 "Ontario" 10000000 [pipeline_bridge_row]).
  unfold Qle. simpl. lia.
Defined.

End PipelineResults.

(** ** Corridor bundling: what a bundle is made of *)

Section BundleFacts.
Import Py CorridorOptimization.

Local Hint Resolve in_eq in_cons : core.

Definition km_le (s1 s2 : RoadSection) : Prop := km_start s1 <= km_start s2.

Definition gap_le (max_gap : Q) (s1 s2 : RoadSection) : Prop :=
  km_start s2 - km_end s1 <= max_gap.

(** A bundle built by [_create_bundle] from two or more sections of
    [sections], sorted by [km_start], with consecutive gaps of at most
    [max_gap], all on the bundle's highway and with PCI below 80. *)
Definition good_bundle (sections : list RoadSection) (max_gap : Q)
    (b : BundleOpportunity) : Prop :=
  (2 <= List.length (bo_sections b))%nat /\
  b = create_bundle (bo_sections b) (bo_highway b) (bo_direction b) (bo_bundle_id b) /\
  StronglySorted km_le (bo_sections b) /\
  Sorted (gap_le max_gap) (bo_sections b) /\
  Forall (fun s => In s sections /\ highway s = bo_highway b /\ pci s < 80)
    (bo_sections b).

(** The bundles found so far are good, numbered 1, 2, ... in order, and the
    counter is the next number. *)
Definition acc_ok (sections : list RoadSection) (max_gap : Q)
    (acc : list BundleOpportunity * nat) : Prop :=
  (forall b, In b (fst acc) -> good_bundle sections max_gap b) /\
  map bo_bundle_id (fst acc) = seq 1 (List.length (fst acc)) /\
  snd acc = S (List.length (fst acc)).

Lemma StronglySorted_app_l {A} (R : A -> A -> Prop) l1 l2 :
  StronglySorted R (l1 ++ l2) -> StronglySorted R l1.
Proof.
  induction l1 as [|x l1 IH]; simpl; intro H; [constructor|].
  apply StronglySorted_inv in H as [H1 H2]. constructor; [auto|].
  apply Forall_app in H2. tauto.
Qed.

Lemma StronglySorted_app_r {A} (R : A -> A -> Prop) l1 l2 :
  StronglySorted R (l1 ++ l2) -> StronglySorted R l2.
Proof.
  induction l1 as [|x l1 IH]; simpl; intro H; [exact H|].
  apply StronglySorted_inv in H as [H1 _]. auto.
Qed.

Lemma StronglySorted_filter {A} (R : A -> A -> Prop) (f : A -> bool) l :
  StronglySorted R l -> StronglySorted R (filter f l).
Proof.
  induction 1 as [|x l Hs IH Hf]; simpl; [constructor|].
  destruct (f x); [|exact IH]. constructor; [exact IH|].
  apply Forall_forall. intros y Hy. apply filter_In in Hy as [Hy _].
  rewrite Forall_forall in Hf. auto.
Qed.

Lemma Sorted_snoc {A} (R : A -> A -> Prop) l a b :
  Sorted R (l ++ [a]) -> R a b -> Sorted R ((l ++ [a]) ++ [b]).
Proof.
  induction l as [|x l IH]; simpl; intros H Hab.
  - constructor; [constructor; [constructor|constructor]|constructor; exact Hab].
  - apply Sorted_inv in H as [H1 H2]. constructor; [apply IH; auto|].
    destruct l as [|y l]; simpl in *; inversion H2; constructor; assumption.
Qed.

Lemma close_bundle_good sections min_len max_gap hwy cur acc :
  acc_ok sections max_gap acc ->
  StronglySorted km_le cur -> Sorted (gap_le max_gap) cur ->
  Forall (fun s => In s sections /\ highway s = hwy /\ pci s < 80) cur ->
  acc_ok sections max_gap (close_bundle min_len hwy cur acc).
Proof.
  destruct acc as [bs c]. intros (Hg & Hid & Hc) Hk Hgap Hf. simpl in *.
  unfold close_bundle.
  destruct cur as [|s1 [|s2 rest]]; try (split; [|split]; assumption).
  destruct (Qle_bool _ _); [|split; [|split]; assumption].
  split; [|split]; simpl.
  - intros b Hb. apply in_app_iff in Hb as [Hb|[<-|[]]]; [auto|].
    split; [simpl; lia|]. split; [reflexivity|]. split; [exact Hk|].
    split; [exact Hgap|exact Hf].
  - rewrite map_app, Hid, length_app. simpl.
    rewrite Nat.add_1_r, seq_S, Hc. reflexivity.
  - rewrite length_app, Hc. simpl. lia.
Qed.

Lemma bundle_loop_good sections min_len max_gap hwy l :
  forall cur acc,
  acc_ok sections max_gap acc ->
  StronglySorted km_le (cur ++ l) -> Sorted (gap_le max_gap) cur ->
  Forall (fun s => In s sections /\ highway s = hwy /\ pci s < 80) (cur ++ l) ->
  acc_ok sections max_gap (bundle_loop min_len max_gap hwy cur acc l).
Proof.
  induction l as [|s l IH]; intros cur acc Ha Hk Hg Hf; simpl.
  - rewrite app_nil_r in Hk, Hf. apply close_bundle_good; assumption.
  - destruct (rev cur) as [|last r] eqn:Er.
    + assert (cur = []) as -> by (destruct cur using rev_ind; [reflexivity|];
        rewrite rev_app_distr in Er; discriminate).
      apply IH; simpl in *; auto.
    + assert (Hcur : cur = rev r ++ [last])
        by (rewrite <- (rev_involutive cur), Er; reflexivity).
      destruct (Qle_bool _ max_gap) eqn:E.
      * apply IH; [exact Ha| rewrite <- app_assoc; exact Hk| |
                   rewrite <- app_assoc; exact Hf].
        rewrite Hcur in *. apply Sorted_snoc; [exact Hg|].
        apply Qle_bool_iff in E. exact E.
      * apply Forall_app in Hf as [Hf1 Hf2].
        apply IH; simpl.
        -- apply close_bundle_good; [exact Ha| |exact Hg|exact Hf1].
           eapply StronglySorted_app_l. exact Hk.
        -- eapply StronglySorted_app_r. exact Hk.
        -- constructor; constructor.
        -- exact Hf2.
Qed.

Lemma sort_asc_km_sorted l : StronglySorted km_le (sort_asc km_start l).
Proof.
  unfold sort_asc.
  assert (H : StronglySorted (key_ge (fun x => - km_start x))
                (sort_desc (fun x => - km_start x) l)).
  { apply Sorted_StronglySorted; [|apply sort_desc_sorted].
    intros a b c H1 H2. unfold key_ge in *. lra. }
  induction H; constructor; [assumption|].
  eapply Forall_impl; [|eassumption]. intros b Hb. unfold key_ge, km_le in *. lra.
Qed.

Lemma bundle_highway_good sections min_len max_gap acc hwy secs :
  acc_ok sections max_gap acc ->
  (forall s, In s secs -> highway s = hwy /\ In s sections) ->
  acc_ok sections max_gap (bundle_highway min_len max_gap acc (hwy, secs)).
Proof.
  intros Ha Hs. unfold bundle_highway. cbv zeta.
  set (sl := sort_asc km_start secs).
  assert (Hsl : forall s, In s sl -> highway s = hwy /\ In s sections)
    by (intros s H; apply Hs; eapply Permutation_in; [apply sort_desc_perm|exact H]).
  set (rs := if Nat.ltb (List.length (filter needs_repair sl)) 2 then _ else _).
  assert (Hrs : StronglySorted km_le rs /\
                Forall (fun s => In s sections /\ highway s = hwy /\ pci s < 80) rs).
  { subst rs. destruct (Nat.ltb _ 2); (split;
      [apply StronglySorted_filter, sort_asc_km_sorted|]);
      apply Forall_forall; intros s Hin; apply filter_In in Hin as [Hin Hp];
      destruct (Hsl s Hin); unfold needs_repair in Hp; qbools; repeat split; auto; lra. }
  destruct Hrs as [Hk Hf].
  destruct (Nat.ltb (List.length rs) 2); [exact Ha|].
  apply bundle_loop_good; simpl; auto.
Qed.

Lemma group_add_in {A} (key : A -> string) (P : A -> Prop) x g :
  P x ->
  (forall k xs, In (k, xs) g -> forall y, In y xs -> key y = k /\ P y) ->
  forall k xs, In (k, xs) (group_add (key x) x g) -> forall y, In y xs -> key y = k /\ P y.
Proof.
  intros Hx. induction g as [|[k' xs'] g IH]; intros Hg k xs Hin y Hy; simpl in Hin.
  - destruct Hin as [Hin|[]]. injection Hin as <- <-. destruct Hy as [<-|[]]. auto.
  - destruct (String.eqb (key x) k') eqn:E.
    + destruct Hin as [Hin|Hin].
      * injection Hin as <- <-. apply in_app_iff in Hy as [Hy|[<-|[]]].
        -- eapply Hg; eauto.
        -- apply String.eqb_eq in E. auto.
      * eapply Hg; eauto.
    + destruct Hin as [Hin|Hin].
      * injection Hin as <- <-. eapply Hg; eauto.
      * eapply IH; eauto.
Qed.

Lemma group_by_in {A} (key : A -> string) (l : list A) :
  forall k xs, In (k, xs) (group_by key l) -> forall y, In y xs -> key y = k /\ In y l.
Proof.
  unfold group_by.
  assert (H : forall l0 g,
    (forall x, In x l0 -> In x l) ->
    (forall k xs, In (k, xs) g -> forall y, In y xs -> key y = k /\ In y l) ->
    forall k xs, In (k, xs) (fold_left (fun g x => group_add (key x) x g) l0 g) ->
    forall y, In y xs -> key y = k /\ In y l).
  { induction l0 as [|x l0 IH]; intros g Hl Hg; simpl; [exact Hg|].
    apply IH; [auto|]. apply group_add_in; auto. }
  apply H; [auto|]. intros k xs [].
Qed.

Lemma fold_bundle_highway_good sections min_len max_gap groups :
  forall acc,
  acc_ok sections max_gap acc ->
  (forall k xs, In (k, xs) groups -> forall s, In s xs -> highway s = k /\ In s sections) ->
  acc_ok sections max_gap (fold_left (bundle_highway min_len max_gap) groups acc).
Proof.
  induction groups as [|[k xs] groups IH]; intros acc Ha Hg; simpl; [exact Ha|].
  apply IH; [|eauto]. apply bundle_highway_good; [exact Ha|]. eauto.
Qed.

(** Every bundle of [find_bundle_opportunities] is good, and the bundle
    numbers are 1 .. n, each used once. *)
Lemma find_bundle_opportunities_good sections min_len max_gap :
  (forall b, In b (find_bundle_opportunities sections min_len max_gap) ->
             good_bundle sections max_gap b) /\
  Permutation (map bo_bundle_id (find_bundle_opportunities sections min_len max_gap))
    (seq 1 (List.length (find_bundle_opportunities sections min_len max_gap))).
Proof.
  unfold find_bundle_opportunities.
  destruct sections as [|s0 rest] eqn:Es; [split; [intros b []|constructor]|].
  rewrite <- Es.
  pose proof (fold_bundle_highway_good sections min_len max_gap
                (group_by highway sections) ([], 1%nat)) as H.
  destruct (fold_left _ _ _) as [bundles counter].
  destruct H as (Hg & Hid & _).
  - split; [intros b []|]. split; reflexivity.
  - apply group_by_in.
  - simpl in Hg, Hid. split.
    + intros b Hb. apply in_sort_desc in Hb. auto.
    + rewrite (Permutation_length (sort_desc_perm bo_savings bundles)).
      rewrite <- Hid. apply Permutation_map, sort_desc_perm.
Qed.

Lemma sumQ_length_nonneg (l : list RoadSection) : 0 <= sumQ length_km l.
Proof.
  apply sumQ_nonneg. intros s _. apply Qabs_nonneg.
Qed.

Lemma natQ_S n : natQ (S n) == natQ n + 1.
Proof. unfold natQ. rewrite Nat2Z.inj_succ, <- Z.add_1_r, inject_Z_plus. reflexivity. Qed.

End BundleFacts.

Section BundleResults.
Import Py CorridorOptimization CorridorSummary.

Local Hint Resolve in_eq in_cons : core.

Lemma bundle_costs sections min_len max_gap b :
  In b (find_bundle_opportunities sections min_len max_gap) ->
  bo_bundled_cost b < bo_individual_cost b /\
  bo_savings b == bo_mobilization_savings b + 80000 * sumQ length_km (bo_sections b) /\
  250000 <= bo_mobilization_savings b /\
  bo_savings b == bo_individual_cost b - bo_bundled_cost b /\
  (bo_traffic_disruptions_avoided b + 1 = List.length (bo_sections b))%nat.
Proof.
  intro Hb. destruct (proj1 (find_bundle_opportunities_good sections min_len max_gap) b Hb)
    as (Hn & Heq & _).
  set (secs := bo_sections b) in *. rewrite Heq.
  unfold create_bundle. cbv zeta.
  cbn [bo_bundled_cost bo_individual_cost bo_savings bo_mobilization_savings
       bo_sections bo_traffic_disruptions_avoided].
  pose proof (sumQ_length_nonneg secs) as HL.
  set (L := sumQ length_km secs) in *.
  assert (Hm : natQ (List.length secs) == natQ (List.length secs - 1) + 1).
  { destruct (List.length secs) as [|k]; [lia|]. simpl. rewrite Nat.sub_0_r.
    apply natQ_S. }
  assert (H1 : 1 <= natQ (List.length secs - 1)).
  { unfold natQ. change (inject_Z 1 <= inject_Z (Z.of_nat (List.length secs - 1))).
    rewrite <- Zle_Qle. lia. }
  unfold MOBILIZATION_COST, COST_PER_KM_INDIVIDUAL, COST_PER_KM_BUNDLED.
  split; [lra|]. split; [lra|]. split; [lra|]. split; [lra|]. lia.
Qed.

Definition bundle_demo_sections : list RoadSection :=
  [mkSection "401" "EB" "" "" 0 6 55 "Poor" 50 3 "AC" 40000;
   mkSection "401" "EB" "" "" 10 16 62 "Poor" 55 3 "AC" 40000].

(** Each bundle of [find_bundle_opportunities] is cheaper than repairing
    its sections one by one: [bundled_cost < individual_cost], and the
    savings are the mobilization savings ((n - 1) * 250,000, at least
    250,000) plus 80,000 per km of the sections' total length; the
    [traffic_disruptions_avoided] are one less than the number of sections. *)
Theorem find_bundle_opportunities_costs (sections : list RoadSection)
    (min_bundle_length_km max_gap_km : Q) (b : BundleOpportunity) :
  In b (find_bundle_opportunities sections min_bundle_length_km max_gap_km) ->
  bo_bundled_cost b < bo_individual_cost b /\
  bo_savings b == bo_mobilization_savings b + 80000 * sumQ length_km (bo_sections b) /\
  250000 <= bo_mobilization_savings b /\
  (bo_traffic_disruptions_avoided b + 1 = List.length (bo_sections b))%nat.
Proof.
  intro Hb. destruct (bundle_costs _ _ _ b Hb) as (H1 & H2 & H3 & _ & H5). auto.
Qed.

Lemma find_bundle_opportunities_costs_witness :
  match find_bundle_opportunities bundle_demo_sections 10 25 with
  | b :: _ =>
      bo_bundled_cost b < bo_individual_cost b /\
      bo_savings b == bo_mobilization_savings b + 80000 * sumQ length_km (bo_sections b) /\
      250000 <= bo_mobilization_savings b /\
      (bo_traffic_disruptions_avoided b + 1 = List.length (bo_sections b))%nat
  | [] => False
  end.
Proof.
  generalize (find_bundle_opportunities_costs bundle_demo_sections 10 25).
  destruct (find_bundle_opportunities bundle_demo_sections 10 25) as [|b l] eqn:E;
    [vm_compute in E; discriminate|].
  intro H. apply H. left. reflexivity.
Defined.

(** The sections of each bundle of [find_bundle_opportunities] are input
    sections of the bundle's highway, each with PCI below 80, listed by
    [km_start] ascending, and each starts at most [max_gap_km] after the
    end of the previous one. *)
Theorem find_bundle_opportunities_sections (sections : list RoadSection)
    (min_bundle_length_km max_gap_km : Q) (b : BundleOpportunity) :
  In b (find_bundle_opportunities sections min_bundle_length_km max_gap_km) ->
  StronglySorted (fun s1 s2 => km_start s1 <= km_start s2) (bo_sections b) /\
  Sorted (fun s1 s2 => km_start s2 - km_end s1 <= max_gap_km) (bo_sections b) /\
  (forall s, In s (bo_sections b) ->
             In s sections /\ highway s = bo_highway b /\ pci s < 80).
Proof.
  intro Hb.
  destruct (proj1 (find_bundle_opportunities_good sections min_bundle_length_km
                     max_gap_km) b Hb) as (_ & _ & Hk & Hg & Hf).
  split; [exact Hk|]. split; [exact Hg|]. apply Forall_forall. exact Hf.
Qed.

Lemma find_bundle_opportunities_sections_witness :
  match find_bundle_opportunities bundle_demo_sections 10 25 with
  | b :: _ =>
      StronglySorted (fun s1 s2 => km_start s1 <= km_start s2) (bo_sections b) /\
      Sorted (fun s1 s2 => km_start s2 - km_end s1 <= 25) (bo_sections b) /\
      (forall s, In s (bo_sections b) ->
                 In s bundle_demo_sections /\ highway s = bo_highway b /\ pci s < 80)
  | [] => False
  end.
Proof.
  generalize (find_bundle_opportunities_sections bundle_demo_sections 10 25).
  destruct (find_bundle_opportunities bundle_demo_sections 10 25) as [|b l] eqn:E;
    [vm_compute in E; discriminate|].
  intro H. apply H. left. reflexivity.
Defined.

(** The bundle ids of [find_bundle_opportunities] ([B001], [B002], ...) are
    1 .. n for n bundles, each used exactly once (in some order, since the
    bundles are sorted by savings after numbering). *)
Theorem find_bundle_opportunities_ids (sections : list RoadSection)
    (min_bundle_length_km max_gap_km : Q) :
  let bundles := find_bundle_opportunities sections min_bundle_length_km max_gap_km in
  Permutation (map bo_bundle_id bundles) (seq 1 (List.length bundles)).
Proof. apply find_bundle_opportunities_good. Qed.




Lemma sumQ_sub {A} (f g h : A -> Q) l :
  (forall x, In x l -> f x == g x - h x) -> sumQ f l == sumQ g l - sumQ h l.
Proof.
  induction l as [|x l IH]; intro H; [reflexivity|].
  change (f x + sumQ f l == (g x + sumQ g l) - (h x + sumQ h l)).
  rewrite (H x (in_eq _ _)), IH by auto. lra.
Qed.

Lemma sumQ_lower {A} (f : A -> Q) (c : Q) l :
  (forall x, In x l -> c <= f x) -> c * natQ (List.length l) <= sumQ f l.
Proof.
  induction l as [|x l IH]; intro H; [change (c * 0 <= 0); lra|].
  change (c * natQ (S (List.length l)) <= f x + sumQ f l).
  rewrite natQ_S, Qmult_plus_distr_r, Qmult_1_r. pose proof (H x (in_eq _ _)). pose proof (IH (fun y Hy => H y (in_cons _ _ _ Hy))).
  lra.
Qed.


End BundleResults.

(** ** Degradation rate and intervention costs *)

Section DegradationFacts.
Import Py RoadData RoadDegradation.

Lemma pavement_base_negative t : pavement_base_degradation t < 0.
Proof.
  unfold pavement_base_degradation.
  repeat match goal with
  | |- context [match ?x with _ => _ end] => destruct x
  end; unfold Qlt; simpl; lia.
Qed.

Lemma climate_factor_pos z : 0 < climate_degradation_factor z.
Proof. destruct z; unfold Qlt; simpl; lia. Qed.

Lemma traffic_factor_pos aadt : 0 < get_traffic_factor aadt.
Proof.
  unfold get_traffic_factor; simpl.
  repeat match goal with |- context [if ?c then _ else _] => destruct c end;
    unfold Qlt; simpl; lia.
Qed.

Lemma pci_factor_antitone p1 p2 : p1 <= p2 ->
  get_pci_acceleration_factor p2 <= get_pci_acceleration_factor p1.
Proof.
  intro H. unfold get_pci_acceleration_factor.
  repeat match goal with
  | |- context [if Qle_bool ?a ?b then _ else _] => destruct (Qle_bool a b) eqn:?
  end; qbools; lra.
Qed.

Lemma neg_product_antitone b c t x1 x2 a m :
  b < 0 -> 0 < c -> 0 < t -> x2 <= x1 -> 0 < a -> 0 <= m ->
  b * c * t * x1 * a * m <= b * c * t * x2 * a * m.
Proof.
  intros Hb Hc Ht Hx Ha Hm.
  assert (H1 : 0 < (- b) * c) by (apply Qmult_lt_0_compat; lra).
  assert (H2 : 0 < (- b) * c * t) by (apply Qmult_lt_0_compat; lra).
  assert (H3 : 0 < (- b) * c * t * a) by (apply Qmult_lt_0_compat; lra).
  assert (H4 : 0 <= (- b) * c * t * a * m) by (apply Qmult_le_0_compat; lra).
  assert (H5 : 0 <= (- b) * c * t * a * m * (x1 - x2)) by (apply Qmult_le_0_compat; lra).
  lra.
Qed.

Lemma optimal_scan_result fc oy op m :
  optimal_scan fc oy op m = (oy, op) \/
  (In (optimal_scan fc oy op m) fc /\
   65 <= snd (optimal_scan fc oy op m) <= 75).
Proof.
  revert oy op m. induction fc as [|[y v] fc IH]; intros oy op m; simpl; [auto|].
  destruct (Qle_bool v 25); [auto|].
  destruct (Qle_bool 65 v && Qle_bool v 75 && _) eqn:E.
  - apply andb_true_iff in E as [E _]. apply andb_true_iff in E as [E1 E2].
    qbools.
    destruct (IH y v (Some (get_cost_per_m2 v * area_per_km / Qpower 1.03 (Z.of_nat y))))
      as [->|[Hin Hb]].
    + right. simpl. auto.
    + right. auto.
  - destruct (IH oy op m) as [->|[Hin Hb]]; auto.
Qed.

Lemma first_where_some p fc y v :
  first_where p fc = Some (y, v) -> In (y, v) fc /\ p v = true.
Proof.
  induction fc as [|[y0 v0] fc IH]; simpl; [discriminate|].
  destruct (p v0) eqn:E.
  - intro H. injection H as <- <-. auto.
  - intro H. destruct (IH H). auto.
Qed.

Lemma first_where_none p fc :
  first_where p fc = None -> forall y v, In (y, v) fc -> p v = false.
Proof.
  induction fc as [|[y0 v0] fc IH]; simpl; [contradiction|].
  destruct (p v0) eqn:E; [discriminate|].
  intros H y v [Heq|Hin]; [injection Heq as <- <-; exact E|exact (IH H y v Hin)].
Qed.

Lemma first_where_narrow (p q : Q -> bool) fc y v :
  first_where p fc = Some (y, v) -> q v = true ->
  (forall x, q x = true -> p x = true) -> first_where q fc = Some (y, v).
Proof.
  intros Hf Hq Hqp. induction fc as [|[y0 v0] fc IH]; simpl in *; [discriminate|].
  destruct (p v0) eqn:E.
  - injection Hf as <- <-. rewrite Hq. reflexivity.
  - destruct (q v0) eqn:E'; [rewrite (Hqp v0 E') in E; discriminate|].
    exact (IH Hf).
Qed.

Lemma cost_per_m2_values p :
  In (get_cost_per_m2 p) [8.0; 25.0; 45.0; 65.0].
Proof.
  unfold get_cost_per_m2.
  destruct (Qle_bool 70 p); [simpl; auto|].
  destruct (Qle_bool 50 p); [simpl; auto|].
  destruct (Qle_bool 30 p); simpl; auto.
Qed.

Lemma cost_per_m2_ge30 p : 30 <= p -> get_cost_per_m2 p <= 45.
Proof.
  intro H. unfold get_cost_per_m2.
  repeat match goal with
  | |- context [if Qle_bool ?a ?b then _ else _] => destruct (Qle_bool a b) eqn:?
  end; qbools; lra.
Qed.

Lemma cost_per_m2_le30 p : p <= 30 -> 45 <= get_cost_per_m2 p.
Proof.
  intro H. unfold get_cost_per_m2.
  repeat match goal with
  | |- context [if Qle_bool ?a ?b then _ else _] => destruct (Qle_bool a b) eqn:?
  end; qbools; lra.
Qed.

(** The PCI at which [find_optimal_intervention] prices the optimal
    intervention is at least 30, or it is the PCI the delayed cost is priced
    at. *)
Lemma optimal_pci_vs_delayed y0 cur fc :
  let fc' := (y0, cur) :: fc in
  let op := optimal_pci (find_optimal_intervention fc' cur) in
  30 <= op \/ first_where (fun v => Qle_bool v 30) fc' = Some (optimal_year (find_optimal_intervention fc' cur), op).
Proof.
  intros fc' op. subst op. unfold find_optimal_intervention.
  destruct (optimal_scan fc' 0 cur None) as [oy op] eqn:Es.
  pose proof (optimal_scan_result fc' 0%nat cur None) as Hs. rewrite Es in Hs.
  destruct (Nat.eqb oy 0) eqn:Ey.
  - destruct (first_where (fun v => Qle_bool v 70) fc') as [[y v]|] eqn:Ef.
    + cbn -[first_where]. destruct (Qle_bool 30 v) eqn:E30; qbools; [left; exact E30|right].
      apply (first_where_narrow _ _ _ _ _ Ef).
      * apply Qle_bool_iff. lra.
      * intros x Hx. apply Qle_bool_iff. apply Qle_bool_iff in Hx. lra.
    + left. simpl. destruct Hs as [Heq|[Hin Hb]].
      * injection Heq as _ Hop. rewrite Hop.
        assert (Hc : Qle_bool cur 70 = false)
          by (apply (first_where_none _ _ Ef y0); left; reflexivity).
        qbools. lra.
      * simpl in Hb. lra.
  - left. simpl. destruct Hs as [Heq|[Hin Hb]].
    + injection Heq as Hoy _. rewrite Hoy in Ey. discriminate.
    + simpl in Hb. lra.
Qed.

Lemma intervention_cost_order y0 cur fc :
  let iv := find_optimal_intervention ((y0, cur) :: fc) cur in
  get_cost_per_m2 (optimal_pci iv) <= get_cost_per_m2
    (match first_where (fun v => Qle_bool v 30) ((y0, cur) :: fc) with
     | Some (_, v) => v | None => 30 end).
Proof.
  intro iv.
  assert (Hd : match first_where (fun v => Qle_bool v 30) ((y0, cur) :: fc) with
               | Some (_, v) => v | None => 30 end <= 30).
  { destruct (first_where _ _) as [[y v]|] eqn:E; [|lra].
    apply first_where_some in E as [_ E]. apply Qle_bool_iff in E. exact E. }
  destruct (optimal_pci_vs_delayed y0 cur fc) as [H|H].
  - eapply Qle_trans; [apply cost_per_m2_ge30; exact H|].
    apply cost_per_m2_le30. exact Hd.
  - subst iv. rewrite H. lra.
Qed.

End DegradationFacts.

Section DegradationResults.
Import Py RoadData RoadDegradation.

Lemma intervention_cost_fields fc cur :
  cost_optimal (find_optimal_intervention fc cur) =
    get_cost_per_m2 (optimal_pci (find_optimal_intervention fc cur)) * area_per_km /\
  cost_delayed (find_optimal_intervention fc cur) =
    get_cost_per_m2 (match first_where (fun v => Qle_bool v 30) fc with
                     | Some (_, v) => v | None => 30 end) * area_per_km.
Proof.
  unfold find_optimal_intervention.
  destruct (optimal_scan fc 0 cur None) as [oy op].
  destruct (Nat.eqb oy 0); [destruct (first_where _ fc) as [[y v]|]|];
    split; reflexivity.
Qed.

Lemma intervention_rounded_costs y0 cur fc :
  let iv := find_optimal_intervention ((y0, cur) :: fc) cur in
  round0 (cost_optimal iv) <= round0 (cost_delayed iv) /\
  0 <= round0 (cost_delayed iv - cost_optimal iv) /\
  round0 (cost_delayed iv - cost_optimal iv) ==
    round0 (cost_delayed iv) - round0 (cost_optimal iv).
Proof.
  intro iv. pose proof (intervention_cost_order y0 cur fc) as H. cbv zeta in H.
  fold iv in H.
  destruct (intervention_cost_fields ((y0, cur) :: fc) cur) as [E1 E2].
  fold iv in E1, E2. rewrite E1, E2.
  pose proof (cost_per_m2_values (optimal_pci iv)) as Vo.
  match type of H with _ <= get_cost_per_m2 ?d =>
    pose proof (cost_per_m2_values d) as Vd; revert H Vo Vd;
    generalize (get_cost_per_m2 d) (get_cost_per_m2 (optimal_pci iv)) end.
  intros cd co H Vo Vd. simpl in Vo, Vd. unfold area_per_km.
  destruct Vo as [<-|[<-|[<-|[<-|[]]]]]; destruct Vd as [<-|[<-|[<-|[<-|[]]]]];
    try (exfalso; unfold Qle in H; simpl in H; lia);
    (split; [|split]); vm_compute; first [reflexivity | discriminate].
Qed.

(** Degradation rate against PCI ([calculate_degradation_rate]): with a
    non-negative [maintenance_score], a section in worse condition (lower
    PCI) degrades at least as fast as one in better condition, the other
    inputs being equal: the (negative) rate is non-decreasing in the PCI. *)
Theorem degradation_rate_monotone_pci (p1 p2 : Q) (pavement_type : string)
    (climate_zone : ClimateZone) (aadt pavement_age : option Z)
    (maintenance_score : Q) (Hms : 0 <= maintenance_score) (Hp : p1 <= p2) :
  calculate_degradation_rate_ms p1 pavement_type climate_zone aadt pavement_age
    maintenance_score <=
  calculate_degradation_rate_ms p2 pavement_type climate_zone aadt pavement_age
    maintenance_score.
Proof.
  unfold calculate_degradation_rate_ms. cbv zeta.
  apply pymax_mono; [apply Qle_refl|]. apply pymin_mono; [apply Qle_refl|].
  apply neg_product_antitone.
  - apply pavement_base_negative.
  - apply climate_factor_pos.
  - apply traffic_factor_pos.
  - apply pci_factor_antitone. exact Hp.
  - destruct pavement_age as [a|]; [|unfold Qlt; simpl; lia].
    repeat match goal with |- context [if ?c then _ else _] => destruct c end;
      unfold Qlt; simpl; lia.
  - exact Hms.
Qed.

(** Witness: an asphalt section with PCI 45 degrades faster than one with
    PCI 65. *)
Lemma degradation_rate_monotone_pci_witness :
  calculate_degradation_rate_ms 45 "AC" COLD (Some 20000%Z) (Some 12%Z) 1 <=
  calculate_degradation_rate_ms 65 "AC" COLD (Some 20000%Z) (Some 12%Z) 1.
Proof.
  apply (degradation_rate_monotone_pci 45 65 "AC" COLD (Some 20000%Z) (Some 12%Z) 1);
    unfold Qle; simpl; lia.
Defined.

(** Intervention costs of [forecast_degradation] (through
    [find_optimal_intervention]): for every road, the estimated cost at the
    optimal time is at most the estimated cost of waiting until PCI 30, so
    [cost_savings_optimal] is never negative, and it is exactly the
    difference of the two reported costs. *)
Theorem forecast_degradation_intervention_costs (roads : list RoadDict)
    (highway province : string) (years : nat) :
  Forall (fun f =>
    f_estimated_cost_optimal f <= f_estimated_cost_delayed f /\
    0 <= f_cost_savings_optimal f /\
    f_cost_savings_optimal f == f_estimated_cost_delayed f - f_estimated_cost_optimal f)
    (forecast_degradation roads highway province years).
Proof.
  apply Forall_forall. intros f Hf. unfold forecast_degradation in Hf.
  apply in_map_iff in Hf as [r [<- _]].
  unfold forecast_road, forecast_pci. cbv zeta.
  cbn [f_estimated_cost_optimal f_estimated_cost_delayed f_cost_savings_optimal].
  apply intervention_rounded_costs.
Qed.

End DegradationResults.

Section EconomicResults.
Import Py RoadData RoadEconomics.

(** Economic impact against PCI ([calculate_economic_impact]): for a
    non-negative traffic count and section length, a section in worse
    condition (lower PCI) never has a lower vehicle damage, fuel waste,
    freight delay or total annual cost than one in better condition. *)
Theorem economic_impact_antitone_pci (p1 p2 : Q) (aadt : Z)
    (section_length_km : Q) (highway_class : string)
    (Ha : (0 <= aadt)%Z) (Hl : 0 <= section_length_km) (Hp : p1 <= p2) :
  let e1 := calculate_economic_impact p1 aadt section_length_km highway_class in
  let e2 := calculate_economic_impact p2 aadt section_length_km highway_class in
  vehicle_damage_cost e2 <= vehicle_damage_cost e1 /\
  fuel_waste_cost e2 <= fuel_waste_cost e1 /\
  freight_delay_cost e2 <= freight_delay_cost e1 /\
  total_annual_cost e2 <= total_annual_cost e1.
Proof.
  intros e1 e2. subst e1 e2. unfold calculate_economic_impact. cbv zeta.
  cbn [vehicle_damage_cost fuel_waste_cost freight_delay_cost total_annual_cost].
  set (V := inject_Z (aadt * 365)).
  assert (HV : 0 <= V * section_length_km).
  { apply Qmult_le_0_compat; [|exact Hl]. unfold V.
    change 0 with (inject_Z 0). rewrite <- Zle_Qle. lia. }
  unfold round2.
  repeat split; apply round_scaled_mono; try reflexivity;
  repeat match goal with
  | |- context [if Qltb ?a ?b then _ else _] => destruct (Qltb a b) eqn:?
  end; qbools; unfold Qdiv; change (/ 60) with (1 # 60); lra.
Qed.

(** Witness: a section at PCI 45 costs more than the same section at 75. *)
Lemma economic_impact_antitone_pci_witness :
  let e1 := calculate_economic_impact 45 20000 10 "arterial" in
  let e2 := calculate_economic_impact 75 20000 10 "arterial" in
  vehicle_damage_cost e2 <= vehicle_damage_cost e1 /\
  fuel_waste_cost e2 <= fuel_waste_cost e1 /\
  freight_delay_cost e2 <= freight_delay_cost e1 /\
  total_annual_cost e2 <= total_annual_cost e1.
Proof.
  apply (economic_impact_antitone_pci 45 75 20000 10 "arterial");
    [lia | unfold Qle; simpl; lia | unfold Qle; simpl; lia].
Defined.

End EconomicResults.

(** ** Winter vulnerability, forecast summary and pre-winter interventions *)

Section WinterFacts.
Import Py RoadData WinterResilience WinterPlanning.

Lemma round1_compat x y : x == y -> round1 x == round1 y.
Proof.
  intro H. apply Qle_antisym; apply round1_mono; rewrite H; apply Qle_refl.
Qed.

Lemma pavement_vulnerability_bounds t :
  1 # 2 <= pavement_vulnerability t <= 3 # 2.
Proof.
  unfold pavement_vulnerability.
  repeat match goal with
  | |- context [match ?x with _ => _ end] => destruct x
  end; split; unfold Qle; simpl; lia.
Qed.

Lemma or_default_nonzero o d : ~ d == 0 -> ~ or_default o d == 0.
Proof.
  intro Hd. destruct o as [x|]; simpl; [|exact Hd].
  destruct (Qeq_bool x 0) eqn:E; [exact Hd|].
  intro H. apply Qeq_bool_iff in H. congruence.
Qed.

(** Expected PCI loss of [calculate_winter_damage_risk]: between 1.5 and
    22.5 points. *)
Lemma expected_loss_bounds cur ft pv tf df :
  1 # 2 <= pv <= 3 # 2 ->
  3 # 2 <= snd (calculate_winter_damage_risk cur ft pv tf df) <= 45 # 2.
Proof.
  intro Hpv. unfold calculate_winter_damage_risk. cbv zeta. simpl snd.
  match goal with |- context [min 100 (max 0 ?x)] =>
    pose proof (clamp_bounds x) as Hc; revert Hc; generalize (min 100 (max 0 x)) end.
  intros rs Hc.
  set (b := 3 + rs / 100 * 12).
  assert (Hb : 3 <= b <= 15) by (unfold b, Qdiv; change (/ 100) with (1 # 100); lra).
  assert (H1 : 0 <= (b - 3) * (pv - (1 # 2))) by (apply Qmult_le_0_compat; lra).
  assert (H2 : 0 <= (15 - b) * (pv - (1 # 2))) by (apply Qmult_le_0_compat; lra).
  split.
  - apply Qle_trans with (round1 (3 # 2)); [vm_compute; discriminate|].
    apply round1_mono. lra.
  - apply Qle_trans with (round1 (45 # 2)); [|vm_compute; discriminate].
    apply round1_mono. lra.
Qed.

Lemma risk_score_bounds cur ft pv tf df :
  0 <= fst (calculate_winter_damage_risk cur ft pv tf df) <= 100.
Proof. apply clamp_bounds. Qed.

Lemma winter_road_facts ft cz road :
  let v := winter_road ft cz road in
  (exists k, 1 <= k /\
     (w_pre_winter_cost v, w_spring_repair_cost v) =
       match w_risk_level v with
       | SEVERE => (45000 * k, 320000 * k)
       | HIGH => (35000 * k, 180000 * k)
       | MODERATE => (20000 * k, 80000 * k)
       | LOW => (10000 * k, 30000 * k)
       end) /\
  w_cost_savings v = w_spring_repair_cost v - w_pre_winter_cost v /\
  w_roi v = round1 (if Qltb 0 (w_pre_winter_cost v)
                    then w_cost_savings v / w_pre_winter_cost v else 0) /\
  (0 <= w_winter_damage_risk_score v <= 100) /\
  (3 # 2 <= w_expected_pci_loss v <= 45 # 2) /\
  w_post_winter_pci v = round1 (max 0 (w_current_pci v - w_expected_pci_loss v)) /\
  ~ w_current_pci v == 0.
Proof.
  intro v. subst v. unfold winter_road. cbv zeta.
  match goal with
  | |- context [calculate_winter_damage_risk ?c ?f ?p ?t ?d] =>
      pose proof (expected_loss_bounds c f p t d (pavement_vulnerability_bounds _)) as Hl;
      pose proof (risk_score_bounds c f p t d) as Hr;
      destruct (calculate_winter_damage_risk c f p t d) as [rs el]; simpl in Hl, Hr
  end.
  match goal with |- context [max 1 ?x] =>
    pose proof (pymax_ge_l 1 x) as Hk; revert Hk; generalize (max 1 x) end.
  intros k Hk.
  destruct (get_recommendation _ _ _ _) as [rec act].
  destruct (get_risk_level rs el); cbn iota; cbn [w_pre_winter_cost w_spring_repair_cost
    w_risk_level w_cost_savings w_roi w_winter_damage_risk_score w_expected_pci_loss
    w_post_winter_pci w_current_pci];
  (split; [exists k; split; [exact Hk|reflexivity]|]);
  (split; [reflexivity|]); (split; [reflexivity|]);
  (split; [split; [apply round1_nonneg; lra|
                    apply Qle_trans with (round1 100); [apply round1_mono; lra|];
                    vm_compute; discriminate]|]).
  all: split; [exact Hl|split; [reflexivity|]].
  all: apply or_default_nonzero; unfold Qeq; simpl; lia.
Qed.

Lemma winter_vuln_facts roads province v :
  In v (winter_vulnerabilities roads province) ->
  (exists k, 1 <= k /\
     (w_pre_winter_cost v, w_spring_repair_cost v) =
       match w_risk_level v with
       | SEVERE => (45000 * k, 320000 * k)
       | HIGH => (35000 * k, 180000 * k)
       | MODERATE => (20000 * k, 80000 * k)
       | LOW => (10000 * k, 30000 * k)
       end) /\
  w_cost_savings v = w_spring_repair_cost v - w_pre_winter_cost v /\
  w_roi v = round1 (if Qltb 0 (w_pre_winter_cost v)
                    then w_cost_savings v / w_pre_winter_cost v else 0) /\
  (0 <= w_winter_damage_risk_score v <= 100) /\
  (3 # 2 <= w_expected_pci_loss v <= 45 # 2) /\
  w_post_winter_pci v = round1 (max 0 (w_current_pci v - w_expected_pci_loss v)) /\
  ~ w_current_pci v == 0.
Proof.
  intro H. apply in_sort_desc in H. unfold analyze_winter_vulnerability in H.
  apply in_map_iff in H as [road [<- _]]. apply winter_road_facts.
Qed.

Lemma roi_level_value (a b k : Q) : 0 < a -> 1 <= k ->
  round1 (if Qltb 0 (a * k) then (b * k - a * k) / (a * k) else 0) ==
  round1 ((b - a) / a).
Proof.
  intros Ha Hk. assert (Hp : 0 < a * k) by (apply Qmult_lt_0_compat; lra).
  destruct (Qltb 0 (a * k)) eqn:E; qbools; [|lra].
  apply round1_compat. field. split; intro; lra.
Qed.

(** Per-level costs of a vulnerability: a positive pre-winter cost below
    the spring repair cost, and the rounded ROI of its level. *)
Lemma vuln_level_costs v :
  (exists k, 1 <= k /\
     (w_pre_winter_cost v, w_spring_repair_cost v) =
       match w_risk_level v with
       | SEVERE => (45000 * k, 320000 * k)
       | HIGH => (35000 * k, 180000 * k)
       | MODERATE => (20000 * k, 80000 * k)
       | LOW => (10000 * k, 30000 * k)
       end) ->
  w_cost_savings v = w_spring_repair_cost v - w_pre_winter_cost v ->
  w_roi v = round1 (if Qltb 0 (w_pre_winter_cost v)
                    then w_cost_savings v / w_pre_winter_cost v else 0) ->
  w_roi v == match w_risk_level v with
             | SEVERE => 61 # 10 | HIGH => 41 # 10 | MODERATE => 3 | LOW => 2
             end /\
  0 < w_pre_winter_cost v /\ w_pre_winter_cost v < w_spring_repair_cost v /\
  match w_risk_level v with
  | SEVERE | HIGH =>
      (29 # 7) * w_pre_winter_cost v <= w_cost_savings v /\
      w_cost_savings v <= (55 # 9) * w_pre_winter_cost v
  | _ => True
  end.
Proof.
  intros [k [Hk Hc]] Hs Hr. rewrite Hr, Hs.
  destruct (w_risk_level v); injection Hc as -> ->;
    (split; [rewrite roi_level_value by (unfold Qlt; simpl; lia || exact Hk);
             vm_compute; reflexivity|]);
    repeat split; lra.
Qed.

Lemma post_winter_bounds (cur el post : Q) :
  3 # 2 <= el -> ~ cur == 0 -> post = round1 (max 0 (cur - el)) ->
  0 <= post /\ (post < cur \/ (cur < 0 /\ post == 0)).
Proof.
  intros Hel Hc ->. unfold max. destruct (Qltb 0 (cur - el)) eqn:E; qbools.
  - split; [apply round1_nonneg; lra|left].
    pose proof (round1_upper (cur - el)). lra.
  - rewrite round1_zero. split; [apply Qle_refl|].
    destruct (Qlt_le_dec 0 cur) as [H|H]; [left; exact H|right].
    split; [|reflexivity].
    destruct (Qle_lt_or_eq _ _ H) as [H'|H']; [exact H'|].
    exfalso. apply Hc. exact H'.
Qed.

Lemma level_counts (l : list WinterVulnerability) :
  (List.length (filter (has_level "severe") l) + List.length (filter (has_level "high") l)
   + List.length (filter (has_level "moderate") l)
   + List.length (filter (has_level "low") l))%nat = List.length l.
Proof.
  induction l as [|v l IH]; [reflexivity|].
  unfold has_level in *. simpl. destruct (w_risk_level v); simpl; lia.
Qed.

Lemma at_risk_count (l : list WinterVulnerability) :
  List.length (filter (fun v => has_level "severe" v || has_level "high" v) l) =
  (List.length (filter (has_level "severe") l) +
   List.length (filter (has_level "high") l))%nat.
Proof.
  induction l as [|v l IH]; [reflexivity|].
  unfold has_level in *. simpl. destruct (w_risk_level v); simpl; lia.
Qed.

Lemma filter_length_le' {A} (f : A -> bool) (l : list A) :
  (List.length (filter f l) <= List.length l)%nat.
Proof.
  induction l as [|x l IH]; [simpl; lia|]. simpl. destruct (f x); simpl; lia.
Qed.

Lemma sumQ_upper {A} (f : A -> Q) (c : Q) l :
  (forall x, In x l -> f x <= c) -> sumQ f l <= c * CorridorOptimization.natQ (List.length l).
Proof.
  induction l as [|x l IH]; intro H; [change (0 <= c * 0); lra|].
  change (sumQ f (x :: l)) with (f x + sumQ f l).
  cbn [List.length]. rewrite natQ_S.
  assert (H1 := H x (in_eq x l)).
  assert (H2 : sumQ f l <= c * CorridorOptimization.natQ (List.length l)) by (apply IH; intros; apply H; right; assumption).
  rewrite Qmult_plus_distr_r, Qmult_1_r. lra.
Qed.

Lemma sumQ_scaled {A} (f g : A -> Q) (c : Q) l :
  (forall x, In x l -> c * f x <= g x) -> c * sumQ f l <= sumQ g l.
Proof.
  induction l as [|x l IH]; intro H; [change (c * 0 <= 0); lra|].
  change (sumQ f (x :: l)) with (f x + sumQ f l).
  change (sumQ g (x :: l)) with (g x + sumQ g l).
  assert (H1 := H x (in_eq x l)).
  assert (H2 : c * sumQ f l <= sumQ g l) by (apply IH; intros; apply H; right; assumption).
  rewrite Qmult_plus_distr_r. lra.
Qed.

Lemma sumQ_scaled_upper {A} (f g : A -> Q) (c : Q) l :
  (forall x, In x l -> g x <= c * f x) -> sumQ g l <= c * sumQ f l.
Proof.
  induction l as [|x l IH]; intro H; [change (0 <= c * 0); lra|].
  change (sumQ f (x :: l)) with (f x + sumQ f l).
  change (sumQ g (x :: l)) with (g x + sumQ g l).
  assert (H1 := H x (in_eq x l)).
  assert (H2 : sumQ g l <= c * sumQ f l) by (apply IH; intros; apply H; right; assumption).
  rewrite Qmult_plus_distr_r. lra.
Qed.

Lemma sumQ_pos {A} (f : A -> Q) x l :
  (forall y, In y (x :: l) -> 0 < f y) -> 0 < sumQ f (x :: l).
Proof.
  intro H. change (sumQ f (x :: l)) with (f x + sumQ f l).
  assert (H1 := H x (in_eq x l)).
  assert (H2 : 0 <= sumQ f l)
    by (apply sumQ_nonneg; intros y Hy; apply Qlt_le_weak, H; right; exact Hy).
  lra.
Qed.

End WinterFacts.

Section WinterResults.
Import Py RoadData WinterResilience WinterPlanning.

(** Costs of [analyze_winter_vulnerability]: every reported section has a
    positive pre-winter cost below its spring repair cost, and its ROI is
    fixed by its risk level: 6.1 for severe, 4.1 for high, 3.0 for moderate
    and 2.0 for low risk, whatever the section length. *)
Theorem winter_vulnerability_roi_by_level (roads : list RoadDict) (province : string) :
  Forall (fun v =>
    w_roi v == match w_risk_level v with
               | SEVERE => 61 # 10 | HIGH => 41 # 10 | MODERATE => 3 | LOW => 2
               end /\
    0 < w_pre_winter_cost v /\ w_pre_winter_cost v < w_spring_repair_cost v)
    (winter_vulnerabilities roads province).
Proof.
  apply Forall_forall. intros v Hv.
  destruct (winter_vuln_facts roads province v Hv) as (Hc & Hs & Hr & _).
  destruct (vuln_level_costs v Hc Hs Hr) as (H1 & H2 & H3 & _). auto.
Qed.

(** PCI outlook of [analyze_winter_vulnerability]: every reported section
    has a risk score between 0 and 100 and an expected PCI loss between 1.5
    and 22.5 points; its post-winter PCI is non-negative and below the
    current PCI, except for a negative current PCI, where it is 0. *)
Theorem winter_vulnerability_pci_outlook (roads : list RoadDict) (province : string) :
  Forall (fun v =>
    (0 <= w_winter_damage_risk_score v <= 100) /\
    (3 # 2 <= w_expected_pci_loss v <= 45 # 2) /\
    0 <= w_post_winter_pci v /\
    (w_post_winter_pci v < w_current_pci v \/
     (w_current_pci v < 0 /\ w_post_winter_pci v == 0)))
    (winter_vulnerabilities roads province).
Proof.
  apply Forall_forall. intros v Hv.
  destruct (winter_vuln_facts roads province v Hv)
    as (_ & _ & _ & Hrs & Hel & Hpost & Hcur).
  destruct (post_winter_bounds (w_current_pci v) (w_expected_pci_loss v)
              (w_post_winter_pci v) (proj1 Hel) Hcur Hpost) as [H1 H2].
  auto.
Qed.

(** Recommendations of [calculate_pre_winter_intervention]: "Monitor only"
    is never given; "STRONGLY RECOMMENDED" goes exactly with the
    comprehensive crack sealing of severe sections, "Recommended" with the
    high and moderate actions, "Consider" with routine maintenance, and each
    recommendation carries the section's ROI multiplier. *)
Theorem pre_winter_recommendation_by_action (roads : list RoadDict)
    (province : string) (section_from : option string) :
  Forall (fun p =>
    match pw_recommendation p with
    | StronglyRecommended r =>
        r = pw_roi_multiplier p /\
        pw_pre_winter_action p = "Comprehensive crack sealing + waterproofing membrane"%string
    | Recommended r =>
        r = pw_roi_multiplier p /\
        (pw_pre_winter_action p = "Crack sealing and joint repair"%string \/
         pw_pre_winter_action p = "Targeted crack sealing"%string)
    | Consider r =>
        r = pw_roi_multiplier p /\ pw_pre_winter_action p = "Routine maintenance"%string
    | MonitorOnly => False
    end)
    (calculate_pre_winter_intervention roads province section_from).
Proof.
  apply Forall_forall. intros p Hp. unfold calculate_pre_winter_intervention in Hp.
  apply in_map_iff in Hp as [v [<- Hv]]. apply filter_In in Hv as [Hv _].
  destruct (winter_vuln_facts roads province v Hv) as (Hc & Hs & Hr & _).
  destruct (vuln_level_costs v Hc Hs Hr) as (Hroi & _).
  unfold pre_winter_intervention, has_level.
  destruct (w_risk_level v); cbn;
    repeat match goal with
    | |- context [if Qle_bool ?a ?b then _ else _] => destruct (Qle_bool a b) eqn:?
    end; qbools; cbn; try lra; auto.
Qed.

(** [get_winter_forecast_summary]: there is no summary only when there is
    no road; otherwise the four risk-level counts add up to the number of
    sections, the sections crossing a condition threshold are among them,
    the potential savings are the avoided spring repairs minus the
    pre-winter investment, the average expected PCI loss lies between 1.5
    and 22.5, and the overall ROI is 0 with no investment when no section
    is at severe or high risk, and between 4.1 and 6.1 otherwise. *)
Theorem get_winter_forecast_summary_consistent (roads : list RoadDict)
    (province : string) (highway : option string) :
  match get_winter_forecast_summary roads province highway with
  | None => roads = []
  | Some s =>
      (severe_risk_count s + high_risk_count s + moderate_risk_count s
       + low_risk_count s = ws_total_sections s)%nat /\
      (sections_crossing_threshold s <= ws_total_sections s)%nat /\
      total_potential_savings s ==
        total_spring_repair_avoided s - total_pre_winter_investment s /\
      (3 # 2 <= average_expected_pci_loss s <= 45 # 2) /\
      (if Nat.eqb (severe_risk_count s + high_risk_count s) 0
       then total_pre_winter_investment s == 0 /\ overall_roi s == 0
       else 41 # 10 <= overall_roi s <= 61 # 10)
  end.
Proof.
  assert (HF := winter_vuln_facts roads province).
  assert (Hlen : List.length (winter_vulnerabilities roads province) = List.length roads).
  { unfold winter_vulnerabilities, analyze_winter_vulnerability.
    rewrite (Permutation_length (sort_desc_perm _ _)). apply length_map. }
  unfold get_winter_forecast_summary. cbv zeta.
  destruct (winter_vulnerabilities roads province) as [|v0 vs] eqn:Ew.
  - apply length_zero_iff_nil. rewrite <- Hlen. reflexivity.
  - clear Hlen. cbn [severe_risk_count high_risk_count moderate_risk_count
      low_risk_count ws_total_sections sections_crossing_threshold
      total_potential_savings total_spring_repair_avoided total_pre_winter_investment
      average_expected_pci_loss overall_roi].
    set (l := v0 :: vs) in *.
    split; [apply level_counts|].
    split; [apply filter_length_le'|].
    set (at_risk := filter (fun v => has_level "severe" v || has_level "high" v) l).
    assert (HA : forall v, In v at_risk ->
              (w_risk_level v = SEVERE \/ w_risk_level v = HIGH) /\ In v l).
    { intros v Hv. apply filter_In in Hv as [Hv Hb]. split; [|exact Hv].
      unfold has_level in Hb. destruct (w_risk_level v); auto; discriminate. }
    split.
    { apply sumQ_sub. intros v Hv. destruct (HA v Hv) as [_ Hv'].
      destruct (HF v Hv') as (_ & Hs & _). rewrite Hs. reflexivity. }
    split.
    { assert (Hn : 0 < CorridorOptimization.natQ (List.length l))
        by (unfold CorridorOptimization.natQ, Qlt; simpl; lia).
      assert (H1 : (3 # 2) * CorridorOptimization.natQ (List.length l)
                   <= sumQ w_expected_pci_loss l)
        by (apply sumQ_lower; intros v Hv; destruct (HF v Hv) as (_&_&_&_&Hel&_); apply Hel).
      assert (H2 : sumQ w_expected_pci_loss l
                   <= (45 # 2) * CorridorOptimization.natQ (List.length l))
        by (apply sumQ_upper; intros v Hv; destruct (HF v Hv) as (_&_&_&_&Hel&_); apply Hel).
      change (inject_Z (Z.of_nat (List.length l)))
        with (CorridorOptimization.natQ (List.length l)).
      split.
      - apply Qle_trans with (round1 (3 # 2)); [vm_compute; discriminate|].
        apply round1_mono. apply Qle_shift_div_l; [exact Hn|]. lra.
      - apply Qle_trans with (round1 (45 # 2)); [|vm_compute; discriminate].
        apply round1_mono. apply Qle_shift_div_r; [exact Hn|]. lra. }
    rewrite <- at_risk_count. fold at_risk.
    destruct at_risk as [|a ar] eqn:Ea.
    + simpl. split; reflexivity.
    + cbn [List.length Nat.eqb].
      assert (HP : forall v, In v (a :: ar) ->
                0 < w_pre_winter_cost v /\
                (29 # 7) * w_pre_winter_cost v <= w_cost_savings v /\
                w_cost_savings v <= (55 # 9) * w_pre_winter_cost v).
      { intros v Hv. destruct (HA v Hv) as [Hl Hv'].
        destruct (HF v Hv') as (Hc & Hs & Hr & _).
        destruct (vuln_level_costs v Hc Hs Hr) as (_ & Hpos & _ & Hq).
        destruct Hl as [Hl|Hl]; rewrite Hl in Hq; auto. }
      assert (Hpos : 0 < sumQ w_pre_winter_cost (a :: ar))
        by (apply sumQ_pos; intros v Hv; apply (HP v Hv)).
      assert (Hlo : (29 # 7) * sumQ w_pre_winter_cost (a :: ar)
                    <= sumQ w_cost_savings (a :: ar))
        by (apply sumQ_scaled; intros v Hv; apply (HP v Hv)).
      assert (Hhi : sumQ w_cost_savings (a :: ar)
                    <= (55 # 9) * sumQ w_pre_winter_cost (a :: ar))
        by (apply sumQ_scaled_upper; intros v Hv; apply (HP v Hv)).
      destruct (Qltb 0 (sumQ w_pre_winter_cost (a :: ar))) eqn:E; qbools; [|lra].
      split.
      * apply Qle_trans with (round1 (29 # 7)); [vm_compute; discriminate|].
        apply round1_mono. apply Qle_shift_div_l; [exact Hpos|]. lra.
      * apply Qle_trans with (round1 (55 # 9)); [|vm_compute; discriminate].
        apply round1_mono. apply Qle_shift_div_r; [exact Hpos|]. lra.
Qed.

End WinterResults.
